(** * math-scraper: link classification, path resolution and the download ledger

    A shallow embedding of the Python sources

    - [scrapers.py], [utils.py], [config.py]: the unified scraper
      ([determine_paper_number], [extract_metadata], the body of
      [scrape_papers]);
    - [main.py]: the resumable orchestrator ([scrape_pmt_papers] with its
      ledger, retrying download, validation and hashing).

    Conventions of the embedding.

    - A Python [str] is a Rocq [string]; one character of the model is one
      code point below 256.  On that range [\d] is [0-9], and
      [re.IGNORECASE] on an ASCII letter accepts exactly its two cases.
    - [bytes] are a [string] too.
    - An exception is a value of [exn]; code that can raise returns
      [result].
    - The outside world (page fetch, HTTP transfer, PDF validation, MD5,
      clock, [urljoin], [unquote]) enters as Section variables.
    - The tracking CSV is kept as the list of records that [csv.reader]
      gives back; quoting is not modelled.  Of the file-system failures
      only those inside [download_file_with_progress] are modelled;
      [makedirs], [remove] and the [open] of the ledger are taken to
      succeed. *)

From Stdlib Require Import Ascii NArith.
From stdpp Require Import gmap strings list.

(** ** Python strings *)

Module Py.

Definition code (c : ascii) : N := N_of_ascii c.

Definition between (lo hi : N) (c : ascii) : bool :=
  ((lo <=? code c) && (code c <=? hi))%N.

(** [\d] on code points below 256. *)
Definition is_digit (c : ascii) : bool := between 48 57 c.

(** [str.isspace] on code points below 256; this is the set that
    [str.strip()] removes. *)
Definition is_space (c : ascii) : bool :=
  between 9 13 c || between 28 32 c || (code c =? 133)%N || (code c =? 160)%N.

(** [str.lower] for one code point below 256: [A-Z], and the Latin-1
    capitals U+00C0..U+00DE without the multiplication sign U+00D7. *)
Definition lower_char (c : ascii) : ascii :=
  if between 65 90 c || (between 192 222 c && negb (code c =? 215)%N)
  then ascii_of_N (code c + 32) else c.

(** [str.upper] for one ASCII code point; the code applies [upper] and
    [capitalize] to configuration keys, to ["qp"]/["ms"] and to matched
    month names only, all of them ASCII. *)
Definition upper_char (c : ascii) : ascii :=
  if between 97 122 c then ascii_of_N (code c - 32) else c.

Fixpoint map_chars (f : ascii → ascii) (s : string) : string :=
  match s with
  | EmptyString => EmptyString
  | String c s' => String (f c) (map_chars f s')
  end.

Definition lower : string → string := map_chars lower_char.
Definition upper : string → string := map_chars upper_char.

(** [s.capitalize()]: first character upper-cased, the rest lower-cased. *)
Definition capitalize (s : string) : string :=
  match s with
  | EmptyString => EmptyString
  | String c s' => String (upper_char c) (lower s')
  end.

(** [s.startswith(p)] *)
Definition startswith (p s : string) : bool := String.prefix p s.

(** [s[n:]] *)
Fixpoint drop (n : nat) (s : string) : string :=
  match n, s with
  | O, _ => s
  | S n', String _ s' => drop n' s'
  | S _, EmptyString => EmptyString
  end.

(** [s[:n]] *)
Fixpoint take (n : nat) (s : string) : string :=
  match n, s with
  | S n', String c s' => String c (take n' s')
  | _, _ => EmptyString
  end.

(** [needle in hay] *)
Fixpoint contains (needle hay : string) : bool :=
  String.prefix needle hay ||
  match hay with
  | EmptyString => false
  | String _ hay' => contains needle hay'
  end.

(** [s.endswith(p)] *)
Definition endswith (p s : string) : bool :=
  (String.length p <=? String.length s) &&
  String.eqb (drop (String.length s - String.length p) s) p.

(** [s.replace(a, b)] for one-character [a] and [b]. *)
Definition replace_char (a b : ascii) : string → string :=
  map_chars (λ c, if Ascii.eqb c a then b else c).

Fixpoint lstrip (s : string) : string :=
  match s with
  | String c s' => if is_space c then lstrip s' else s
  | EmptyString => EmptyString
  end.

(** Drops trailing white space: a character is kept when something
    that is kept follows it or when it is not white space. *)
Fixpoint rstrip (s : string) : string :=
  match s with
  | EmptyString => EmptyString
  | String c s' =>
      match rstrip s' with
      | EmptyString => if is_space c then EmptyString else String c EmptyString
      | r => String c r
      end
  end.

(** [s.strip()] *)
Definition strip (s : string) : string := rstrip (lstrip s).

(** [s.split(sep)] for a non-empty separator: [cur] holds, reversed, the
    characters of the piece being read. *)
Fixpoint split_go (sep : string) (skip : nat) (cur : string) (s : string)
  : list string :=
  match s with
  | EmptyString => [String.rev cur]
  | String c s' =>
      match skip with
      | S k => split_go sep k cur s'
      | O =>
          if String.prefix sep s
          then String.rev cur :: split_go sep (String.length sep - 1) EmptyString s'
          else split_go sep 0 (String c cur) s'
      end
  end.

Definition split (sep s : string) : list string := split_go sep 0 EmptyString s.

(** [posixpath.basename]: what follows the last ["/"]. *)
Fixpoint basename (p : string) : string :=
  match p with
  | EmptyString => EmptyString
  | String c p' =>
      if contains "/" p' then basename p'
      else if Ascii.eqb c "/" then p' else p
  end.

(** [posixpath.join(a, b)] *)
Definition join2 (a b : string) : string :=
  if String.prefix "/" b then b
  else if String.eqb a "" || endswith "/" a then a +:+ b
  else a +:+ "/" +:+ b.

(** [posixpath.join(a, *ps)] *)
Definition path_join (a : string) (ps : list string) : string :=
  foldl join2 a ps.

(** *** The regular expressions of the sources

    [re.search] tries every start position from the left and returns
    the first match; [search m] does that for a pattern whose match at
    the start of a string is computed by [m]. *)
Fixpoint search {A} (m : string → option A) (s : string) : option A :=
  match m s with
  | Some r => Some r
  | None =>
      match s with
      | EmptyString => None
      | String _ s' => search m s'
      end
  end.

(** The longest run of digits at the start: a greedy [\d+] (or [\d*]). *)
Fixpoint take_digits (s : string) : string :=
  match s with
  | String c s' => if is_digit c then String c (take_digits s') else EmptyString
  | EmptyString => EmptyString
  end.

(** [lit(\d+)] at the start of [s]; the result is group 1. *)
Definition match_lit_digits (lit s : string) : option string :=
  if String.prefix lit s then
    match take_digits (drop (String.length lit) s) with
    | EmptyString => None
    | d => Some d
    end
  else None.

(** [re.search(lit + r'(\d+)', s)], group 1. *)
Definition search_lit_digits (lit : string) : string → option string :=
  search (match_lit_digits lit).

(** [20(\d{2})] at the start of [s]; the result is group 1. *)
Definition match_year (s : string) : option string :=
  if String.prefix "20" s then
    match drop 2 s with
    | String a (String b _) =>
        if is_digit a && is_digit b
        then Some (String a (String b EmptyString)) else None
    | _ => None
    end
  else None.

(** [re.search(r'20(\d{2})', s)], group 1. *)
Definition search_year : string → option string := search match_year.

(** [(a1|a2|...)] at the start of [s]: the alternatives are tried in
    order; the result is the text matched. *)
Fixpoint match_alts (alts : list string) (s : string) : option string :=
  match alts with
  | [] => None
  | a :: alts' => if String.prefix a s then Some a else match_alts alts' s
  end.

(** The same under [re.IGNORECASE]; the text matched is the subject's. *)
Fixpoint match_alts_i (alts : list string) (s : string) : option string :=
  match alts with
  | [] => None
  | a :: alts' =>
      if String.prefix (lower a) (lower s)
      then Some (take (String.length a) s)
      else match_alts_i alts' s
  end.

Definition search_alts (alts : list string) : string → option string :=
  search (match_alts alts).
Definition search_alts_i (alts : list string) : string → option string :=
  search (match_alts_i alts).

(** The character class of the file-name clean-up [re.sub]: angle
    brackets, colon, double quote, slash, backslash, bar, question mark
    and star; each occurrence becomes an underscore. *)
Definition is_invalid_char (c : ascii) : bool :=
  existsb (Ascii.eqb c)
    ["<"; ">"; ":"; ascii_of_N 34; "/"; "\"; "|"; "?"; "*"]%char.

Definition sub_invalid : string → string :=
  map_chars (λ c, if is_invalid_char c then "_"%char else c).

End Py.

(** ** Exceptions *)

Inductive exn := KeyError | IndexError | ValueError | OSError.

Inductive result (A : Type) :=
  | Ok (a : A)
  | Raise (e : exn).
Arguments Ok {A} a.
Arguments Raise {A} e.

(** Sequencing: the first exception raised ends the computation. *)
#[global] Instance result_bind : MBind result := λ A B k r,
  match r with
  | Ok a => k a
  | Raise e => Raise e
  end.

(** [xs[i]] *)
Definition item {A} (xs : list A) (i : nat) : result A :=
  match xs !! i with
  | Some x => Ok x
  | None => Raise IndexError
  end.

(** [d[k]] for a dict literal, kept as the list of its items. *)
Fixpoint dict_get {A} (d : list (string * A)) (k : string) : result A :=
  match d with
  | [] => Raise KeyError
  | (k', v) :: d' => if String.eqb k' k then Ok v else dict_get d' k
  end.

(** Truth value of an optional string: [None] and [""] are false. *)
Definition truthy (o : option string) : bool :=
  match o with
  | Some (String _ _) => true
  | _ => false
  end.

(** How [csv.writer] writes an optional field: [None] becomes empty. *)
Definition csv_field (o : option string) : string := default "" o.

(** ** Board profiles *)

Record paper_section := mk_section {
  name : string;
  identifier : string;
  display_name : option string;
  content_types : list string;
  subtypes : option (list string)
}.

Record board_config := mk_config {
  board_name : string;
  base_url : string;
  paper_sections : list paper_section
}.

(** [section.get('display_name', section['name'])] *)
Definition shown_name (s : paper_section) : string :=
  default (name s) (display_name s).

(** ** Classified metadata, the [metadata] dict of both pipelines *)

Record metadata := mk_metadata {
  exam_board : string;
  level : string;
  paper_type : option string;
  content_type : option string;
  year : option string;
  month : option string;
  subtype : option string
}.

(** The reasons for which a link is passed over. *)
Inductive failure :=
  | UnresolvedPaperIdentity  (* "Cannot determine paper number" *)
  | UnknownContentType       (* "Unknown content type" *)
  | MissingYear.             (* "Missing year metadata" *)

(** ** The world the scrapers act on

    [disk] maps a path to the bytes of the file there; [ledger] is the
    tracking CSV as the records [csv.reader] reads back ([None]: no such
    file, [Some []]: an empty file); [requests] logs the URL of every
    transfer attempted, oldest first.  The ledger file is kept apart from
    [disk]: no artifact is saved over it.  Directories and politeness
    delays are not modelled.

    A step that can raise returns the world it reached together with its
    [result]: an exception keeps what was done before it. *)

Record world := mk_world {
  disk : gmap string string;
  ledger : option (list (list string));
  requests : list string
}.

Definition log_request (url : string) (w : world) : world :=
  mk_world (disk w) (ledger w) (requests w ++ [url]).

Definition write_file (path content : string) (w : world) : world :=
  mk_world (<[path := content]> (disk w)) (ledger w) (requests w).

Definition remove_file (path : string) (w : world) : world :=
  mk_world (delete path (disk w)) (ledger w) (requests w).

(** [open(csv_path, 'a')] followed by [writer.writerow(row)]. *)
Definition append_row (row : list string) (w : world) : world :=
  mk_world (disk w) (Some (default [] (ledger w) ++ [row])) (requests w).

(** The records of the ledger file, none when there is no file. *)
Definition ledger_rows (w : world) : list (list string) := default [] (ledger w).

(** ** [config.py], [utils.py], [scrapers.py]: the unified scraper *)

Module Scrapers.

Definition qp_ms : list string := ["QP"; "MS"].

(** [config.CONFIGS] *)
Definition CONFIGS : list (string * board_config) :=
  [ ("ocr_alevel",
     mk_config "OCR A-Level"
       "https://www.physicsandmathstutor.com/maths-revision/a-level-ocr/papers/"
       [ mk_section "Paper 1 - Pure" "component-1-pure" None qp_ms None;
         mk_section "Paper 2 - Pure and Statistics"
           "component-2-pure-and-statistics" None qp_ms None;
         mk_section "Paper 3 - Pure and Mechanics"
           "component-3-pure-and-mechanics" None qp_ms None ]);
    ("ocr_mei_alevel",
     mk_config "OCR MEI A-Level"
       "https://www.physicsandmathstutor.com/maths-revision/a-level-ocr-mei/papers/"
       [ mk_section "Component 1 - Pure and Mechanics"
           "component-1-pure-and-mechanics" None qp_ms None;
         mk_section "Component 2 - Pure and Statistics"
           "component-2-pure-and-statistics" None qp_ms None;
         mk_section "Component 3 - Pure and Comprehension"
           "component-3-pure-and-comprehension" None qp_ms None ]);
    ("aqa_alevel",
     mk_config "AQA A-Level"
       "https://www.physicsandmathstutor.com/maths-revision/a-level-aqa/papers/"
       [ mk_section "Paper 1 - Pure" "paper-1-pure" None qp_ms None;
         mk_section "Paper 2 - Pure and Mechanics" "paper-2-pure-mechanics"
           None qp_ms None;
         mk_section "Paper 3 - Pure and Statistics" "paper-3-pure-statistics"
           None qp_ms None ]);
    ("edexcel_alevel",
     mk_config "Edexcel A-Level"
       "https://www.physicsandmathstutor.com/maths-revision/a-level-edexcel/papers/"
       [ mk_section "Paper 1 - Pure" "paper-1-pure" None qp_ms None;
         mk_section "Paper 2 - Pure" "paper-2-pure" None qp_ms None;
         mk_section "Paper 3 - Statistics & Mechanics"
           "paper-3-statistics-mechanics" None qp_ms
           (Some ["Mechanics"; "Statistics"]) ]) ].

(** The pair [(paper_number, paper_display_name)] for a number found. *)
Definition numbered (number : string) : option string * option string :=
  (Some ("paper " +:+ number), Some ("Paper " +:+ number)).

(** [determine_paper_number(href, link_text, config_key)] *)
Definition determine_paper_number (href link_text config_key : string)
  : option string * option string :=
  if String.eqb config_key "ocr_alevel" then
    match Py.search_lit_digits "Component " link_text with
    | Some number => numbered number
    | None =>
        match Py.search_lit_digits "component-" (Py.lower href) with
        | Some number => numbered number
        | None =>
            if Py.contains "pure-mathematics" (Py.lower href)
               && negb (Py.contains "statistics" (Py.lower href))
               && negb (Py.contains "mechanics" (Py.lower href))
            then numbered "1"
            else if Py.contains "statistics" (Py.lower href)
                    || Py.contains "stats" (Py.lower href)
            then numbered "2"
            else if Py.contains "mechanics" (Py.lower href)
                    || Py.contains "mech" (Py.lower href)
            then numbered "3"
            else (None, None)
        end
    end
  else if String.eqb config_key "ocr_mei_alevel" then
    match Py.search_lit_digits "Component " link_text with
    | Some number => numbered number
    | None =>
        match Py.search_lit_digits "Paper-" href with
        | Some number => numbered number
        | None =>
            if Py.contains "mechanics" (Py.lower href)
               || Py.contains "mech" (Py.lower href)
               || Py.contains "component-1" (Py.lower href)
            then numbered "1"
            else if Py.contains "statistics" (Py.lower href)
                    || Py.contains "stats" (Py.lower href)
                    || Py.contains "component-2" (Py.lower href)
            then numbered "2"
            else if Py.contains "comprehension" (Py.lower href)
                    || Py.contains "comp" (Py.lower href)
                    || Py.contains "component-3" (Py.lower href)
            then numbered "3"
            else (None, None)
        end
    end
  else if String.eqb config_key "aqa_alevel"
          || String.eqb config_key "edexcel_alevel" then
    match Py.search_lit_digits "Paper-" href with
    | Some number =>
        (* group(0) is the whole match, group(1) its digits *)
        (Some (Py.replace_char "-" " " (Py.lower ("Paper-" +:+ number))),
         Some ("Paper " +:+ number))
    | None => (None, None)
    end
  else (None, None).

(** The content type read off the link text: ["QP"] is looked for
    first, ["MS"] only when ["QP"] is absent. *)
Definition content_type_of (link_text : string) : option string :=
  if Py.contains "QP" link_text then Some "QP"
  else if Py.contains "MS" link_text then Some "MS"
  else None.

Definition session_months : list string :=
  ["June"; "October"; "January"; "November"; "Nov"].

(** The month of [extract_metadata]: the first match of
    [(June|October|January|November|Nov)], with ["Nov"] spelled out. *)
Definition month_of (link_text : string) : option string :=
  match Py.search_alts session_months link_text with
  | Some m => Some (if String.eqb m "Nov" then "November" else m)
  | None => None
  end.

Definition year_of (link_text : string) : option string :=
  match Py.search_year link_text with
  | Some yy => Some ("20" +:+ yy)
  | None => None
  end.

(** [extract_metadata(href, link_text, config_key, paper_number,
    paper_display_name)], called with a paper number that is a string. *)
Definition extract_metadata (href link_text config_key paper_number : string)
    (paper_display_name : option string) : result metadata :=
  '(board, lvl) ←
    (if String.eqb config_key "ocr_mei_alevel" then Ok ("ocr-mei", "alevel")
     else
       b ← item (Py.split "_" config_key) 0;
       l ← item (Py.split "_" config_key) 1;
       Ok (b, l));
  Ok {| exam_board := board;
        level := lvl;
        paper_type := paper_display_name;
        content_type := content_type_of link_text;
        year := year_of link_text;
        month := month_of link_text;
        subtype :=
          if String.eqb config_key "edexcel_alevel"
             && Py.contains "paper 3" paper_number
          then
            if Py.contains "Mech" link_text
               || Py.contains "mech" (Py.lower link_text)
            then Some "Mechanics"
            else if Py.contains "Stat" link_text
                    || Py.contains "stat" (Py.lower link_text)
            then Some "Statistics"
            else None
          else None |}.

(** What the loop of [scrape_papers] has decided for one link before it
    touches the network. *)
Record plan := mk_plan {
  plan_url : string;
  plan_filename : string;
  plan_folder : string;
  plan_path : string;
  plan_metadata : metadata;
  plan_display_type : string
}.

Inductive classified :=
  | Skipped (why : failure)
  | Planned (p : plan).

Section WithWorld.

(** [urllib.parse.unquote] *)
Variable unquote : string → string.
(** [requests.get]: the answer to the [n]-th request of the run, its
    status code and body, or [None] when the call raises. *)
Variable http_get : nat → string → option (nat * string).
(** Whether [open(path, 'wb')] succeeds. *)
Variable writable : string → bool.
(** [datetime.now().strftime(...)] at the [n]-th ledger record. *)
Variable now : nat → string.

(** The redirect rewrite at the head of the loop body. *)
Definition resolve_href (href : string) : result string :=
  if Py.contains "pdf-pages" href then
    pdf_url_param ← item (Py.split "?pdf=" href) 1;
    Ok (unquote pdf_url_param)
  else Ok href.

(** The loop body of [scrape_papers] up to the choice of [save_path]. *)
Definition classify_link (base_path config_key : string)
    (link : string * string) : result classified :=
  let '(href0, link_text) := link in
  href ← resolve_href href0;
  let '(paper_number, paper_display_name) :=
    determine_paper_number href link_text config_key in
  match paper_number with
  | Some (String _ _ as paper_number) =>
      let kind :=
        if Py.contains "QP" link_text then Some ("qp", "question papers")
        else if Py.contains "MS" link_text then Some ("ms", "mark schemes")
        else None in
      match kind with
      | None => Ok (Skipped UnknownContentType)
      | Some (ctype, display_type) =>
          md ← extract_metadata href link_text config_key paper_number
                 paper_display_name;
          let md := {| exam_board := exam_board md; level := level md;
                       paper_type := paper_type md;
                       content_type := Some (Py.upper ctype);
                       year := year md; month := month md;
                       subtype := subtype md |} in
          let filename := Py.basename href in
          let save_folder :=
            Py.path_join base_path
              [level md; exam_board md; paper_number; ctype] in
          Ok (Planned
                {| plan_url := href; plan_filename := filename;
                   plan_folder := save_folder;
                   plan_path := Py.join2 save_folder filename;
                   plan_metadata := md;
                   plan_display_type := display_type |})
      end
  | _ => Ok (Skipped UnresolvedPaperIdentity)
  end.

(** [utils.add_to_tracking_csv]: one record of ten fields. *)
Definition tracking_row (md : metadata) (filename file_path : string)
    (date : string) : list string :=
  [ filename; exam_board md; level md; csv_field (paper_type md);
    csv_field (subtype md); csv_field (content_type md);
    csv_field (year md); csv_field (month md); file_path; date ].

(** One [requests.get], logged. *)
Definition get (url : string) (w : world)
  : world * option (nat * string) :=
  (log_request url w, http_get (length (requests w)) url).

(** The [try] block of the loop body: fetch, retry once on status
    400, save on status 200 and add the ledger record.  The result
    says whether [downloads_count] is incremented; every exception
    is caught and leaves what was done so far. *)
Definition download (p : plan) (w : world) : world * bool :=
  let '(w, r) := get (plan_url p) w in
  let '(w, r) :=
    match r with
    | Some (400, _) => get (plan_url p) w
    | _ => (w, r)
    end in
  match r with
  | Some (200, body) =>
      if writable (plan_path p) then
        let w := write_file (plan_path p) body w in
        (append_row
           (tracking_row (plan_metadata p) (plan_filename p) (plan_path p)
              (now (length (ledger_rows w)))) w,
         true)
      else (w, false)
  | _ => (w, false)
  end.

(** The whole loop body for one link. *)
Definition process_link (base_path config_key : string) (dry_run : bool)
    (link : string * string) (w : world) : world * result bool :=
  match classify_link base_path config_key link with
  | Raise e => (w, Raise e)
  | Ok (Skipped _) => (w, Ok false)
  | Ok (Planned p) =>
      if dry_run then (w, Ok false)
      else let '(w', got) := download p w in (w', Ok got)
  end.

(** The filter that builds [paper_links] from all [a] elements with
    an [href], given as pairs of [href] and text. *)
Definition is_paper_link (config_key : string) (a : string * string) : bool :=
  if String.eqb config_key "aqa_alevel" then
    (Py.contains "QP" a.2 || Py.contains "MS" a.2)
    && (Py.contains "Paper" a.1 || Py.contains "paper" (Py.lower a.1))
  else Py.contains "QP" a.2 || Py.contains "MS" a.2.

Definition paper_links (config_key : string) (anchors : list (string * string))
  : list (string * string) :=
  (λ a, (a.1, Py.strip a.2)) <$> filter (λ a, is_paper_link config_key a = true) anchors.

(** The loop over [paper_links]; an exception ends it. *)
Fixpoint process_links (base_path config_key : string) (dry_run : bool)
    (links : list (string * string)) (w : world) (count : nat)
  : world * result nat :=
  match links with
  | [] => (w, Ok count)
  | link :: links' =>
      match process_link base_path config_key dry_run link w with
      | (w', Ok got) =>
          process_links base_path config_key dry_run links' w'
            (if got then S count else count)
      | (w', Raise e) => (w', Raise e)
      end
  end.

End WithWorld.

End Scrapers.

(** ** [main.py]: the resumable orchestrator *)

(** The parsed page, as far as [scrape_pmt_papers] navigates it: the
    elements that are siblings of the section headings, in document
    order.  A heading is one of [h1] to [h6], the names that [find_parent]
    and the gathering loop look for, and carries its level, its text and
    the [id]s of the [a] elements inside it; a [div] carries the [id]s of
    [a] elements inside it, the text of its first [h5]/[h6] if any, and
    its links as pairs of [href] and text; an element of any other name
    ([p], [span], an [h7]) is [Other].  An anchor inside a [div] has no
    heading above it, and every [h4] of the page is one of these
    siblings. *)
Inductive heading_level := H1 | H2 | H3 | H4 | H5 | H6.

#[global] Instance heading_level_eq_dec : EqDecision heading_level.
Proof. solve_decision. Defined.

Inductive element :=
  | Heading (lvl : heading_level) (text : string) (anchor_ids : list string)
  | Div (anchor_ids : list string) (content_heading : option string)
        (links : list (string * string))
  | Hr
  | Other (anchor_ids : list string).

#[global] Instance element_eq_dec : EqDecision element.
Proof. solve_decision. Defined.

(** The outcome of one attempt of [download_file_with_progress]:
    the body arrived and was written; the request failed with a
    [RequestException] before the file was opened; the stream broke with
    one after [partial] was written; or an exception that is no
    [RequestException] left the attempt, such as the [ValueError] of
    [int] on a malformed [Content-Length] or the [OSError] of [open] or
    [write], after [written], if anything, was put in the file. *)
Inductive transfer_result :=
  | Delivered (body : string)
  | Refused
  | Broken (partial : string)
  | Crashed (e : exn) (written : option string).

Module Main.

(** [main.CONFIGS] *)
Definition CONFIGS : list (string * board_config) :=
  [ ("edexcel_alevel",
     mk_config "Edexcel A-Level"
       "https://www.physicsandmathstutor.com/maths-revision/a-level-edexcel/papers/"
       [ mk_section "Paper 1" "paper1" None ["QP"; "MS"] None;
         mk_section "Paper 2" "paper2" None ["QP"; "MS"] None;
         mk_section "Paper 3" "paper1"
           (Some "Paper 3 - Statistics & Mechanics") ["QP"; "MS"]
           (Some ["Mechanics"; "Statistics"]) ]) ].

Definition ledger_header : list string :=
  [ "filename"; "exam_board"; "level"; "paper_type"; "subtype";
    "content_type"; "year"; "month"; "file_path"; "download_date";
    "file_hash"; "validated" ].

(** [initialize_tracking_csv(csv_path, overwrite)] *)
Definition initialize_tracking_csv (overwrite : bool) (w : world) : world :=
  let exists_ := match ledger w with Some (_ :: _) => true | _ => false end in
  if exists_ && negb overwrite then w
  else mk_world (disk w) (Some [ledger_header]) (requests w).

(** The index at which a [csv.DictReader] row finds a field name: the
    last column of that name. *)
Fixpoint column_of (key : string) (fieldnames : list string) (i : nat)
    (found : option nat) : option nat :=
  match fieldnames with
  | [] => found
  | f :: fs =>
      column_of key fs (S i) (if String.eqb f key then Some i else found)
  end.

(** [row[key]] for a row of a [csv.DictReader]: [KeyError] without such
    a column, [None] (the [restval]) when the record is too short. *)
Definition dict_row_get (fieldnames row : list string) (key : string)
  : result (option string) :=
  match column_of key fieldnames 0 None with
  | None => Raise KeyError
  | Some i => Ok (row !! i)
  end.

(** The loop of [get_downloaded_files] over the records after the
    header; empty records are passed over by the reader, and the first
    exception ends the loop with what was gathered. *)
Fixpoint read_filenames (fieldnames : list string) (rows : list (list string))
    (downloaded : gset (option string)) : gset (option string) :=
  match rows with
  | [] => downloaded
  | [] :: rows' => read_filenames fieldnames rows' downloaded
  | row :: rows' =>
      match dict_row_get fieldnames row "filename" with
      | Ok f => read_filenames fieldnames rows' ({[ f ]} ∪ downloaded)
      | Raise _ => downloaded
      end
  end.

(** [get_downloaded_files(csv_path)] *)
Definition get_downloaded_files (w : world) : gset (option string) :=
  match ledger w with
  | Some (fieldnames :: rows) => read_filenames fieldnames rows ∅
  | _ => ∅
  end.

(** [config_key.split('_')[0]] and [[1]], board and level. *)
Definition key_parts (config_key : string) : result (string * string) :=
  board ← item (Py.split "_" config_key) 0;
  lvl ← item (Py.split "_" config_key) 1;
  Ok (board, lvl).

Definition month_names : list string :=
  [ "January"; "February"; "March"; "April"; "May"; "June"; "July";
    "August"; "September"; "October"; "November"; "December" ].

Definition year_of (link_text : string) : option string :=
  match Py.search_year link_text with
  | Some yy => Some ("20" +:+ yy)
  | None => None
  end.

Definition month_of (link_text : string) : option string :=
  Py.capitalize <$> Py.search_alts_i month_names link_text.

(** The loop over [section["subtypes"]] in [scrape_pmt_papers]. *)
Fixpoint subtype_of (subs : list string) (link_text : string) : option string :=
  match subs with
  | [] => None
  | s :: subs' =>
      if Py.contains (Py.lower s) (Py.lower link_text)
         || Py.contains ("(" +:+ Py.lower (Py.take 4 s) +:+ ")") (Py.lower link_text)
      then Some s
      else subtype_of subs' link_text
  end.

(** *** Locating a section on the page *)

Definition anchors_of (e : element) : list string :=
  match e with
  | Heading _ _ ids | Div ids _ _ | Other ids => ids
  | Hr => []
  end.

(** The position of the first element satisfying [p]. *)
Fixpoint position {A} (p : A → bool) (l : list A) : option nat :=
  match l with
  | [] => None
  | x :: l' => if p x then Some 0 else S <$> position p l'
  end.

(** [soup.find('a', id=ident)], as the position of the element that
    holds the anchor. *)
Definition find_anchor (ident : string) (page : list element) : option nat :=
  position (λ e, bool_decide (ident ∈ anchors_of e)) page.

(** The element is one of [h1] to [h6]. *)
Definition is_heading (e : element) : bool :=
  match e with Heading _ _ _ => true | _ => false end.

Definition is_h4 (e : element) : bool :=
  match e with Heading H4 _ _ => true | _ => false end.

Definition heading_text (e : element) : string :=
  match e with Heading _ t _ => t | _ => "" end.

(** [soup.find_all('h4')], as positions on the page. *)
Fixpoint positions_from {A} (p : A → bool) (i : nat) (l : list A) : list nat :=
  match l with
  | [] => []
  | x :: l' => if p x then i :: positions_from p (S i) l' else positions_from p (S i) l'
  end.

Definition all_h4s (page : list element) : list nat := positions_from is_h4 0 page.

(** [all_h4s.index(section_heading)]: the first [h4] equal to the
    heading (tags compare by content), [ValueError] without one. *)
Definition index_of_heading (page : list element) (h4s : list nat) (h : nat)
  : result nat :=
  match position (λ k, bool_decide (page !! k = page !! h)) h4s with
  | Some i => Ok i
  | None => Raise ValueError
  end.

(** The [for i in range(current_index, len(all_h4s))] scan: the first
    [h4] from [current_index] on whose text contains ["Paper 3"]. *)
Definition scan_paper3 (page : list element) (h4s : list nat) (current_index : nat)
  : option nat :=
  head (filter (λ k, Py.contains "Paper 3" (heading_text (default Hr (page !! k))) = true)
          (drop current_index h4s)).

(** From the section's anchor to the heading its links hang under:
    [None] for the two warnings that skip the section. *)
Definition locate (section : paper_section) (page : list element)
  : result (option nat) :=
  match find_anchor (identifier section) page with
  | None => Ok None
  | Some a =>
      if is_heading (default Hr (page !! a)) then
        if truthy (display_name section)
           && Py.contains "Paper 3" (default "" (display_name section))
        then
          current_index ← index_of_heading page (all_h4s page) a;
          Ok (Some (default a (scan_paper3 page (all_h4s page) current_index)))
        else Ok (Some a)
      else Ok None
  end.

(** The content type a [div] announces in its [h5]/[h6]. *)
Definition content_kind (content_heading : option string) : option string :=
  match content_heading with
  | Some t =>
      if Py.contains "Question" t then Some "QP"
      else if Py.contains "Mark" t || Py.contains "MS" t then Some "MS"
      else None
  | None => None
  end.

(** [find_next_sibling('div')]: the siblings from the next [div] on. *)
Fixpoint from_next_div (els : list element) : option (list element) :=
  match els with
  | [] => None
  | Div _ _ _ :: _ => Some els
  | _ :: els' => from_next_div els'
  end.

(** The [while] loop that gathers [(href, text, content_type)] from
    the siblings up to the next [hr] or heading. *)
Fixpoint gather (els : list element) : list (string * string * string) :=
  match els with
  | [] => []
  | Hr :: _ | Heading _ _ _ :: _ => []
  | Div _ h links :: els' =>
      match content_kind h with
      | Some ct => (λ l, (l.1, l.2, ct)) <$> links
      | None => []
      end ++ gather els'
  | Other _ :: els' => gather els'
  end.

(** The links of the section whose heading is at position [h]. *)
Definition links_under (page : list element) (h : nat)
  : option (list (string * string * string)) :=
  gather <$> from_next_div (drop (S h) page).

(** The links [scrape_pmt_papers] processes for a section. *)
Definition section_links (section : paper_section) (page : list element)
  : result (option (list (string * string * string))) :=
  h ← locate section page;
  Ok (h ≫= links_under page).

(** *** Processing one link *)

(** What became of a link in the loop of [scrape_pmt_papers]. *)
Inductive outcome :=
  | NoYear           (* skipped: "Missing year metadata" *)
  | AlreadyKnown     (* skipped: "Already downloaded" *)
  | TransferFailed   (* "Failed to download" *)
  | InvalidFile      (* "Invalid PDF file", removed *)
  | Errored          (* "Error processing": an exception inside the [try] *)
  | Recorded.        (* saved and written to the ledger *)

Section WithWorld.

(** [urllib.parse.urljoin] *)
Variable urljoin : string → string → string.
(** The server: what attempt [n] of the retry loop gets for a URL. *)
Variable transfer : string → nat → transfer_result.
(** [PyPDF2]: whether these bytes parse as a PDF with a page. *)
Variable valid_pdf : string → bool.
(** [hashlib.md5(...).hexdigest()] *)
Variable md5_hexdigest : string → string.
(** [datetime.now().strftime(...)] after [n] requests. *)
Variable now : nat → string.

(** [download_file_with_progress(session, url, save_path, retries)]:
    [attempt] counts up, [left] is the number of attempts left.  Only
    a [RequestException] is caught and retried; any other exception
    leaves the function. *)
Fixpoint download_file_with_progress (url save_path : string)
    (attempt left : nat) (w : world) : world * result bool :=
  match left with
  | O => (w, Ok false)
  | S left' =>
      let w := log_request url w in
      match transfer url attempt with
      | Delivered body => (write_file save_path body w, Ok true)
      | Refused =>
          download_file_with_progress url save_path (S attempt) left' w
      | Broken partial =>
          download_file_with_progress url save_path (S attempt) left'
            (write_file save_path partial w)
      | Crashed e None => (w, Raise e)
      | Crashed e (Some partial) =>
          (write_file save_path partial w, Raise e)
      end
  end.

(** [validate_pdf(file_path)]: a file that cannot be read is invalid. *)
Definition validate_pdf (file_path : string) (w : world) : bool :=
  match disk w !! file_path with
  | Some bytes => valid_pdf bytes
  | None => false
  end.

(** [calculate_file_hash(file_path)]: empty when the file cannot be
    read. *)
Definition calculate_file_hash (file_path : string) (w : world) : string :=
  match disk w !! file_path with
  | Some bytes => md5_hexdigest bytes
  | None => ""
  end.

(** [str(validated)] *)
Definition str_bool (b : bool) : string := if b then "True" else "False".

(** The record [add_to_tracking_csv] writes: twelve fields. *)
Definition tracking_row (md : metadata) (filename file_path file_hash : string)
    (validated : bool) (date : string) : list string :=
  [ filename; exam_board md; level md; csv_field (paper_type md);
    csv_field (subtype md); csv_field (content_type md);
    csv_field (year md); csv_field (month md); file_path; date;
    file_hash; str_bool validated ].

Definition add_to_tracking_csv (md : metadata)
    (filename file_path file_hash : string) (validated : bool) (w : world)
  : world :=
  append_row
    (tracking_row md filename file_path file_hash validated
       (now (length (requests w)))) w.

(** The name under which a link is saved and remembered. *)
Definition filename_of (full_url link_text : string) : string :=
  if Py.endswith ".pdf" (Py.basename full_url) then Py.basename full_url
  else Py.sub_invalid (Py.strip link_text +:+ ".pdf").

Definition full_url_of (base_url href : string) : string :=
  if Py.startswith "http" href then href else urljoin base_url href.

(** The [metadata] dict the loop body builds for a link. *)
Definition link_metadata (board lvl : string) (section : paper_section)
    (link : string * string * string) : metadata :=
  {| exam_board := board; level := lvl;
     paper_type := Some (name section);
     content_type := Some link.2;
     year := year_of link.1.2;
     month := month_of link.1.2;
     subtype :=
       match subtypes section with
       | Some subs => subtype_of subs link.1.2
       | None => None
       end |}.

(** The second look at the link text made for Paper 3 once a
    subtype was found. *)
Definition paper3_subtype (link_text : string) (found : option string)
  : option string :=
  if Py.contains "(Mech)" link_text || Py.contains "(Mechanics)" link_text
  then Some "Mechanics"
  else if Py.contains "(Stats)" link_text || Py.contains "(Statistics)" link_text
  then Some "Statistics"
  else found.

Definition content_folder (content_type : string) : string :=
  if String.eqb content_type "QP" then "question_papers" else "mark_schemes".

(** The metadata of a link as it stands once the folder is chosen,
    and [folder_components] without [base_path]. *)
Definition folder_of (md : metadata) (link_text : string)
  : metadata * list string :=
  let front :=
    [ Py.capitalize (exam_board md); Py.upper (level md);
      Py.replace_char " " "_" (csv_field (paper_type md)) ] in
  if Py.contains "Paper 3" (csv_field (paper_type md)) && truthy (subtype md)
  then
    let st := paper3_subtype link_text (subtype md) in
    ({| exam_board := exam_board md; level := level md;
        paper_type := paper_type md; content_type := content_type md;
        year := year md; month := month md; subtype := st |},
     front ++ [csv_field st; content_folder (csv_field (content_type md))])
  else (md, front ++ [content_folder (csv_field (content_type md))]).

(** [save_folder] and [save_path] *)
Definition save_folder_of (base_path : string) (md : metadata)
    (link_text : string) : string :=
  Py.path_join base_path (folder_of md link_text).2.

Definition save_path_of (base_path : string) (md : metadata)
    (link_text filename : string) : string :=
  Py.join2 (save_folder_of base_path md link_text) filename.

(** The body of the loop over the links of a section.  What is
    raised inside the [try], which begins at the download, is logged
    and the link passed over; [config_key.split('_')[1]] is outside
    it. *)
Definition process_link (base_path config_key base_url : string)
    (section : paper_section) (resume validate_files : bool)
    (downloaded : gset (option string))
    (link : string * string * string) (w : world)
  : world * result outcome :=
  let full_url := full_url_of base_url link.1.1 in
  match key_parts config_key with
  | Raise e => (w, Raise e)
  | Ok (board, lvl) =>
      let md := link_metadata board lvl section link in
      if negb (truthy (year md)) then (w, Ok NoYear)
      else
        let filename := filename_of full_url link.1.2 in
        if resume && bool_decide (Some filename ∈ downloaded)
        then (w, Ok AlreadyKnown)
        else
          let save_path := save_path_of base_path md link.1.2 filename in
          let md := (folder_of md link.1.2).1 in
          match download_file_with_progress full_url save_path 0 3 w with
          | (w, Ok download_success) =>
              if download_success then
                if validate_files && negb (validate_pdf save_path w)
                then (remove_file save_path w, Ok InvalidFile)
                else
                  let validated := validate_files in
                  let file_hash := calculate_file_hash save_path w in
                  (add_to_tracking_csv md filename save_path file_hash
                     validated w, Ok Recorded)
              else (w, Ok TransferFailed)
          | (w, Raise _) => (w, Ok Errored)   (* [except Exception] *)
          end
  end.

(** The loop over the links of a section; an exception ends it. *)
Fixpoint process_links (base_path config_key base_url : string)
    (section : paper_section) (resume validate_files : bool)
    (downloaded : gset (option string))
    (links : list (string * string * string)) (w : world)
  : world * result unit :=
  match links with
  | [] => (w, Ok ())
  | link :: links' =>
      match process_link base_path config_key base_url section resume
              validate_files downloaded link w with
      | (w', Ok _) =>
          process_links base_path config_key base_url section resume
            validate_files downloaded links' w'
      | (w', Raise e) => (w', Raise e)
      end
  end.

(** One round of the loop over [config["paper_sections"]]. *)
Definition process_section (base_path config_key base_url : string)
    (resume validate_files : bool) (downloaded : gset (option string))
    (page : list element) (section : paper_section) (w : world)
  : world * result unit :=
  match section_links section page with
  | Raise e => (w, Raise e)
  | Ok None => (w, Ok ())
  | Ok (Some links) =>
      process_links base_path config_key base_url section resume
        validate_files downloaded links w
  end.

Fixpoint process_sections (base_path config_key base_url : string)
    (resume validate_files : bool) (downloaded : gset (option string))
    (page : list element) (sections : list paper_section) (w : world)
  : world * result unit :=
  match sections with
  | [] => (w, Ok ())
  | section :: sections' =>
      match process_section base_path config_key base_url resume
              validate_files downloaded page section w with
      | (w', Ok _) =>
          process_sections base_path config_key base_url resume
            validate_files downloaded page sections' w'
      | (w', Raise e) => (w', Raise e)
      end
  end.

(** [soup] for the main page: [None] when fetching it failed. *)
Variable fetch_page : string → option (list element).

(** [scrape_pmt_papers(base_path, csv_path, config_key, resume,
    validate_files)] over a table of board profiles; the result is
    the value returned.  [create_folder_structure] contributes its
    [parts[1]] only, directories not being modelled. *)
Definition scrape_with (configs : list (string * board_config))
    (base_path config_key : string) (resume validate_files : bool)
    (w : world) : world * result bool :=
  match dict_get configs config_key with
  | Raise e => (w, Raise e)
  | Ok config =>
      match item (Py.split "_" config_key) 1 with
      | Raise e => (w, Raise e)
      | Ok _ =>
          let w := initialize_tracking_csv (negb resume) w in
          let downloaded :=
            if resume then get_downloaded_files w else ∅ in
          match fetch_page (base_url config) with
          | None => (w, Ok false)
          | Some page =>
              match process_sections base_path config_key (base_url config)
                      resume validate_files downloaded page
                      (paper_sections config) w with
              | (w', Ok _) => (w', Ok true)
              | (w', Raise e) => (w', Raise e)
              end
          end
      end
  end.

Definition scrape_pmt_papers : string → string → bool → bool → world
  → world * result bool := scrape_with CONFIGS.

End WithWorld.

End Main.


(** ** Set-up code and entry points

    The functions around the two loops: the folder set-up of both
    pipelines, the ledger set-up of [utils.py], the whole of
    [scrapers.scrape_papers] and [math_paper_scraper.main].

    Directories are not part of [world]; a folder set-up is modelled by
    the list of paths it hands to [os.makedirs], in order, each call
    taken to succeed. *)

(** The exceptions met outside the loop bodies, beside the three of
    [exn]. *)
Inductive error :=
  | Builtin (e : exn)
  | AttributeError       (* [paper_match.group(...)] on [None] *)
  | RequestException.    (* raised by [requests.get] *)

(** What a call comes to: the value it returns or the exception that
    leaves it. *)
Inductive run (A : Type) :=
  | Returns (a : A)
  | Raises (e : error).
Arguments Returns {A} a.
Arguments Raises {A} e.

(** *** [utils.py] *)

Module Utils.

Definition ledger_header : list string :=
  [ "filename"; "exam_board"; "level"; "paper_type"; "subtype";
    "content_type"; "year"; "month"; "file_path"; "download_date" ].

(** [initialize_tracking_csv(csv_path)]: the file is opened with ['w']
    whatever it held. *)
Definition initialize_tracking_csv (w : world) : world :=
  mk_world (disk w) (Some [ledger_header]) (requests w).

(** [board] and [level] of [create_folder_structure]. *)
Definition board_level (config_key : string) : result (string * string) :=
  if String.eqb config_key "ocr_mei_alevel" then Ok ("ocr-mei", "alevel")
  else
    board ← item (Py.split "_" config_key) 0;
    lvl ← item (Py.split "_" config_key) 1;
    Ok (board, lvl).

(** [paper_number] of a section: from [Component (\d+)] when the name
    contains ["Component"], else the lower-cased match of
    [Paper (\d+)]; [None] where [paper_match] is [None]. *)
Definition paper_number_of (section_name : string) : option string :=
  if Py.contains "Component" section_name then
    (λ number, "paper " +:+ number)
      <$> Py.search_lit_digits "Component " section_name
  else
    (λ number, Py.lower ("Paper " +:+ number))
      <$> Py.search_lit_digits "Paper " section_name.

(** The folders of the loop over [config["paper_sections"]], up to the
    section whose name gives no paper number. *)
Fixpoint section_folders (base_path board lvl : string)
    (sections : list paper_section) : list string * option error :=
  match sections with
  | [] => ([], None)
  | section :: sections' =>
      match paper_number_of (name section) with
      | None => ([], Some AttributeError)
      | Some paper_number =>
          let here :=
            (λ content_type,
               Py.path_join base_path
                 [lvl; board; paper_number; Py.lower content_type])
              <$> content_types section in
          let '(rest, e) := section_folders base_path board lvl sections' in
          (here ++ rest, e)
      end
  end.

(** [create_folder_structure(base_path, config_key)] over a table of
    board profiles: the folders made, and the exception if one ended
    the call. *)
Definition create_folder_structure (configs : list (string * board_config))
    (base_path config_key : string) : list string * option error :=
  match dict_get configs config_key with
  | Raise e => ([], Some (Builtin e))
  | Ok config =>
      match board_level config_key with
      | Raise e => ([], Some (Builtin e))
      | Ok (board, lvl) =>
          section_folders base_path board lvl (paper_sections config)
      end
  end.

End Utils.

(** *** [scrapers.scrape_papers], the whole function *)

Module Unified.

Section WithWorld.

Variable unquote : string → string.
Variable http_get : nat → string → option (nat * string).
Variable writable : string → bool.
Variable now : nat → string.
(** [BeautifulSoup(text, 'html.parser').find_all('a', href=True)],
    each element as its [href] and its text. *)
Variable anchors_with_href : string → list (string * string).

(** [scrape_papers(base_path, csv_path, config_key, dry_run)] over a
    table of board profiles.  The status of the main page is not
    looked at; a [requests.get] that raises ends the call. *)
Definition scrape_with (configs : list (string * board_config))
    (base_path config_key : string) (dry_run : bool) (w : world)
  : world * run nat :=
  match dict_get configs config_key with
  | Raise e => (w, Raises (Builtin e))
  | Ok config =>
      match Utils.create_folder_structure configs base_path config_key with
      | (_, Some e) => (w, Raises e)
      | (_, None) =>
          let w :=
            match ledger w with
            | None => Utils.initialize_tracking_csv w
            | Some _ => w
            end in
          let '(w, response) := Scrapers.get http_get (base_url config) w in
          match response with
          | None => (w, Raises RequestException)
          | Some (_, text) =>
              let paper_links :=
                Scrapers.paper_links config_key (anchors_with_href text) in
              match Scrapers.process_links unquote http_get writable now
                      base_path config_key dry_run paper_links w 0 with
              | (w, Ok downloads_count) => (w, Returns downloads_count)
              | (w, Raise e) => (w, Raises (Builtin e))
              end
          end
      end
  end.

Definition scrape_papers : string → string → bool → world → world * run nat :=
  scrape_with Scrapers.CONFIGS.

End WithWorld.

End Unified.

(** *** [math_paper_scraper.py] *)

Module Cli.

Section WithWorld.

Variable unquote : string → string.
Variable http_get : nat → string → option (nat * string).
Variable writable : string → bool.
Variable now : nat → string.
Variable anchors_with_href : string → list (string * string).

(** [board in CONFIGS] *)
Definition known_board (board : string) : bool :=
  match dict_get Scrapers.CONFIGS board with
  | Ok _ => true
  | Raise _ => false
  end.

(** The boards [main] settles on for [--board]; [None] when it
    prints ["Unknown board"] and returns. *)
Definition boards_of (board_arg : string) : option (list string) :=
  if String.eqb (Py.lower board_arg) "all" then Some (Scrapers.CONFIGS.*1)
  else
    let boards := Py.strip <$> Py.split "," board_arg in
    if forallb known_board boards then Some boards else None.

(** The loop over [boards]: an exception of [scrape_papers] is
    printed and the loop goes on. *)
Fixpoint scrape_boards (output : string) (dry_run : bool)
    (boards : list string) (w : world) (total_downloads : nat)
  : world * nat :=
  match boards with
  | [] => (w, total_downloads)
  | board :: boards' =>
      match Unified.scrape_papers unquote http_get writable now
              anchors_with_href output board dry_run w with
      | (w', Returns downloads) =>
          scrape_boards output dry_run boards' w'
            (total_downloads + downloads)
      | (w', Raises _) =>
          scrape_boards output dry_run boards' w' total_downloads
      end
  end.

(** [main()] for the arguments [--board], [--output] and
    [--dry-run]; the result is [total_downloads] at the end of the
    call, [None] when the call returned at an unknown board. *)
Definition main (board_arg output : string) (dry_run : bool) (w : world)
  : world * option nat :=
  match boards_of board_arg with
  | None => (w, None)
  | Some boards =>
      let '(w, total_downloads) := scrape_boards output dry_run boards w 0 in
      (w, Some total_downloads)
  end.

End WithWorld.

End Cli.

(** *** [main.create_folder_structure] *)

Module MainSetup.

(** The folders made for one section. *)
Definition section_folders (base_path board lvl : string)
    (section : paper_section) : list string :=
  let section_name := Py.replace_char " " "_" (shown_name section) in
  match subtypes section with
  | Some ((_ :: _) as subs) =>
      subtype ← subs;
      (λ content_type,
         Py.path_join base_path
           [board; lvl; section_name; subtype;
            Main.content_folder content_type])
        <$> content_types section
  | _ =>
      (λ content_type,
         Py.path_join base_path
           [board; lvl; section_name; Main.content_folder content_type])
        <$> content_types section
  end.

(** [create_folder_structure(base_path, config_key)] over a table of
    board profiles. *)
Definition create_folder_structure (configs : list (string * board_config))
    (base_path config_key : string) : result (list string) :=
  config ← dict_get configs config_key;
  '(board, lvl) ← Main.key_parts config_key;
  Ok (section ← paper_sections config;
      section_folders base_path (Py.capitalize board) (Py.upper lvl) section).

End MainSetup.

(** * The vocabulary of the properties *)

(** Every character is one of [0-9]. *)
Fixpoint all_digits (s : string) : bool :=
  match s with
  | EmptyString => true
  | String c s' => Py.is_digit c && all_digits s'
  end.

(** An ASCII word as [capitalize] leaves it, such as a month name. *)
Definition capitalised (a : string) : Prop :=
  Py.capitalize (Py.lower a) = a ∧
  match a with
  | String x _ => Py.between 97 122 (Py.lower_char x) = true
  | EmptyString => True
  end.

(** The subject keywords that decide the paper when neither the anchor
    text nor the URL names a number. *)
Definition keyword_present (keys : list string) (href : string) : bool :=
  existsb (λ k, Py.contains k (Py.lower href)) keys.

(** The keywords of the OCR branch, and those of the OCR MEI branch. *)
Definition ocr_keywords : list string :=
  ["pure-mathematics"; "statistics"; "stats"; "mechanics"; "mech"].

Definition mei_keywords : list string :=
  ["mechanics"; "mech"; "component-1"; "statistics"; "stats"; "component-2";
   "comprehension"; "comp"; "component-3"].

(** The directory as the specification words it: base, board, level,
    paper, the subtype if there is one, and the content-type folder. *)
Definition claimed_directory (base_path board lvl paper_label : string)
    (sub : option string) (folder : string) : string :=
  Py.path_join base_path
    ([board; lvl; paper_label]
     ++ match sub with Some s => [s] | None => [] end ++ [folder]).

(** The body that the retry loop obtains: that of the first attempt,
    among [left] attempts from [attempt] on, that is delivered, the
    attempts before it having failed with a [RequestException]. *)
Fixpoint first_delivered (transfer : string → nat → transfer_result)
    (url : string) (attempt left : nat) : option string :=
  match left with
  | O => None
  | S left' =>
      match transfer url attempt with
      | Delivered body => Some body
      | Refused | Broken _ => first_delivered transfer url (S attempt) left'
      | Crashed _ _ => None
      end
  end.

(** The exception that leaves the retry loop: that of the first attempt
    that crashed, the attempts before it having failed with a
    [RequestException]. *)
Fixpoint first_crash (transfer : string → nat → transfer_result)
    (url : string) (attempt left : nat) : option exn :=
  match left with
  | O => None
  | S left' =>
      match transfer url attempt with
      | Delivered _ => None
      | Refused | Broken _ => first_crash transfer url (S attempt) left'
      | Crashed e _ => Some e
      end
  end.

(** What the loop body decides for a link, from the anchor text, the
    known names and the server alone. *)
Definition verdict (transfer : string → nat → transfer_result)
    (valid_pdf : string → bool) (resume validate_files : bool)
    (downloaded : gset (option string)) (url filename link_text : string)
  : Main.outcome :=
  if negb (truthy (Main.year_of link_text)) then Main.NoYear
  else if resume && bool_decide (Some filename ∈ downloaded) then Main.AlreadyKnown
  else match first_delivered transfer url 0 3 with
       | None =>
           match first_crash transfer url 0 3 with
           | Some _ => Main.Errored
           | None => Main.TransferFailed
           end
       | Some body =>
           if validate_files && negb (valid_pdf body) then Main.InvalidFile
           else Main.Recorded
       end.

(** The name under which the orchestrator saves and remembers a link. *)
Definition name_of (urljoin : string → string → string) (base_url : string)
    (link : string * string * string) : string :=
  Main.filename_of (Main.full_url_of urljoin base_url link.1.1) link.1.2.

(** Whether a resuming run that knows [downloaded] records this link. *)
Definition records (urljoin : string → string → string)
    (transfer : string → nat → transfer_result) (valid_pdf : string → bool)
    (base_url : string) (validate_files : bool)
    (downloaded : gset (option string))
    (link : string * string * string) : bool :=
  match verdict transfer valid_pdf true validate_files downloaded
          (Main.full_url_of urljoin base_url link.1.1)
          (name_of urljoin base_url link) link.1.2 with
  | Main.Recorded => true
  | _ => false
  end.

(** The rows are the ledger records of these links, in order. *)
Definition rows_of (urljoin : string → string → string) (base_url : string)
    (rows : list (list string)) (links : list (string * string * string)) : Prop :=
  Forall2 (λ row link, ∃ fields, row = name_of urljoin base_url link :: fields)
    rows links.

(** The ledger file is absent or empty, or its header has ["filename"]
    as the first column and nowhere else: so have the headers that
    [initialize_tracking_csv] writes in [main.py] and in [utils.py]. *)
Definition ledger_ok (w : world) : Prop :=
  match ledger w with
  | Some (header :: _) => Main.column_of "filename" header 0 None = Some 0
  | _ => True
  end.

(** The links of the sections that a run reaches, in order, and whether
    locating a section raised. *)
Fixpoint planned_links (page : list element) (sections : list paper_section)
  : list (string * string * string) * result unit :=
  match sections with
  | [] => ([], Ok ())
  | section :: sections' =>
      match Main.section_links section page with
      | Raise e => ([], Raise e)
      | Ok None => planned_links page sections'
      | Ok (Some links) =>
          (links ++ (planned_links page sections').1,
           (planned_links page sections').2)
      end
  end.

(** ** A worked run

    A small Edexcel page, a server that breaks twice on one file and
    delivers a damaged one for another, and the orchestrator run on
    them. *)

Definition sample_page : list element :=
  [ Other [];
    Heading H4 "Paper 1" ["paper1"];
    Div [] (Some "Question Papers")
      [ ("https://pmt.example/June-2019-QP.pdf", "June 2019 QP");
        ("papers/specimen.pdf", "Specimen QP") ];
    Div [] (Some "Mark Schemes")
      [ ("https://pmt.example/June-2019-MS.pdf", "June 2019 MS") ];
    Hr;
    Heading H4 "Paper 2" ["paper2"];
    Div [] (Some "Question Papers")
      [ ("https://pmt.example/P2-June-2019-QP", "June 2019: QP") ];
    Hr;
    Heading H4 "Paper 3" [];
    Div [] (Some "Question Papers")
      [ ("https://pmt.example/P3-2019-QP.pdf", "2019 (Mech) QP") ];
    Div [] (Some "Mark Schemes")
      [ ("https://pmt.example/damaged.pdf", "nov 2020 (Stats) MS") ] ].

Definition sample_transfer (url : string) (attempt : nat) : transfer_result :=
  if String.eqb url "https://pmt.example/June-2019-MS.pdf"
  then (if Nat.eqb attempt 2 then Delivered "%PDF ms" else Broken "%PD")
  else if String.eqb url "https://pmt.example/damaged.pdf" then Delivered "oops"
  else Delivered ("%PDF " +:+ url).

(** Stand-ins for the validator, the hash, the clock and [urljoin]. *)
Definition sample_valid (bytes : string) : bool := String.prefix "%PDF" bytes.
Definition sample_md5 (bytes : string) : string := "md5:" +:+ bytes.
Definition sample_now (n : nat) : string := "2024-01-01 00:00:00".
Definition sample_urljoin (base href : string) : string := base +:+ href.
Definition sample_fetch (url : string) : option (list element) := Some sample_page.

(** Nothing on disk, no ledger, no request made. *)
Definition fresh_world : world := mk_world ∅ None [].

Definition sample_run (w : world) : world * result bool :=
  Main.scrape_pmt_papers sample_urljoin sample_transfer sample_valid sample_md5
    sample_now sample_fetch "/out" "edexcel_alevel" true true w.

(** The two Edexcel sections of [main.CONFIGS] behind the anchor
    ["paper1"]. *)
Definition paper1 : paper_section :=
  mk_section "Paper 1" "paper1" None ["QP"; "MS"] None.
Definition paper3 : paper_section :=
  mk_section "Paper 3" "paper1" (Some "Paper 3 - Statistics & Mechanics")
    ["QP"; "MS"] (Some ["Mechanics"; "Statistics"]).

(** One round of the link loop in that setting. *)
Definition sample_step (section : paper_section)
    (downloaded : gset (option string)) (link : string * string * string)
    (w : world) : world * result Main.outcome :=
  Main.process_link sample_urljoin sample_transfer sample_valid sample_md5
    sample_now "/out" "edexcel_alevel"
    "https://pmt.example/papers/" section true true downloaded link w.

(** The page between its Paper 1 and Paper 3 headings, and after the
    latter. *)
Definition sample_mid : list element :=
  [ Div [] (Some "Question Papers")
      [ ("https://pmt.example/June-2019-QP.pdf", "June 2019 QP");
        ("papers/specimen.pdf", "Specimen QP") ];
    Div [] (Some "Mark Schemes")
      [ ("https://pmt.example/June-2019-MS.pdf", "June 2019 MS") ];
    Hr;
    Heading H4 "Paper 2" ["paper2"];
    Div [] (Some "Question Papers")
      [ ("https://pmt.example/P2-June-2019-QP", "June 2019: QP") ];
    Hr ].

Definition sample_post : list element :=
  [ Div [] (Some "Question Papers")
      [ ("https://pmt.example/P3-2019-QP.pdf", "2019 (Mech) QP") ];
    Div [] (Some "Mark Schemes")
      [ ("https://pmt.example/damaged.pdf", "nov 2020 (Stats) MS") ] ].

(** A ledger file begun by another tool: it has a header, but no
    column named [filename]. *)
Definition foreign_ledger : world :=
  mk_world ∅ (Some [["name"; "path"]]) [].



(** * The vocabulary of the further properties *)

(** Whether a run with these settings records this link. *)
Definition recorded_by (urljoin : string → string → string)
    (transfer : string → nat → transfer_result) (valid_pdf : string → bool)
    (base_url : string) (resume validate_files : bool)
    (downloaded : gset (option string))
    (link : string * string * string) : bool :=
  match verdict transfer valid_pdf resume validate_files downloaded
          (Main.full_url_of urljoin base_url link.1.1)
          (name_of urljoin base_url link) link.1.2 with
  | Main.Recorded => true
  | _ => false
  end.

(** The rows are twelve-field records, one for each of the links and in
    their order, each starting with the name of its link. *)
Definition ledger_rows_for (urljoin : string → string → string)
    (base_url : string) (rows : list (list string))
    (links : list (string * string * string)) : Prop :=
  Forall2 (λ row link,
             length row = 12 ∧ row !! 0 = Some (name_of urljoin base_url link))
    rows links.

(** The attempt failed with a [RequestException], which the retry loop
    catches. *)
Definition request_failed (t : transfer_result) : bool :=
  match t with
  | Refused | Broken _ => true
  | Delivered _ | Crashed _ _ => false
  end.

(** A server whose first answer carries a [Content-Length] that is no
    number, and which would deliver at the second attempt. *)
Definition malformed_length_transfer (url : string) (attempt : nat)
  : transfer_result :=
  if Nat.eqb attempt 0 then Crashed ValueError None else Delivered "%PDF late".


(** The request numbered [n] for [url], or the one retry after a status
    400, was answered with status 200 and [body]. *)
Definition answered_200 (http_get : nat → string → option (nat * string))
    (n : nat) (url body : string) : Prop :=
  http_get n url = Some (200, body) ∨
  ((∃ b, http_get n url = Some (400, b)) ∧ http_get (S n) url = Some (200, body)).

(** A path component that [os.path.join] appends after a slash, leaving
    a path that does not end in one. *)
Definition piece (c : string) : Prop :=
  String.prefix "/" c = false ∧ c ≠ "" ∧ Py.endswith "/" c = false.

(** The components, each behind a slash. *)
Definition slashed (cs : list string) : string :=
  foldr (λ c r, "/" +:+ c +:+ r) "" cs.

(** Paper numbers and content-type folders of the six folders a board
    of [config.py] is given at set-up. *)
Definition paper_folders : list (string * string) :=
  [ ("1", "qp"); ("1", "ms"); ("2", "qp"); ("2", "ms"); ("3", "qp"); ("3", "ms") ].

(** What the set-up of [main.py] puts below [base_path/Edexcel/ALEVEL]. *)
Definition edexcel_folders : list (list string) :=
  [ ["Paper_1"; "question_papers"]; ["Paper_1"; "mark_schemes"];
    ["Paper_2"; "question_papers"]; ["Paper_2"; "mark_schemes"];
    ["Paper_3_-_Statistics_&_Mechanics"; "Mechanics"; "question_papers"];
    ["Paper_3_-_Statistics_&_Mechanics"; "Mechanics"; "mark_schemes"];
    ["Paper_3_-_Statistics_&_Mechanics"; "Statistics"; "question_papers"];
    ["Paper_3_-_Statistics_&_Mechanics"; "Statistics"; "mark_schemes"] ].

(** What the downloads of Paper 3 go below [base_path/Edexcel/ALEVEL/Paper_3]. *)
Definition paper3_folders : list (list string) :=
  [ ["Mechanics"; "question_papers"]; ["Mechanics"; "mark_schemes"];
    ["Statistics"; "question_papers"]; ["Statistics"; "mark_schemes"];
    ["question_papers"]; ["mark_schemes"] ].

(** The records the unified scraper starts from: those of the ledger
    file, or the header it writes when there is no file. *)
Definition ledger_base (w : world) : list (list string) :=
  match ledger w with
  | Some records => records
  | None => [Utils.ledger_header]
  end.

(** The main pages of the given boards, for those that [config.py]
    knows. *)
Definition main_pages (boards : list string) : list string :=
  omap (λ board,
          match dict_get Scrapers.CONFIGS board with
          | Ok config => Some (base_url config)
          | Raise _ => None
          end) boards.

(** The failures [scrape_papers] prints for a page whose [a] elements
    with an [href] are [anchors]: those of the links its loop is given,
    up to the first link that raises. *)
Fixpoint failures_of (unquote : string → string) (base_path config_key : string)
    (links : list (string * string)) : list (string * string * failure) :=
  match links with
  | [] => []
  | link :: links' =>
      match Scrapers.classify_link unquote base_path config_key link with
      | Ok (Scrapers.Skipped why) =>
          (link, why) :: failures_of unquote base_path config_key links'
      | Ok (Scrapers.Planned _) =>
          failures_of unquote base_path config_key links'
      | Raise _ => []
      end
  end.

Definition reported_failures (unquote : string → string)
    (base_path config_key : string) (anchors : list (string * string))
  : list (string * string * failure) :=
  failures_of unquote base_path config_key
    (Scrapers.paper_links config_key anchors).

(** A record of the unified ledger whose file is on disk. *)
Definition filed (w : world) (row : list string) : Prop :=
  length row = 10 ∧ ∃ path, row !! 8 = Some path ∧ is_Some (disk w !! path).

(** A small site for the unified scraper: every main page lists one
    question paper, one mark scheme and a link that is neither; the
    mark scheme answers 400 once. *)
Definition site_get (n : nat) (url : string) : option (nat * string) :=
  if Py.endswith "/papers/" url then Some (200, "page")
  else if Py.endswith "MS.pdf" url
  then (if Nat.even n then Some (400, "") else Some (200, "%PDF ms"))
  else Some (200, "%PDF qp").

Definition site_anchors (text : string) : list (string * string) :=
  [ ("https://pmt.example/June-2019-Paper-1-QP.pdf", " June 2019 QP ");
    ("https://pmt.example/June-2019-Paper-1-MS.pdf", "June 2019 MS");
    ("https://pmt.example/about", "About") ].

Definition site_main (board_arg : string) (dry_run : bool) (w : world)
  : world * option nat :=
  Cli.main (λ s, s) site_get (λ _, true) sample_now site_anchors
    board_arg "/data" dry_run w.
(** * Properties *)

(** ** The string operations on examples *)

Example py_split_1 : Py.split "_" "ocr_mei_alevel" = ["ocr"; "mei"; "alevel"].
Proof. reflexivity. Qed.
Example py_split_2 : Py.split "?pdf=" "a?pdf=b?pdf=c" = ["a"; "b"; "c"].
Proof. reflexivity. Qed.
Example py_split_3 : Py.split "_" "" = [""].
Proof. reflexivity. Qed.
Example py_split_4 : Py.split "ab" "xabab" = ["x"; ""; ""].
Proof. reflexivity. Qed.
Example py_basename_1 : Py.basename "https://a.b/c/Paper-1-QP.pdf" = "Paper-1-QP.pdf".
Proof. reflexivity. Qed.
Example py_basename_2 : Py.basename "a/b/" = "".
Proof. reflexivity. Qed.
Example py_basename_3 : Py.basename "abc" = "abc".
Proof. reflexivity. Qed.
Example py_strip_1 : Py.strip "  June 2019 QP  " = "June 2019 QP".
Proof. reflexivity. Qed.
Example py_join_1 : Py.path_join "/data" ["alevel"; "ocr"; "paper 1"; "qp"] = "/data/alevel/ocr/paper 1/qp".
Proof. reflexivity. Qed.
Example py_join_2 : Py.path_join "/data/" ["a"; "/b"; "c"] = "/b/c".
Proof. reflexivity. Qed.
Example py_year_1 : Py.search_year "June 2019 QP" = Some "19".
Proof. reflexivity. Qed.
Example py_year_2 : Py.search_year "June 20x9 2203" = None.
Proof. reflexivity. Qed.
Example py_year_3 : Py.search_year "1202055" = Some "20".
Proof. reflexivity. Qed.
Example py_digits_1 : Py.search_lit_digits "Component " "OCR Component 12 QP" = Some "12".
Proof. reflexivity. Qed.
Example py_alts_1 : Py.search_alts_i ["May"; "June"] "jUNE 2019" = Some "jUNE".
Proof. reflexivity. Qed.
Example py_cap_1 : Py.capitalize "jUNE" = "June".
Proof. reflexivity. Qed.
Example py_sub_1 : Py.sub_invalid "a/b:c?.pdf" = "a_b_c_.pdf".
Proof. reflexivity. Qed.
Example dpn_ocr_1 :
  Scrapers.determine_paper_number "https://x/y.pdf" "June 2019 Component 3 QP" "ocr_alevel"
  = (Some "paper 3", Some "Paper 3").
Proof. reflexivity. Qed.
Example dpn_aqa_1 :
  Scrapers.determine_paper_number "https://x/June-2019-Paper-12-QP.pdf" "June 2019 QP" "aqa_alevel"
  = (Some "paper 12", Some "Paper 12").
Proof. reflexivity. Qed.
Example dpn_mei_1 :
  Scrapers.determine_paper_number "https://x/stats-2019.pdf" "June 2019 QP" "ocr_mei_alevel"
  = (Some "paper 2", Some "Paper 2").
Proof. reflexivity. Qed.

(** ** Python strings *)

Lemma append_cons (c : ascii) (p t : string) :
  String c p +:+ t = String c (p +:+ t).
Proof. reflexivity. Qed.

Lemma append_empty_l (t : string) : "" +:+ t = t.
Proof. reflexivity. Qed.

Lemma contains_empty (n : string) : Py.contains n "" = String.prefix n "".
Proof. destruct n; reflexivity. Qed.

Lemma contains_cons (n : string) (c : ascii) (h : string) :
  Py.contains n (String c h) = String.prefix n (String c h) || Py.contains n h.
Proof. reflexivity. Qed.

Lemma search_empty {A} (m : string → option A) :
  Py.search m "" = m "".
Proof. simpl. by destruct (m ""). Qed.

Lemma search_cons {A} (m : string → option A) (c : ascii) (s : string) :
  Py.search m (String c s) =
  match m (String c s) with Some r => Some r | None => Py.search m s end.
Proof. reflexivity. Qed.

Lemma prefix_app (p s : string) :
  String.prefix p s = true ↔ ∃ t, s = p +:+ t.
Proof.
  revert s; induction p as [|c p IH]; intros s.
  - split; [intros _; exists s; by destruct s | by destruct s].
  - destruct s as [|d s]; simpl.
    + split; [done | intros [t Ht]; discriminate].
    + destruct (Ascii.ascii_dec c d) as [->|Hne].
      * rewrite IH. split; intros [t Ht]; exists t;
          rewrite append_cons in *; congruence.
      * split; [done | intros [t Ht]; rewrite append_cons in Ht; congruence].
Qed.

(** [n in h] holds exactly when [h] splits around an occurrence of [n]. *)
Lemma contains_app (n h : string) :
  Py.contains n h = true ↔ ∃ pre post, h = pre +:+ n +:+ post.
Proof.
  induction h as [|c h IH].
  - rewrite contains_empty, prefix_app. split.
    + intros [t Ht]. by exists "", t.
    + intros (pre & post & H). destruct pre; [by exists post | discriminate].
  - rewrite contains_cons, orb_true_iff, prefix_app, IH. split.
    + intros [[t Ht] | (pre & post & Ht)].
      * by exists "", t.
      * exists (String c pre), post. by rewrite append_cons, Ht.
    + intros (pre & post & Ht). destruct pre as [|d pre].
      * left. by exists post.
      * right. exists pre, post. rewrite append_cons in Ht. congruence.
Qed.

(** [re.search] finds nothing exactly when no suffix matches. *)
Lemma search_None {A} (m : string → option A) (s : string) :
  Py.search m s = None ↔ ∀ pre post, s = pre +:+ post → m post = None.
Proof.
  induction s as [|c s IH].
  - rewrite search_empty. split.
    + intros E pre post H.
      destruct pre; [by rewrite append_empty_l in H; subst | discriminate].
    + intros H. by apply (H "" "").
  - rewrite search_cons. destruct (m (String c s)) eqn:E.
    + split; [done | intros H; by rewrite (H "" (String c s)) in E].
    + rewrite IH. split.
      * intros H pre post Hs. destruct pre as [|d pre].
        -- rewrite append_empty_l in Hs. by subst.
        -- rewrite append_cons in Hs. injection Hs as -> ->. by eapply H.
      * intros H pre post ->. by apply (H (String c pre) post).
Qed.

(** A match that [re.search] returns is the match at the leftmost
    position that has one. *)
Lemma search_Some {A} (m : string → option A) (s : string) (r : A) :
  Py.search m s = Some r →
  ∃ pre post, s = pre +:+ post ∧ m post = Some r ∧
    ∀ pre' post', s = pre' +:+ post' →
      String.length pre' < String.length pre → m post' = None.
Proof.
  induction s as [|c s IH].
  - rewrite search_empty. intros E.
    exists "", "". repeat split; [done |]. simpl. lia.
  - rewrite search_cons. destruct (m (String c s)) eqn:E.
    + intros [= ->]. exists "", (String c s). repeat split; [done |]. simpl. lia.
    + intros (pre & post & -> & Hm & Hleft)%IH.
      exists (String c pre), post. repeat split; [done |].
      intros pre' post' Hs Hlen. destruct pre' as [|d pre'].
      * rewrite append_empty_l in Hs. by subst.
      * rewrite !append_cons in Hs. injection Hs as -> Hs.
        apply (Hleft pre' post' Hs). simpl in Hlen. lia.
Qed.

Lemma match_alts_Some (alts : list string) (s a : string) :
  Py.match_alts alts s = Some a → a ∈ alts ∧ String.prefix a s = true.
Proof.
  induction alts as [|b alts IH]; simpl; [done |].
  destruct (String.prefix b s) eqn:E.
  - intros [= ->]. split; [left | done].
  - intros [H1 H2]%IH. split; [by right | done].
Qed.

Lemma match_alts_None (alts : list string) (s : string) :
  Py.match_alts alts s = None ↔ ∀ a, a ∈ alts → String.prefix a s = false.
Proof.
  induction alts as [|b alts IH]; simpl.
  - split; [intros _ a Ha; inversion Ha | done].
  - destruct (String.prefix b s) eqn:E.
    + split; [done |]. intros H. specialize (H b). rewrite E in H.
      discriminate H. left.
    + rewrite IH. split.
      * intros H a Ha. inversion Ha; subst; [done | by apply H].
      * intros H a Ha. apply H. by right.
Qed.

(** An alternation of literals finds nothing exactly when none of the
    literals occurs. *)
Lemma search_alts_None (alts : list string) (s : string) :
  Py.search_alts alts s = None ↔ ∀ a, a ∈ alts → Py.contains a s = false.
Proof.
  unfold Py.search_alts. rewrite search_None. split.
  - intros H a Ha. apply not_true_is_false.
    intros (pre & post & ->)%contains_app.
    specialize (H pre (a +:+ post) eq_refl).
    rewrite match_alts_None in H. specialize (H a Ha).
    assert (String.prefix a (a +:+ post) = true) by (apply prefix_app; eauto).
    congruence.
  - intros H pre post ->. apply match_alts_None. intros a Ha.
    apply not_true_is_false. intros [t ->]%prefix_app.
    specialize (H a Ha). apply not_true_iff_false in H. apply H.
    apply contains_app. eauto.
Qed.

Lemma search_alts_Some (alts : list string) (s a : string) :
  Py.search_alts alts s = Some a → a ∈ alts ∧ Py.contains a s = true.
Proof.
  intros (pre & post & -> & [Ha [t ->]%prefix_app]%match_alts_Some & _)%search_Some.
  split; [done |]. apply contains_app. eauto.
Qed.

(** Digits are left alone by [lower] and by the replacement of ["-"]. *)
Lemma digit_fixed (c : ascii) :
  Py.is_digit c = true →
  Py.lower_char c = c ∧ (if Ascii.eqb c "-" then " "%char else c) = c.
Proof. destruct c as [[] [] [] [] [] [] [] []]; by vm_compute. Qed.

Lemma take_digits_all (s : string) : all_digits (Py.take_digits s) = true.
Proof.
  induction s as [|c s IH]; simpl; [done |].
  destruct (Py.is_digit c) eqn:E; simpl; [by rewrite E | done].
Qed.

Lemma search_lit_digits_all (lit s d : string) :
  Py.search_lit_digits lit s = Some d → all_digits d = true ∧ d ≠ "".
Proof.
  intros (pre & post & _ & Hm & _)%search_Some.
  unfold Py.match_lit_digits in Hm.
  destruct (String.prefix lit post); [| done].
  pose proof (take_digits_all (Py.drop (String.length lit) post)) as Hd.
  destruct (Py.take_digits _); [done |]. by injection Hm as <-.
Qed.

Lemma digits_lower_replace (d : string) :
  all_digits d = true →
  Py.replace_char "-" " " (Py.lower d) = d.
Proof.
  induction d as [|c d IH]; simpl; [done |].
  intros [Hc Hd]%andb_true_iff. destruct (digit_fixed c Hc) as [H1 H2].
  unfold Py.replace_char, Py.lower in *. simpl. rewrite H1, H2. f_equal. by apply IH.
Qed.

(** The paper number the AQA/Edexcel branch derives from the whole match
    is the one the other branches write directly. *)
Lemma paper_dash_number (d : string) :
  all_digits d = true →
  Py.replace_char "-" " " (Py.lower ("Paper-" +:+ d)) = "paper " +:+ d.
Proof.
  intros Hd. change (Py.replace_char "-" " " (Py.lower ("Paper-" +:+ d)))
    with ("paper " +:+ Py.replace_char "-" " " (Py.lower d)).
  by rewrite digits_lower_replace.
Qed.

(** ** The unified scraper *)

Lemma item_raises {A} (xs : list A) (i : nat) (e : exn) :
  item xs i = Raise e → e = IndexError.
Proof. unfold item. destruct (xs !! i); [done | by intros [= <-]]. Qed.

Lemma extract_metadata_raises href link_text config_key pn dn e :
  Scrapers.extract_metadata href link_text config_key pn dn = Raise e →
  e = IndexError.
Proof.
  unfold Scrapers.extract_metadata.
  destruct (String.eqb config_key "ocr_mei_alevel"); [done |].
  unfold mbind, result_bind.
  destruct (item (Py.split "_" config_key) 0) eqn:E0; simpl;
    [| by intros [= <-]; eapply item_raises].
  destruct (item (Py.split "_" config_key) 1) eqn:E1; simpl;
    [done | by intros [= <-]; eapply item_raises].
Qed.

Lemma resolve_href_raises unquote href e :
  Scrapers.resolve_href unquote href = Raise e → e = IndexError.
Proof.
  unfold Scrapers.resolve_href. destruct (Py.contains "pdf-pages" href); [| done].
  unfold mbind, result_bind.
  destruct (item (Py.split "?pdf=" href) 1) eqn:E; [done |].
  intros [= <-]. by eapply item_raises.
Qed.

(** C10: an anchor text that holds both markers is a question paper:
    ["QP"] is tested first, in [extract_metadata] and in the loop body of
    [scrape_papers] alike, and ["MS"] decides only when ["QP"] is absent.
    Whatever else happens to such a link (its paper number may be
    unknown, its redirect malformed), it is never filed as a mark
    scheme. *)
Theorem qp_takes_precedence (unquote : string → string)
    (base_path config_key href link_text : string) :
  Py.contains "QP" link_text = true →
  Py.contains "MS" link_text = true →
  Scrapers.content_type_of link_text = Some "QP" ∧
  match Scrapers.classify_link unquote base_path config_key (href, link_text) with
  | Ok (Scrapers.Planned p) =>
      content_type (Scrapers.plan_metadata p) = Some "QP" ∧
      Scrapers.plan_display_type p = "question papers" ∧
      ∃ dir, Scrapers.plan_folder p = Py.join2 dir "qp"
  | Ok (Scrapers.Skipped why) => why = UnresolvedPaperIdentity
  | Raise e => e = IndexError
  end ∧
  ∀ t, Scrapers.content_type_of t = Some "MS" ↔
       Py.contains "QP" t = false ∧ Py.contains "MS" t = true.
Proof.
  intros HQP HMS. split; [| split].
  - unfold Scrapers.content_type_of. by rewrite HQP.
  - unfold Scrapers.classify_link.
    destruct (Scrapers.resolve_href unquote href) as [href'|e] eqn:Eh;
      [| by eapply resolve_href_raises].
    simpl. destruct (Scrapers.determine_paper_number href' link_text config_key)
      as [[[|c pn]|] dn]; [done | | done].
    rewrite HQP.
    destruct (Scrapers.extract_metadata _ _ _ _ _) as [md|e] eqn:Em;
      [| by eapply extract_metadata_raises].
    simpl. repeat split. by eexists.
  - intros t. unfold Scrapers.content_type_of.
    destruct (Py.contains "QP" t), (Py.contains "MS" t);
      split; try done; by intros [? ?].
Qed.

Lemma qp_takes_precedence_witness :
  Py.contains "QP" "June 2019 QP (with MS)" = true ∧
  Py.contains "MS" "June 2019 QP (with MS)" = true ∧
  Scrapers.content_type_of "June 2019 QP (with MS)" = Some "QP" ∧
  Scrapers.classify_link (λ s, s) "/data" "aqa_alevel"
    ("https://pmt.example/June-2019-Paper-1-QP.pdf", "June 2019 QP (with MS)")
  = Ok (Scrapers.Planned
          {| Scrapers.plan_url := "https://pmt.example/June-2019-Paper-1-QP.pdf";
             Scrapers.plan_filename := "June-2019-Paper-1-QP.pdf";
             Scrapers.plan_folder := "/data/alevel/aqa/paper 1/qp";
             Scrapers.plan_path := "/data/alevel/aqa/paper 1/qp/June-2019-Paper-1-QP.pdf";
             Scrapers.plan_metadata :=
               mk_metadata "aqa" "alevel" (Some "Paper 1") (Some "QP")
                 (Some "2019") (Some "June") None;
             Scrapers.plan_display_type := "question papers" |}).
Proof.
  split; [reflexivity |]. split; [reflexivity |]. split; [| reflexivity].
  exact (proj1 (qp_takes_precedence (λ s, s) "/data" "aqa_alevel"
    "https://pmt.example/June-2019-Paper-1-QP.pdf" "June 2019 QP (with MS)"
    eq_refl eq_refl)).
Defined.

(** *** Month names *)

Lemma append_assoc (a b c : string) : (a +:+ b) +:+ c = a +:+ b +:+ c.
Proof. induction a as [|x a IH]; [done |]. by rewrite !append_cons, IH. Qed.

Lemma contains_shorter (n tail h : string) :
  Py.contains (n +:+ tail) h = true → Py.contains n h = true.
Proof.
  intros (pre & post & ->)%contains_app. apply contains_app.
  exists pre, (tail +:+ post). by rewrite append_assoc.
Qed.

Lemma lower_char_idem (c : ascii) :
  Py.lower_char (Py.lower_char c) = Py.lower_char c.
Proof. destruct c as [[] [] [] [] [] [] [] []]; by vm_compute. Qed.

Lemma lower_idem (s : string) : Py.lower (Py.lower s) = Py.lower s.
Proof.
  induction s as [|c s IH]; [done |].
  unfold Py.lower in *. simpl. by rewrite lower_char_idem, IH.
Qed.

(** Under [re.IGNORECASE] a lower-case ASCII letter of the pattern is
    met by itself or by its capital, and [capitalize] restores the
    capital from either. *)
Lemma upper_of_lowered (c : ascii) :
  Py.between 97 122 (Py.lower_char c) = true →
  Py.upper_char c = Py.upper_char (Py.lower_char c).
Proof. destruct c as [[] [] [] [] [] [] [] []]; by vm_compute. Qed.

Lemma lower_take_prefix (a s : string) :
  String.prefix (Py.lower a) (Py.lower s) = true →
  Py.lower (Py.take (String.length a) s) = Py.lower a.
Proof.
  revert s; induction a as [|x a IH]; intros [|c s]; try done.
  unfold Py.lower in *. simpl.
  destruct (Ascii.ascii_dec (Py.lower_char x) (Py.lower_char c)) as [->|]; [| done].
  intros H. by rewrite (IH s H).
Qed.

Lemma capitalize_matched (a s : string) :
  capitalised a →
  String.prefix (Py.lower a) (Py.lower s) = true →
  Py.capitalize (Py.take (String.length a) s) = a.
Proof.
  intros [Hcap Hfirst] Hpre. destruct a as [|x a]; [done |].
  destruct s as [|c s]; [done |].
  pose proof (lower_take_prefix _ _ Hpre) as Hlow.
  unfold Py.lower in Hpre, Hlow, Hcap. simpl in *.
  destruct (Ascii.ascii_dec (Py.lower_char x) (Py.lower_char c)) as [Hc|]; [| done].
  injection Hlow as _ Hlow. injection Hcap as Hx Ha.
  fold Py.lower in *. rewrite lower_idem in Ha.
  rewrite Hlow, Ha, upper_of_lowered, <- Hc, Hx; [done |].
  by rewrite <- Hc.
Qed.

Lemma month_names_capitalised (m : string) :
  m ∈ Main.month_names → capitalised m.
Proof.
  unfold Main.month_names. rewrite !elem_of_cons, elem_of_nil.
  intros H. repeat (destruct H as [-> | H]; [by vm_compute |]). done.
Qed.

Lemma match_alts_i_None (alts : list string) (s : string) :
  Py.match_alts_i alts s = None ↔
  ∀ a, a ∈ alts → String.prefix (Py.lower a) (Py.lower s) = false.
Proof.
  induction alts as [|b alts IH]; simpl.
  - split; [intros _ a Ha; inversion Ha | done].
  - destruct (String.prefix (Py.lower b) (Py.lower s)) eqn:E.
    + split; [done |]. intros H. specialize (H b). rewrite E in H.
      discriminate H. left.
    + rewrite IH. split.
      * intros H a Ha. inversion Ha; subst; [done | by apply H].
      * intros H a Ha. apply H. by right.
Qed.

Lemma match_alts_i_Some (alts : list string) (s x : string) :
  Py.match_alts_i alts s = Some x →
  ∃ a, a ∈ alts ∧ x = Py.take (String.length a) s ∧
       String.prefix (Py.lower a) (Py.lower s) = true.
Proof.
  induction alts as [|b alts IH]; simpl; [done |].
  destruct (String.prefix (Py.lower b) (Py.lower s)) eqn:E.
  - intros [= <-]. exists b. split; [left | done].
  - intros (a & Ha & H)%IH. exists a. split; [by right | done].
Qed.

Lemma search_alts_i_None (alts : list string) (s : string) :
  Py.search_alts_i alts s = None ↔
  ∀ a, a ∈ alts → Py.contains (Py.lower a) (Py.lower s) = false.
Proof.
  unfold Py.search_alts_i. induction s as [|c s IH].
  - rewrite search_empty, match_alts_i_None.
    by setoid_rewrite contains_empty.
  - rewrite search_cons.
    change (Py.lower (String c s)) with (String (Py.lower_char c) (Py.lower s)).
    setoid_rewrite contains_cons. setoid_rewrite orb_false_iff.
    destruct (Py.match_alts_i alts (String c s)) eqn:E.
    + split; [done |]. intros H.
      apply match_alts_i_Some in E as (a & Ha & _ & Hp).
      destruct (H a Ha) as [Hf _].
      change (Py.lower (String c s)) with (String (Py.lower_char c) (Py.lower s)) in Hp.
      congruence.
    + rewrite IH. rewrite match_alts_i_None in E. split.
      * intros H a Ha. split; [by apply E | by apply H].
      * intros H a Ha. by apply H.
Qed.

Lemma search_alts_i_Some (alts : list string) (s x : string) :
  Py.search_alts_i alts s = Some x →
  ∃ a post, a ∈ alts ∧ x = Py.take (String.length a) post ∧
    String.prefix (Py.lower a) (Py.lower post) = true ∧
    Py.contains (Py.lower a) (Py.lower s) = true.
Proof.
  unfold Py.search_alts_i. induction s as [|c s IH].
  - rewrite search_empty. intros (a & Ha & -> & Hp)%match_alts_i_Some.
    exists a, "". by rewrite contains_empty.
  - rewrite search_cons. destruct (Py.match_alts_i alts (String c s)) eqn:E.
    + intros [= <-]. apply match_alts_i_Some in E as (a & Ha & -> & Hp).
      exists a, (String c s). repeat split; try done.
      change (Py.lower (String c s)) with (String (Py.lower_char c) (Py.lower s)) in *.
      by rewrite contains_cons, Hp.
    + intros (a & post & Ha & -> & Hp & Hc)%IH. exists a, post.
      repeat split; try done.
      change (Py.lower (String c s)) with (String (Py.lower_char c) (Py.lower s)).
      rewrite contains_cons, Hc. apply orb_true_r.
Qed.

Lemma map_chars_append (f : ascii → ascii) (a b : string) :
  Py.map_chars f (a +:+ b) = Py.map_chars f a +:+ Py.map_chars f b.
Proof. induction a as [|c a IH]; [done |]. rewrite append_cons. cbn. by rewrite IH. Qed.

Lemma take_drop (n : nat) (s : string) : Py.take n s +:+ Py.drop n s = s.
Proof.
  revert s. induction n as [|n IH]; intros [|c s]; try done.
  cbn [Py.take Py.drop]. by rewrite append_cons, IH.
Qed.

(** Two ways of cutting a string at the same position are the same. *)
Lemma append_inj_length (p1 p2 s1 s2 : string) :
  p1 +:+ s1 = p2 +:+ s2 → String.length p1 = String.length p2 →
  p1 = p2 ∧ s1 = s2.
Proof.
  revert p2. induction p1 as [|c p1 IH]; intros [|d p2]; try done.
  rewrite !append_cons. intros [= -> H] [= Hl].
  by destruct (IH _ H Hl) as [-> ->].
Qed.

(** The literals by which the unified scraper finds a month: ["Nov"]
    stands for ["November"] too, which begins with it. *)
Lemma session_tokens (a : string) :
  a ∈ Scrapers.session_months →
  ∃ tail, a = (if String.eqb a "November" then "Nov" else a) +:+ tail ∧
          (if String.eqb a "November" then "Nov" else a)
            ∈ ["June"; "October"; "January"; "Nov"] ∧
          (if String.eqb a "Nov" then "November" else a)
          = (if String.eqb (if String.eqb a "November" then "Nov" else a) "Nov"
             then "November"
             else (if String.eqb a "November" then "Nov" else a)).
Proof.
  unfold Scrapers.session_months. rewrite !elem_of_cons, elem_of_nil.
  intros [-> | [-> | [-> | [-> | [-> | []]]]]]; cbn [String.eqb Ascii.eqb Bool.eqb];
    [exists "" | exists "" | exists "" | exists "ember" | exists ""];
    (split; [done |]); (split; [| done]); rewrite !elem_of_cons; auto 10.
Qed.

Lemma session_token_known (b : string) :
  b ∈ ["June"; "October"; "January"; "Nov"] → b ∈ Scrapers.session_months.
Proof.
  unfold Scrapers.session_months. rewrite !elem_of_cons, !elem_of_nil.
  intuition.
Qed.

(** At one position at most one of the four literals matches. *)
Lemma session_token_unique (a b s : string) :
  a ∈ ["June"; "October"; "January"; "Nov"] →
  b ∈ ["June"; "October"; "January"; "Nov"] →
  String.prefix a s = true → String.prefix b s = true → a = b.
Proof.
  intros Ha Hb [t ->]%prefix_app [t' Ht']%prefix_app.
  rewrite !elem_of_cons, elem_of_nil in Ha.
  rewrite !elem_of_cons, elem_of_nil in Hb.
  destruct Ha as [-> | [-> | [-> | [-> | []]]]];
    destruct Hb as [-> | [-> | [-> | [-> | []]]]];
    try done; vm_compute in Ht'; discriminate Ht'.
Qed.

(** At one position at most one month name matches, whatever the case. *)
Lemma month_name_unique (a b s : string) :
  a ∈ Main.month_names → b ∈ Main.month_names →
  String.prefix (Py.lower a) s = true → String.prefix (Py.lower b) s = true →
  a = b.
Proof.
  intros Ha Hb [t ->]%prefix_app [t' Ht']%prefix_app.
  unfold Main.month_names in Ha, Hb.
  rewrite !elem_of_cons, elem_of_nil in Ha.
  rewrite !elem_of_cons, elem_of_nil in Hb.
  repeat (destruct Ha as [-> | Ha]);
    try (by destruct Ha);
    repeat (destruct Hb as [-> | Hb]);
    try (by destruct Hb);
    try done; vm_compute in Ht'; discriminate Ht'.
Qed.

(** The month of the unified scraper comes from the leftmost place of
    the anchor text at which one of the literals begins. *)
Lemma scrapers_month_leftmost (link_text m : string) :
  Scrapers.month_of link_text = Some m →
  ∃ a pre post,
    a ∈ ["June"; "October"; "January"; "Nov"] ∧
    m = (if String.eqb a "Nov" then "November" else a) ∧
    link_text = pre +:+ a +:+ post ∧
    ∀ b pre' post',
      b ∈ ["June"; "October"; "January"; "Nov"] →
      link_text = pre' +:+ b +:+ post' →
      String.length pre ≤ String.length pre'.
Proof.
  unfold Scrapers.month_of.
  destruct (Py.search_alts _ _) as [a0|] eqn:E; [| done]. intros [= <-].
  apply search_Some in E as (pre & post0 & Htext & Hm & Hleft).
  apply match_alts_Some in Hm as [Hin [t ->]%prefix_app].
  destruct (session_tokens a0 Hin) as (tail & Ha0 & Ha & Hm).
  set (a := if String.eqb a0 "November" then "Nov" else a0) in *. clearbody a.
  exists a, pre, (tail +:+ t).
  split; [done |]. split; [done |]. split.
  { rewrite Htext, Ha0. by rewrite append_assoc. }
  intros b pre' post' Hb Heq.
  destruct (decide (String.length pre ≤ String.length pre')) as [|Hlt]; [done |].
  exfalso.
  assert (Py.match_alts Scrapers.session_months (b +:+ post') = None) as Hnone.
  { apply (Hleft pre' (b +:+ post') Heq). lia. }
  rewrite match_alts_None in Hnone.
  specialize (Hnone b (session_token_known b Hb)).
  assert (String.prefix b (b +:+ post') = true) by (apply prefix_app; eauto).
  congruence.
Qed.

(** The month of the orchestrator comes from the leftmost place of the
    anchor text at which a month name begins in some letter case. *)
Lemma main_month_leftmost (link_text m : string) :
  Main.month_of link_text = Some m →
  m ∈ Main.month_names ∧
  ∃ pre x post,
    link_text = pre +:+ x +:+ post ∧ Py.lower x = Py.lower m ∧
    ∀ b pre' y post',
      b ∈ Main.month_names →
      link_text = pre' +:+ y +:+ post' → Py.lower y = Py.lower b →
      String.length pre ≤ String.length pre'.
Proof.
  unfold Main.month_of, Py.search_alts_i.
  destruct (Py.search _ _) as [x|] eqn:E; [| done]. intros [= <-].
  apply search_Some in E as (pre & post0 & Htext & Hm & Hleft).
  apply match_alts_i_Some in Hm as (a & Ha & -> & Hp).
  rewrite (capitalize_matched a post0 (month_names_capitalised a Ha) Hp).
  split; [done |].
  exists pre, (Py.take (String.length a) post0),
    (Py.drop (String.length a) post0).
  split; [by rewrite take_drop |].
  split; [by apply lower_take_prefix |].
  intros b pre' y post' Hb Heq Hy.
  destruct (decide (String.length pre ≤ String.length pre')) as [|Hlt]; [done |].
  exfalso.
  assert (Py.match_alts_i Main.month_names (y +:+ post') = None) as Hnone.
  { apply (Hleft pre' (y +:+ post') Heq). lia. }
  rewrite match_alts_i_None in Hnone. specialize (Hnone b Hb).
  assert (String.prefix (Py.lower b) (Py.lower (y +:+ post')) = true); [| congruence].
  apply prefix_app. exists (Py.lower post').
  unfold Py.lower in *. by rewrite map_chars_append, Hy.
Qed.

(** C6, as the sources have it.  In [extract_metadata] of the unified
    scraper the month is the leftmost case-sensitive match of
    [June|October|January|November|Nov]: it is unset exactly when none of
    ["June"], ["October"], ["January"], ["Nov"] occurs in the anchor text,
    and otherwise it is the full name of that one of the four literals
    which begins at the leftmost place where any of them begins, ["Nov"]
    being recorded as ["November"].  In the orchestrator of [main.py] the
    month is unset exactly when none of the twelve full month names
    occurs in any letter case, and otherwise it is the name, recorded
    capitalised, that is matched at the leftmost place where any of them
    is matched; abbreviations are not recognised there.  In both
    pipelines an anchor text without a month leaves the month unset. *)
Theorem month_extraction (link_text : string) :
  (Scrapers.month_of link_text = None ↔
     ∀ m, m ∈ ["June"; "October"; "January"; "Nov"] →
          Py.contains m link_text = false) ∧
  (∀ m, Scrapers.month_of link_text = Some m →
     m ∈ ["June"; "October"; "January"; "November"] ∧
     Py.contains (if String.eqb m "November" then "Nov" else m) link_text = true) ∧
  (∀ m, Scrapers.month_of link_text = Some m ↔
     ∃ a pre post,
       a ∈ ["June"; "October"; "January"; "Nov"] ∧
       m = (if String.eqb a "Nov" then "November" else a) ∧
       link_text = pre +:+ a +:+ post ∧
       ∀ b pre' post',
         b ∈ ["June"; "October"; "January"; "Nov"] →
         link_text = pre' +:+ b +:+ post' →
         String.length pre ≤ String.length pre') ∧
  (∀ href config_key pn dn md,
     Scrapers.extract_metadata href link_text config_key pn dn = Ok md →
     month md = Scrapers.month_of link_text) ∧
  (Main.month_of link_text = None ↔
     ∀ m, m ∈ Main.month_names →
          Py.contains (Py.lower m) (Py.lower link_text) = false) ∧
  (∀ m, Main.month_of link_text = Some m →
     m ∈ Main.month_names ∧
     Py.contains (Py.lower m) (Py.lower link_text) = true) ∧
  (∀ m, Main.month_of link_text = Some m ↔
     m ∈ Main.month_names ∧
     ∃ pre x post,
       link_text = pre +:+ x +:+ post ∧ Py.lower x = Py.lower m ∧
       ∀ b pre' y post',
         b ∈ Main.month_names →
         link_text = pre' +:+ y +:+ post' → Py.lower y = Py.lower b →
         String.length pre ≤ String.length pre') ∧
  (∀ board lvl section href ctype,
     month (Main.link_metadata board lvl section (href, link_text, ctype))
     = Main.month_of link_text).
Proof.
  assert (∀ m, Scrapers.month_of link_text = Some m →
            ∃ a, a ∈ Scrapers.session_months ∧ Py.contains a link_text = true ∧
                 m = if String.eqb a "Nov" then "November" else a) as HS.
  { unfold Scrapers.month_of. intros m H.
    destruct (Py.search_alts _ _) as [a|] eqn:E; [| done].
    apply search_alts_Some in E as [Hin Hc]. injection H as <-. eauto. }
  assert (∀ m, Main.month_of link_text = Some m →
            m ∈ Main.month_names ∧
            Py.contains (Py.lower m) (Py.lower link_text) = true) as HM.
  { unfold Main.month_of. intros m H.
    destruct (Py.search_alts_i _ _) eqn:E; [| done]. injection H as <-.
    apply search_alts_i_Some in E as (a & post & Ha & -> & Hp & Hc).
    rewrite capitalize_matched; [done | by apply month_names_capitalised | done]. }
  assert (Scrapers.month_of link_text = None ↔
            ∀ m, m ∈ ["June"; "October"; "January"; "Nov"] →
                 Py.contains m link_text = false) as HSN.
  { unfold Scrapers.month_of. split.
    + destruct (Py.search_alts _ _) eqn:E; [done |]. intros _ m Hm.
      rewrite search_alts_None in E. apply E. by apply session_token_known.
    + intros H. destruct (Py.search_alts _ _) eqn:E; [| done].
      apply search_alts_Some in E as [Hin Hc]. unfold Scrapers.session_months in Hin.
      rewrite !elem_of_cons, elem_of_nil in Hin.
      assert (∀ m, m ∈ ["June"; "October"; "January"; "Nov"] →
                   Py.contains m link_text = true → False) as H'.
      { intros m Hm Hc'. rewrite (H m Hm) in Hc'. done. }
      exfalso.
      destruct Hin as [-> | [-> | [-> | [-> | [-> | []]]]]].
      * eapply H'; [| done]. rewrite !elem_of_cons. auto.
      * eapply H'; [| done]. rewrite !elem_of_cons. auto.
      * eapply H'; [| done]. rewrite !elem_of_cons. auto.
      * apply (contains_shorter "Nov" "ember") in Hc.
        eapply H'; [| done]. rewrite !elem_of_cons. auto 10.
      * eapply H'; [| done]. rewrite !elem_of_cons. auto 10. }
  assert (Main.month_of link_text = None ↔
            ∀ m, m ∈ Main.month_names →
                 Py.contains (Py.lower m) (Py.lower link_text) = false) as HMN.
  { split.
    + unfold Main.month_of. destruct (Py.search_alts_i _ _) eqn:E; [done |].
      intros _. by apply search_alts_i_None.
    + intros H. destruct (Main.month_of link_text) as [m|] eqn:E; [| done].
      destruct (HM m eq_refl) as [Hin Hc]. by rewrite (H m Hin) in Hc. }
  split; [exact HSN |]. split; [| split; [| split; [| split; [exact HMN |]]]].
  - intros m (a & Hin & Hc & ->)%HS. unfold Scrapers.session_months in Hin.
    rewrite !elem_of_cons, elem_of_nil in Hin. rewrite !elem_of_cons.
    destruct Hin as [-> | [-> | [-> | [-> | [-> | []]]]]]; simpl; auto 10.
    split; [auto 10 |]. by apply (contains_shorter "Nov" "ember").
  - intros m. split; [apply scrapers_month_leftmost |].
    intros (a & pre & post & Ha & -> & Htext & Hleft).
    destruct (Scrapers.month_of link_text) as [m2|] eqn:E.
    + destruct (scrapers_month_leftmost _ _ E)
        as (a2 & pre2 & post2 & Ha2 & -> & Htext2 & Hleft2).
      pose proof (Hleft a2 pre2 post2 Ha2 Htext2) as H1.
      pose proof (Hleft2 a pre post Ha Htext) as H2.
      assert (String.length pre = String.length pre2) as Hlen by lia.
      rewrite Htext in Htext2.
      destruct (append_inj_length _ _ _ _ Htext2 Hlen) as [_ Hrest].
      assert (a = a2) as ->; [| done].
      apply (session_token_unique a a2 (a +:+ post) Ha Ha2).
      * apply prefix_app. eauto.
      * rewrite Hrest. apply prefix_app. eauto.
    + exfalso. pose proof (proj1 HSN eq_refl a Ha).
      assert (Py.contains a link_text = true); [| congruence].
      apply contains_app. eauto.
  - intros href config_key pn dn md H.
    unfold Scrapers.extract_metadata in H.
    destruct (String.eqb config_key "ocr_mei_alevel"); simpl in H.
    + by injection H as <-.
    + unfold mbind, result_bind in H.
      destruct (item (Py.split "_" config_key) 0); [| done].
      destruct (item (Py.split "_" config_key) 1); [| done].
      by injection H as <-.
  - split; [exact HM |]. split; [| done].
    intros m. split; [apply main_month_leftmost |].
    intros (Hm & pre & x & post & Htext & Hx & Hleft).
    destruct (Main.month_of link_text) as [m2|] eqn:E.
    + destruct (main_month_leftmost _ _ E)
        as (Hm2 & pre2 & x2 & post2 & Htext2 & Hx2 & Hleft2).
      pose proof (Hleft m2 pre2 x2 post2 Hm2 Htext2 Hx2) as H1.
      pose proof (Hleft2 m pre x post Hm Htext Hx) as H2.
      assert (String.length pre = String.length pre2) as Hlen by lia.
      rewrite Htext in Htext2.
      destruct (append_inj_length _ _ _ _ Htext2 Hlen) as [_ Hrest].
      f_equal. symmetry.
      apply (month_name_unique m m2 (Py.lower (x +:+ post)) Hm Hm2).
      * apply prefix_app. exists (Py.lower post).
        unfold Py.lower in *. by rewrite map_chars_append, Hx.
      * rewrite Hrest. apply prefix_app. exists (Py.lower post2).
        unfold Py.lower in *. by rewrite map_chars_append, Hx2.
    + exfalso. pose proof (proj1 HMN eq_refl m Hm).
      assert (Py.contains (Py.lower m) (Py.lower link_text) = true); [| congruence].
      apply contains_app. exists (Py.lower pre), (Py.lower post).
      rewrite Htext. unfold Py.lower in *.
      by rewrite !map_chars_append, Hx.
Qed.

(** C6 as stated fails in both pipelines: the unified scraper knows four
    session months only and is case-sensitive; the orchestrator knows
    twelve months in any case but no abbreviation. *)
Lemma month_extraction_counterexample :
  Scrapers.month_of "May 2019 QP" = None ∧
  Scrapers.month_of "june 2019 QP" = None ∧
  Main.month_of "Nov 2020 QP" = None.
Proof. by vm_compute. Qed.

Example month_nov : Scrapers.month_of "Nov 2021 MS" = Some "November".
Proof. reflexivity. Qed.
Example month_main_case : Main.month_of "MS - oCTOBER 2020" = Some "October".
Proof. reflexivity. Qed.

(** *** Paper identity *)

Lemma paper_number_nonempty (href link_text config_key : string) :
  (Scrapers.determine_paper_number href link_text config_key).1 ≠ Some "".
Proof.
  unfold Scrapers.determine_paper_number, Scrapers.numbered.
  repeat case_match; simpl; done.
Qed.

Lemma classify_unresolved unquote base_path config_key href0 link_text :
  Scrapers.classify_link unquote base_path config_key (href0, link_text)
    = Ok (Scrapers.Skipped UnresolvedPaperIdentity) ↔
  ∃ href, Scrapers.resolve_href unquote href0 = Ok href ∧
          (Scrapers.determine_paper_number href link_text config_key).1 = None.
Proof.
  unfold Scrapers.classify_link.
  destruct (Scrapers.resolve_href unquote href0) as [href|e]; simpl.
  - pose proof (paper_number_nonempty href link_text config_key) as Hne.
    destruct (Scrapers.determine_paper_number href link_text config_key)
      as [[[|c pn]|] dn] eqn:E; simpl in *.
    + done.
    + split.
      * intros H. exfalso. revert H.
        unfold mbind, result_bind. repeat case_match; congruence.
      * intros (h & [= <-] & H). by rewrite E in H.
    + split; [intros _; exists href; by rewrite E | done].
  - split; [done | by intros (? & ? & _)].
Qed.

Lemma dpn_ocr_keywords (href link_text : string) :
  Py.search_lit_digits "Component " link_text = None →
  Py.search_lit_digits "component-" (Py.lower href) = None →
  let dpn := Scrapers.determine_paper_number href link_text "ocr_alevel" in
  dpn ∈ [Scrapers.numbered "1"; Scrapers.numbered "2"; Scrapers.numbered "3";
         (None, None)] ∧
  (dpn = (None, None) ↔ keyword_present ocr_keywords href = false).
Proof.
  intros Ha Hb. unfold Scrapers.determine_paper_number; simpl.
  rewrite Ha, Hb. unfold keyword_present, ocr_keywords, existsb, Scrapers.numbered.
  rewrite !elem_of_cons.
  destruct (Py.contains "pure-mathematics" (Py.lower href)),
    (Py.contains "statistics" (Py.lower href)),
    (Py.contains "stats" (Py.lower href)),
    (Py.contains "mechanics" (Py.lower href)),
    (Py.contains "mech" (Py.lower href)); simpl; (split; [auto 10 | by split]).
Qed.

Lemma dpn_mei_keywords (href link_text : string) :
  Py.search_lit_digits "Component " link_text = None →
  Py.search_lit_digits "Paper-" href = None →
  let dpn := Scrapers.determine_paper_number href link_text "ocr_mei_alevel" in
  dpn ∈ [Scrapers.numbered "1"; Scrapers.numbered "2"; Scrapers.numbered "3";
         (None, None)] ∧
  (dpn = (None, None) ↔ keyword_present mei_keywords href = false).
Proof.
  intros Ha Hb. unfold Scrapers.determine_paper_number; simpl.
  rewrite Ha, Hb. unfold keyword_present, mei_keywords, existsb, Scrapers.numbered.
  rewrite !elem_of_cons.
  destruct (Py.contains "mechanics" (Py.lower href)),
    (Py.contains "mech" (Py.lower href)),
    (Py.contains "component-1" (Py.lower href)),
    (Py.contains "statistics" (Py.lower href)),
    (Py.contains "stats" (Py.lower href)),
    (Py.contains "component-2" (Py.lower href)),
    (Py.contains "comprehension" (Py.lower href)),
    (Py.contains "comp" (Py.lower href)),
    (Py.contains "component-3" (Py.lower href)); simpl;
    (split; [auto 10 | by split]).
Qed.

Lemma dpn_paper_dash (href link_text config_key : string) :
  config_key = "aqa_alevel" ∨ config_key = "edexcel_alevel" →
  Scrapers.determine_paper_number href link_text config_key =
  match Py.search_lit_digits "Paper-" href with
  | Some n => Scrapers.numbered n
  | None => (None, None)
  end.
Proof.
  intros [-> | ->]; unfold Scrapers.determine_paper_number; simpl;
    (destruct (Py.search_lit_digits "Paper-" href) as [n|] eqn:E; [| done]);
    apply search_lit_digits_all in E as [Hd _];
    unfold Scrapers.numbered; by rewrite paper_dash_number.
Qed.

Lemma dpn_other (href link_text config_key : string) :
  config_key ∉ ["ocr_alevel"; "ocr_mei_alevel"; "aqa_alevel"; "edexcel_alevel"] →
  Scrapers.determine_paper_number href link_text config_key = (None, None).
Proof.
  rewrite !not_elem_of_cons. intros (H1 & H2 & H3 & H4 & _).
  unfold Scrapers.determine_paper_number.
  by rewrite (proj2 (String.eqb_neq _ _) H1), (proj2 (String.eqb_neq _ _) H2),
    (proj2 (String.eqb_neq _ _) H3), (proj2 (String.eqb_neq _ _) H4).
Qed.

(** C3, as the sources have it.  For the two OCR profiles the paper is
    resolved by (a) a ["Component N"] token of the anchor text, else (b) a
    numeric token of the URL (["component-N"] in the lower-cased URL for
    OCR, ["Paper-N"] for OCR MEI), else (c) subject keywords of the URL,
    and the first that matches decides.  For the AQA and Edexcel
    profiles only (b), a ["Paper-N"] token of the URL, is tried: the
    anchor text plays no part and there is no keyword step.  For any
    other key nothing is resolved.  A link whose paper stays unresolved
    is skipped as [UnresolvedPaperIdentity], and no other link is. *)
Theorem paper_identity_resolution (href link_text config_key : string) :
  let ocr := bool_decide (config_key = "ocr_alevel") in
  let mei := bool_decide (config_key = "ocr_mei_alevel") in
  let pmt := bool_decide (config_key = "aqa_alevel")
             || bool_decide (config_key = "edexcel_alevel") in
  let url_token :=
    if ocr then Py.search_lit_digits "component-" (Py.lower href)
    else Py.search_lit_digits "Paper-" href in
  let dpn := Scrapers.determine_paper_number href link_text config_key in
  (* (a) decides for the OCR profiles *)
  (∀ n, ocr || mei = true →
        Py.search_lit_digits "Component " link_text = Some n →
        dpn = Scrapers.numbered n) ∧
  (* (b) decides when (a) finds nothing *)
  (∀ n, ocr || mei = true →
        Py.search_lit_digits "Component " link_text = None →
        url_token = Some n → dpn = Scrapers.numbered n) ∧
  (* (c) decides when (a) and (b) find nothing *)
  (ocr || mei = true →
   Py.search_lit_digits "Component " link_text = None → url_token = None →
   dpn ∈ [Scrapers.numbered "1"; Scrapers.numbered "2"; Scrapers.numbered "3";
          (None, None)] ∧
   (dpn = (None, None) ↔
      keyword_present (if ocr then ocr_keywords else mei_keywords) href = false)) ∧
  (* AQA and Edexcel: the URL token alone *)
  (pmt = true →
   dpn = match url_token with
         | Some n => Scrapers.numbered n
         | None => (None, None)
         end) ∧
  (* no other profile resolves anything *)
  (ocr || mei || pmt = false → dpn = (None, None)) ∧
  (* unresolved links are skipped, and only they are skipped so *)
  (∀ unquote base_path href0,
     Scrapers.resolve_href unquote href0 = Ok href →
     (Scrapers.classify_link unquote base_path config_key (href0, link_text)
        = Ok (Scrapers.Skipped UnresolvedPaperIdentity) ↔ dpn.1 = None)).
Proof.
  intros ocr mei pmt url_token dpn.
  assert (∀ unquote base_path href0,
     Scrapers.resolve_href unquote href0 = Ok href →
     (Scrapers.classify_link unquote base_path config_key (href0, link_text)
        = Ok (Scrapers.Skipped UnresolvedPaperIdentity) ↔ dpn.1 = None)) as Hskip.
  { intros unquote base_path href0 Hr. rewrite classify_unresolved. split.
    - intros (h & Hh & Hn). rewrite Hr in Hh. by injection Hh as <-.
    - intros Hn. by exists href. }
  subst ocr mei pmt url_token dpn.
  destruct (decide (config_key = "ocr_alevel")) as [->|Hocr];
    [| destruct (decide (config_key = "ocr_mei_alevel")) as [->|Hmei];
       [| destruct (decide (config_key = "aqa_alevel")) as [->|Haqa];
          [| destruct (decide (config_key = "edexcel_alevel")) as [->|Hed]]]].
  all: repeat rewrite bool_decide_eq_true_2 by done.
  all: repeat rewrite bool_decide_eq_false_2 by done.
  all: cbn [orb].
  - split; [| split; [| split; [| split; [| split]]]]; try done.
    + intros n _ Ha. unfold Scrapers.determine_paper_number; simpl. by rewrite Ha.
    + intros n _ Ha Hb. unfold Scrapers.determine_paper_number; simpl.
      by rewrite Ha, Hb.
    + intros _ Ha Hb. by apply dpn_ocr_keywords.
  - split; [| split; [| split; [| split; [| split]]]]; try done.
    + intros n _ Ha. unfold Scrapers.determine_paper_number; simpl. by rewrite Ha.
    + intros n _ Ha Hb. unfold Scrapers.determine_paper_number; simpl.
      by rewrite Ha, Hb.
    + intros _ Ha Hb. by apply dpn_mei_keywords.
  - split; [| split; [| split; [| split; [| split]]]]; try done.
    intros _. apply dpn_paper_dash. by left.
  - split; [| split; [| split; [| split; [| split]]]]; try done.
    intros _. apply dpn_paper_dash. by right.
  - split; [| split; [| split; [| split; [| split]]]]; try done.
    intros _. apply dpn_other. rewrite !not_elem_of_cons. repeat split; try done.
    apply not_elem_of_nil.
Qed.

(** C3 as stated fails for the Edexcel (and AQA) profile: the anchor
    text names the paper, yet the URL alone is consulted and the link is
    skipped; likewise a subject keyword in the URL resolves nothing. *)
Lemma paper_identity_counterexample :
  Py.search_lit_digits "Component " "Component 3 June 2019 QP" = Some "3" ∧
  Scrapers.determine_paper_number "https://pmt.example/june-2019-qp.pdf"
    "Component 3 June 2019 QP" "edexcel_alevel" = (None, None) ∧
  Scrapers.classify_link (λ s, s) "/data" "edexcel_alevel"
    ("https://pmt.example/june-2019-qp.pdf", "Component 3 June 2019 QP")
    = Ok (Scrapers.Skipped UnresolvedPaperIdentity) ∧
  keyword_present ocr_keywords "https://pmt.example/mechanics-june-2019.pdf" = true ∧
  Scrapers.determine_paper_number "https://pmt.example/mechanics-june-2019.pdf"
    "June 2019 QP" "aqa_alevel" = (None, None).
Proof. by vm_compute. Qed.

Lemma paper_identity_resolution_witness :
  Scrapers.determine_paper_number "https://pmt.example/stats-paper.pdf"
    "Component 3 June 2019 QP" "ocr_alevel" = Scrapers.numbered "3" ∧
  Scrapers.determine_paper_number "https://pmt.example/June-2019-Paper-2-MS.pdf"
    "June 2019 MS" "aqa_alevel" = Scrapers.numbered "2".
Proof.
  split.
  - exact (proj1 (paper_identity_resolution "https://pmt.example/stats-paper.pdf"
      "Component 3 June 2019 QP" "ocr_alevel") "3" eq_refl eq_refl).
  - exact (proj1 (proj2 (proj2 (proj2 (paper_identity_resolution
      "https://pmt.example/June-2019-Paper-2-MS.pdf" "June 2019 MS" "aqa_alevel"))))
      eq_refl).
Defined.

(** *** Content type *)

Lemma classify_raises unquote base_path config_key link e :
  Scrapers.classify_link unquote base_path config_key link = Raise e →
  e = IndexError.
Proof.
  destruct link as [href0 link_text]. unfold Scrapers.classify_link.
  destruct (Scrapers.resolve_href unquote href0) as [href|e'] eqn:Eh; simpl.
  - destruct (Scrapers.determine_paper_number _ _ _) as [[[|c pn]|] dn];
      [done | | done].
    unfold mbind, result_bind.
    repeat case_match; try done; intros [= <-]; by eapply extract_metadata_raises.
  - intros [= <-]. by eapply resolve_href_raises.
Qed.

Lemma prefix_two (a b c : ascii) (t : string) :
  String.prefix (String a (String b "")) (String c t)
  = Ascii.eqb a c && String.prefix (String b "") t.
Proof.
  cbn [String.prefix]. destruct (Ascii.eqb_spec a c) as [-> | Hne].
  - by destruct (Ascii.ascii_dec c c).
  - by destruct (Ascii.ascii_dec a c).
Qed.

Lemma prefix_one (b c : ascii) (t : string) :
  String.prefix (String b "") (String c t) = Ascii.eqb b c.
Proof.
  cbn [String.prefix]. destruct (Ascii.eqb_spec b c) as [-> | Hne].
  - destruct (Ascii.ascii_dec c c); [by destruct t | done].
  - by destruct (Ascii.ascii_dec b c).
Qed.

Lemma rstrip_empty (t : string) :
  Py.rstrip t = "" →
  match t with String c _ => Py.is_space c = true | EmptyString => True end.
Proof.
  destruct t as [|c t]; [done |]. cbn [Py.rstrip].
  destruct (Py.rstrip t); [| done]. by destruct (Py.is_space c).
Qed.

Lemma rstrip_head (c : ascii) (t : string) :
  Py.is_space c = false → ∃ r, Py.rstrip (String c t) = String c r.
Proof.
  intros Hc. cbn [Py.rstrip]. destruct (Py.rstrip t); rewrite ?Hc; eauto.
Qed.

Lemma prefix_one_rstrip (b : ascii) (t : string) :
  Py.is_space b = false →
  String.prefix (String b "") (Py.rstrip t) = String.prefix (String b "") t.
Proof.
  intros Hb. destruct t as [|c t]; [done |]. rewrite prefix_one.
  destruct (Py.is_space c) eqn:Hc.
  - destruct (Ascii.eqb_spec b c) as [-> | Hne]; [congruence |].
    cbn [Py.rstrip]. destruct (Py.rstrip t); rewrite ?Hc, ?prefix_one;
      [done | by apply Ascii.eqb_neq].
  - destruct (rstrip_head c t Hc) as [r ->]. by rewrite prefix_one.
Qed.

(** Stripping the text of a link neither adds nor removes an occurrence
    of a two-letter marker. *)
Lemma contains_strip (a b : ascii) (t : string) :
  Py.is_space a = false → Py.is_space b = false →
  Py.contains (String a (String b "")) (Py.strip t)
  = Py.contains (String a (String b "")) t.
Proof.
  intros Ha Hb. unfold Py.strip.
  assert (∀ s, Py.contains (String a (String b "")) (Py.rstrip s)
               = Py.contains (String a (String b "")) s) as Hr.
  { induction s as [|c s IH]; [done |].
    rewrite contains_cons, <- IH, prefix_two. cbn [Py.rstrip].
    destruct (Py.rstrip s) as [|c' r] eqn:Es.
    - pose proof (rstrip_empty s Es) as Hs.
      replace (String.prefix (String b "") s) with false.
      + rewrite andb_false_r, contains_empty. cbn [orb String.prefix].
        destruct (Py.is_space c); [by rewrite contains_empty |].
        rewrite contains_cons, prefix_two, contains_empty.
        cbn [String.prefix]. by rewrite andb_false_r.
      + symmetry. destruct s as [|c' s]; [done |]. rewrite prefix_one.
        apply Ascii.eqb_neq. congruence.
    - rewrite contains_cons, prefix_two, <- Es.
      by rewrite prefix_one_rstrip. }
  rewrite Hr. induction t as [|c t IH]; [done |].
  cbn [Py.lstrip]. destruct (Py.is_space c) eqn:Hc; [| done].
  rewrite IH, contains_cons, prefix_two.
  replace (Ascii.eqb a c) with false; [done |].
  symmetry. apply Ascii.eqb_neq. congruence.
Qed.

(** The links [scrape_papers] keeps from the page all carry ["QP"] or
    ["MS"] in their stripped text, and none of them is passed over for
    its content type. *)
Lemma kept_links_typed (unquote : string → string)
    (base_path config_key : string) (anchors : list (string * string))
    (link : string * string) :
  link ∈ Scrapers.paper_links config_key anchors →
  (Py.contains "QP" link.2 = true ∨ Py.contains "MS" link.2 = true) ∧
  Scrapers.classify_link unquote base_path config_key link
    ≠ Ok (Scrapers.Skipped UnknownContentType).
Proof.
  unfold Scrapers.paper_links.
  intros ([href text] & -> & Hin)%list_elem_of_fmap.
  apply list_elem_of_filter in Hin as [Hf _]. cbn [fst snd] in *.
  assert (Py.contains "QP" (Py.strip text) = true
          ∨ Py.contains "MS" (Py.strip text) = true) as Hty.
  { rewrite !contains_strip by done. unfold Scrapers.is_paper_link in Hf.
    cbn [fst snd] in Hf.
    destruct (String.eqb config_key "aqa_alevel");
      [apply andb_true_iff in Hf as [Hf _] |];
      by apply orb_true_iff in Hf. }
  split; [done |]. unfold Scrapers.classify_link.
  destruct (Scrapers.resolve_href unquote href) as [href'|e]; [| done].
  cbn [mbind result_bind].
  destruct (Scrapers.determine_paper_number href' (Py.strip text) config_key)
    as [[[|c pn]|] dn]; [done | | done].
  destruct Hty as [-> | HMS].
  - by destruct (Scrapers.extract_metadata _ _ _ _ _).
  - rewrite HMS. destruct (Py.contains "QP" (Py.strip text));
      by destruct (Scrapers.extract_metadata _ _ _ _ _).
Qed.

(** An anchor without a marker is not among the links of the page. *)
Lemma paper_links_drop (config_key : string) (pre post : list (string * string))
    (href link_text : string) :
  Py.contains "QP" link_text = false →
  Py.contains "MS" link_text = false →
  Scrapers.paper_links config_key (pre ++ (href, link_text) :: post)
  = Scrapers.paper_links config_key (pre ++ post).
Proof.
  intros HQP HMS. unfold Scrapers.paper_links.
  rewrite !filter_app, filter_cons_False; [done |].
  unfold Scrapers.is_paper_link. cbn [fst snd]. rewrite HQP, HMS.
  by destruct (String.eqb config_key "aqa_alevel").
Qed.

Lemma classify_skip_reason unquote base_path config_key link why :
  Scrapers.classify_link unquote base_path config_key link
    = Ok (Scrapers.Skipped why) →
  why = UnresolvedPaperIdentity ∨ why = UnknownContentType.
Proof.
  destruct link as [href0 link_text]. unfold Scrapers.classify_link.
  destruct (Scrapers.resolve_href unquote href0) as [href|e'] eqn:Eh; simpl;
    [| done].
  destruct (Scrapers.determine_paper_number _ _ _) as [[[|c pn]|] dn];
    [intros [= <-]; by left | | intros [= <-]; by left].
  unfold mbind, result_bind.
  repeat case_match; try done; intros [= <-]; by right.
Qed.

Lemma failures_of_unresolved (unquote : string → string)
    (base_path config_key : string) (links : list (string * string))
    (entry : string * string * failure) :
  (∀ link, link ∈ links →
     Scrapers.classify_link unquote base_path config_key link
       ≠ Ok (Scrapers.Skipped UnknownContentType)) →
  entry ∈ failures_of unquote base_path config_key links →
  entry.1 ∈ links ∧ entry.2 = UnresolvedPaperIdentity.
Proof.
  induction links as [|link links IH]; intros Hty; cbn [failures_of].
  - by intros ?%elem_of_nil.
  - assert (∀ l, l ∈ links →
              Scrapers.classify_link unquote base_path config_key l
                ≠ Ok (Scrapers.Skipped UnknownContentType)) as Hrest
      by (intros l Hl; apply Hty; by right).
    pose proof (Hty link ltac:(left)) as Hlink.
    destruct (Scrapers.classify_link unquote base_path config_key link)
      as [[why|p]|e] eqn:E.
    + intros [-> | Hin]%elem_of_cons.
      * split; [left |]. cbn [snd].
        by destruct (classify_skip_reason _ _ _ _ _ E) as [-> | ->].
      * destruct (IH Hrest Hin). split; [by right | done].
    + intros Hin. destruct (IH Hrest Hin). split; [by right | done].
    + by intros ?%elem_of_nil.
Qed.

(** C4, as the sources have it.  The content type is read off the anchor
    text by the case-sensitive literals ["QP"] and ["MS"]: a link the
    loop plans has the type ["QP"] when its text contains ["QP"] and
    ["MS"] otherwise, its text then containing ["MS"].  An anchor whose
    text holds neither is left out by the link filter of [scrape_papers],
    before anything is classified: the run is the run over the page
    without that anchor, so nothing is downloaded or recorded for it, and
    no failure is reported for it either.  Every link the loop is given
    carries a marker, so the only failure the run reports is
    [UnresolvedPaperIdentity], never [UnknownContentType]. *)
Theorem no_marker_no_download (unquote : string → string)
    (http_get : nat → string → option (nat * string))
    (writable : string → bool) (now : nat → string)
    (base_path config_key : string) (dry_run : bool)
    (pre post : list (string * string)) (href link_text : string) (w : world) :
  Py.contains "QP" link_text = false →
  Py.contains "MS" link_text = false →
  let anchors := pre ++ (href, link_text) :: post in
  Scrapers.paper_links config_key anchors
    = Scrapers.paper_links config_key (pre ++ post) ∧
  Unified.scrape_papers unquote http_get writable now (λ _, anchors)
    base_path config_key dry_run w
  = Unified.scrape_papers unquote http_get writable now (λ _, pre ++ post)
      base_path config_key dry_run w ∧
  (∀ link, link ∈ Scrapers.paper_links config_key anchors →
     (Py.contains "QP" link.2 = true ∨ Py.contains "MS" link.2 = true) ∧
     Scrapers.classify_link unquote base_path config_key link
       ≠ Ok (Scrapers.Skipped UnknownContentType)) ∧
  (∀ link p,
     Scrapers.classify_link unquote base_path config_key link
       = Ok (Scrapers.Planned p) →
     content_type (Scrapers.plan_metadata p)
       = Some (if Py.contains "QP" link.2 then "QP" else "MS") ∧
     (Py.contains "QP" link.2 = true ∨ Py.contains "MS" link.2 = true)) ∧
  (∀ entry,
     entry ∈ reported_failures unquote base_path config_key anchors →
     entry.1 ≠ (href, Py.strip link_text) ∧
     entry.2 = UnresolvedPaperIdentity).
Proof.
  intros HQP HMS anchors.
  pose proof (paper_links_drop config_key pre post href link_text HQP HMS) as Hdrop.
  fold anchors in Hdrop.
  split; [done |]. split; [| split; [| split]].
  - unfold Unified.scrape_papers, Unified.scrape_with. cbv beta.
    by rewrite Hdrop.
  - intros link. apply kept_links_typed.
  - intros [href0 text] p. unfold Scrapers.classify_link.
    destruct (Scrapers.resolve_href unquote href0) as [href'|e]; [| done].
    cbn [mbind result_bind fst snd].
    destruct (Scrapers.determine_paper_number href' text config_key)
      as [[[|c pn]|] dn]; [done | | done].
    destruct (Py.contains "QP" text).
    + destruct (Scrapers.extract_metadata _ _ _ _ _); [| done].
      cbn [mbind result_bind]. intros [= <-]. split; [done | by left].
    + destruct (Py.contains "MS" text); [| done].
      destruct (Scrapers.extract_metadata _ _ _ _ _); [| done].
      cbn [mbind result_bind]. intros [= <-]. split; [done | by right].
  - intros entry Hin. unfold reported_failures in Hin.
    destruct (failures_of_unresolved unquote base_path config_key _ entry
                (λ link Hl, proj2 (kept_links_typed unquote base_path config_key
                                     anchors link Hl)) Hin) as [Hl He].
    split; [| done]. intros Heq. rewrite Heq in Hl.
    destruct (kept_links_typed unquote base_path config_key anchors _ Hl)
      as [Hty _]. cbn [snd] in Hty.
    rewrite !contains_strip in Hty by done. rewrite HQP, HMS in Hty.
    by destruct Hty.
Qed.

Lemma no_marker_no_download_witness :
  Py.contains "QP" "About" = false ∧
  Py.contains "MS" "About" = false ∧
  Scrapers.paper_links "edexcel_alevel" (site_anchors "page")
  = Scrapers.paper_links "edexcel_alevel" (take 2 (site_anchors "page")).
Proof.
  split; [reflexivity |]. split; [reflexivity |].
  exact (proj1 (no_marker_no_download (λ s, s) site_get (λ _, true) sample_now
    "/data" "edexcel_alevel" false (take 2 (site_anchors "page")) []
    "https://pmt.example/about" "About" (mk_world ∅ None [])
    eq_refl eq_refl)).
Defined.

(** C4 as stated fails on a page of the unified scraper: the anchor
    ["About"] has neither marker, yet it is never classified; the loop is
    given the two other links only, both are planned, and the run reports
    no failure at all, [UnknownContentType] or other. *)
Lemma no_marker_counterexample :
  ("https://pmt.example/about", "About") ∈ site_anchors "page" ∧
  Py.contains "QP" "About" = false ∧
  Py.contains "MS" "About" = false ∧
  Scrapers.paper_links "edexcel_alevel" (site_anchors "page")
  = [ ("https://pmt.example/June-2019-Paper-1-QP.pdf", "June 2019 QP");
      ("https://pmt.example/June-2019-Paper-1-MS.pdf", "June 2019 MS") ] ∧
  reported_failures (λ s, s) "/data" "edexcel_alevel" (site_anchors "page") = [] ∧
  (site_main "edexcel_alevel" false (mk_world ∅ None [])).2 = Some 2.
Proof.
  split; [| by vm_compute].
  unfold site_anchors. rewrite !elem_of_cons. auto.
Qed.

(** *** Destination directory *)

(** C7, as the sources have it.  The orchestrator of [main.py] composes
    base / Board / LEVEL / Paper_N / [subtype] / folder in the order the
    specification gives, with the folders ["question_papers"] and
    ["mark_schemes"], the subtype being present for a Paper 3 link in
    which a subtype was found.  The unified scraper composes
    base / level / board / paper number / folder with the folders ["qp"]
    and ["ms"]: level comes before board, and the subtype is never a
    component.  Each pipeline keeps to its own convention. *)
Theorem destination_directory (base_path : string) :
  (∀ md link_text,
     Main.save_folder_of base_path md link_text =
     claimed_directory base_path (Py.capitalize (exam_board md))
       (Py.upper (level md))
       (Py.replace_char " " "_" (csv_field (paper_type md)))
       (if Py.contains "Paper 3" (csv_field (paper_type md)) && truthy (subtype md)
        then Some (csv_field (Main.paper3_subtype link_text (subtype md)))
        else None)
       (if String.eqb (csv_field (content_type md)) "QP"
        then "question_papers" else "mark_schemes")) ∧
  (∀ unquote config_key link,
     match Scrapers.classify_link unquote base_path config_key link with
     | Ok (Scrapers.Planned p) =>
         let md := Scrapers.plan_metadata p in
         ∃ paper_number,
           (Scrapers.determine_paper_number (Scrapers.plan_url p) link.2 config_key).1
             = Some paper_number ∧
           Scrapers.plan_folder p =
           claimed_directory base_path (level md) (exam_board md) paper_number
             None (if Py.contains "QP" link.2 then "qp" else "ms") ∧
           Scrapers.plan_path p =
           Py.join2 (Scrapers.plan_folder p) (Py.basename (Scrapers.plan_url p))
     | _ => True
     end).
Proof.
  split.
  - intros md link_text. unfold Main.save_folder_of, Main.folder_of, claimed_directory.
    by destruct (Py.contains "Paper 3" _ && truthy _).
  - intros unquote config_key [href0 link_text]. unfold Scrapers.classify_link.
    destruct (Scrapers.resolve_href unquote href0) as [href|e]; simpl; [| done].
    destruct (Scrapers.determine_paper_number href link_text config_key)
      as [[[|c pn]|] dn] eqn:E; try done.
    unfold mbind, result_bind.
    destruct (Py.contains "QP" link_text).
    + destruct (Scrapers.extract_metadata _ _ _ _ _); [| done]. simpl.
      exists (String c pn). by rewrite E.
    + destruct (Py.contains "MS" link_text); [| done].
      destruct (Scrapers.extract_metadata _ _ _ _ _); [| done]. simpl.
      exists (String c pn). by rewrite E.
Qed.

(** C7 as stated fails in the unified scraper: level precedes board, and
    the subtype found for an Edexcel Paper 3 link is not a component,
    under either naming of the content-type folder and of the paper. *)
Lemma destination_directory_counterexample :
  ∃ p, Scrapers.classify_link (λ s, s) "/data" "edexcel_alevel"
         ("https://pmt.example/June-2019-Paper-3-QP.pdf", "June 2019 (Mech) QP")
       = Ok (Scrapers.Planned p) ∧
       Scrapers.plan_folder p = "/data/alevel/edexcel/paper 3/qp" ∧
       subtype (Scrapers.plan_metadata p) = Some "Mechanics" ∧
       ∀ paper folder,
         paper ∈ ["paper 3"; "Paper 3"; "Paper_3"] →
         folder ∈ ["qp"; "question_papers"] →
         Scrapers.plan_folder p ≠
         claimed_directory "/data" (exam_board (Scrapers.plan_metadata p))
           (level (Scrapers.plan_metadata p)) paper
           (subtype (Scrapers.plan_metadata p)) folder ∧
         Scrapers.plan_folder p ≠
         claimed_directory "/data" (exam_board (Scrapers.plan_metadata p))
           (level (Scrapers.plan_metadata p)) paper None folder.
Proof.
  eexists. split; [reflexivity |]. split; [reflexivity |]. split; [reflexivity |].
  intros paper folder. rewrite !elem_of_cons, !elem_of_nil.
  intros [-> | [-> | [-> | []]]] [-> | [-> | []]]; by vm_compute.
Qed.

(** *** The year *)

Lemma match_year_Some (s y : string) :
  Py.match_year s = Some y ↔
  ∃ a b rest, s = "20" +:+ String a (String b rest) ∧
              Py.is_digit a = true ∧ Py.is_digit b = true ∧
              y = String a (String b "").
Proof.
  unfold Py.match_year. destruct (String.prefix "20" s) eqn:E.
  - apply prefix_app in E as [t ->].
    change (Py.drop 2 ("20" +:+ t)) with t. split.
    + destruct t as [|a [|b rest]]; try done.
      destruct (Py.is_digit a) eqn:Ea, (Py.is_digit b) eqn:Eb; try done.
      intros [= <-]. by exists a, b, rest.
    + intros (a & b & rest & Ht & Ha & Hb & ->).
      rewrite !append_cons, !append_empty_l in Ht. injection Ht as ->.
      by rewrite Ha, Hb.
  - split; [done |]. intros (a & b & rest & -> & _). exfalso.
    assert (String.prefix "20" ("20" +:+ String a (String b rest)) = true) as E'
      by (apply prefix_app; eauto).
    congruence.
Qed.

Lemma year_of_None (link_text : string) :
  Main.year_of link_text = None ↔
  ∀ pre a b post, link_text = pre +:+ "20" +:+ String a (String b post) →
                  Py.is_digit a && Py.is_digit b = false.
Proof.
  unfold Main.year_of, Py.search_year.
  destruct (Py.search Py.match_year link_text) as [yy|] eqn:E.
  - split; [done |]. intros H. exfalso.
    apply search_Some in E as (pre & post & -> & Hm & _).
    apply match_year_Some in Hm as (a & b & rest & -> & Ha & Hb & _).
    specialize (H pre a b rest eq_refl). by rewrite Ha, Hb in H.
  - split; [| done]. intros _ pre a b post ->.
    rewrite search_None in E. specialize (E pre _ eq_refl).
    apply not_true_is_false. intros [Ha Hb]%andb_true_iff.
    assert (Py.match_year ("20" +:+ String a (String b post))
            = Some (String a (String b ""))) as Hm
      by (apply match_year_Some; by exists a, b, post).
    congruence.
Qed.

Lemma year_of_Some (link_text y : string) :
  Main.year_of link_text = Some y →
  ∃ pre a b post, link_text = pre +:+ "20" +:+ String a (String b post) ∧
                  Py.is_digit a = true ∧ Py.is_digit b = true ∧
                  y = "20" +:+ String a (String b "").
Proof.
  unfold Main.year_of, Py.search_year.
  destruct (Py.search Py.match_year link_text) as [yy|] eqn:E; [| done].
  intros [= <-]. apply search_Some in E as (pre & post & -> & Hm & _).
  apply match_year_Some in Hm as (a & b & rest & -> & Ha & Hb & ->).
  by exists pre, a, b, rest.
Qed.

(** ** The orchestrator *)

Section Orchestrator.

Context (urljoin : string → string → string)
        (transfer : string → nat → transfer_result)
        (valid_pdf : string → bool)
        (md5_hexdigest : string → string)
        (now : nat → string).

Local Abbreviation download := (Main.download_file_with_progress transfer).
Local Abbreviation process_link :=
  (Main.process_link urljoin transfer valid_pdf md5_hexdigest now).
Local Abbreviation process_links :=
  (Main.process_links urljoin transfer valid_pdf md5_hexdigest now).

Lemma download_spec (url save_path : string) (attempt left : nat) (w : world) :
  let r := download url save_path attempt left w in
  ledger r.1 = ledger w ∧
  (∃ k, requests r.1 = requests w ++ replicate k url ∧ (0 < left → 0 < k)) ∧
  match first_delivered transfer url attempt left with
  | Some body => r.2 = Ok true ∧ disk r.1 !! save_path = Some body
  | None =>
      match first_crash transfer url attempt left with
      | Some e => r.2 = Raise e
      | None => r.2 = Ok false
      end
  end.
Proof.
  revert attempt w. induction left as [|left IH]; intros attempt w; simpl.
  - split; [done |]. split; [| done].
    exists 0. simpl. rewrite app_nil_r. split; [done | lia].
  - destruct (transfer url attempt) as [body| |partial|e [partial|]]; simpl.
    + split; [done |]. split.
      * exists 1. split; [done | lia].
      * split; [done |]. apply lookup_insert_eq.
    + destruct (IH (S attempt) (log_request url w)) as (Hl & (k & Hr & _) & Hd).
      split; [done |]. split; [| done].
      exists (S k). split; [| lia]. rewrite Hr. simpl. by rewrite <- app_assoc.
    + destruct (IH (S attempt) (write_file save_path partial (log_request url w)))
        as (Hl & (k & Hr & _) & Hd).
      split; [done |]. split; [| done].
      exists (S k). split; [| lia]. rewrite Hr. simpl. by rewrite <- app_assoc.
    + split; [done |]. split; [| done]. exists 1. split; [done | lia].
    + split; [done |]. split; [| done]. exists 1. split; [done | lia].
Qed.

(** The loop body, case by case. *)
Lemma process_link_spec (base_path config_key base_url board lvl : string)
    (section : paper_section) (resume validate_files : bool)
    (downloaded : gset (option string))
    (link : string * string * string) (w : world) :
  Main.key_parts config_key = Ok (board, lvl) →
  let url := Main.full_url_of urljoin base_url link.1.1 in
  let filename := Main.filename_of url link.1.2 in
  let md := Main.link_metadata board lvl section link in
  let save_path := Main.save_path_of base_path md link.1.2 filename in
  let v := verdict transfer valid_pdf resume validate_files downloaded url
             filename link.1.2 in
  let r := process_link base_path config_key base_url section resume
             validate_files downloaded link w in
  r.2 = Ok v ∧
  match v with
  | Main.NoYear | Main.AlreadyKnown => r.1 = w
  | Main.TransferFailed | Main.Errored => ledger r.1 = ledger w
  | Main.InvalidFile => ledger r.1 = ledger w ∧ disk r.1 !! save_path = None
  | Main.Recorded =>
      ∃ body date,
        first_delivered transfer url 0 3 = Some body ∧
        disk r.1 !! save_path = Some body ∧
        ledger r.1 =
          Some (ledger_rows w ++
                [Main.tracking_row (Main.folder_of md link.1.2).1 filename
                   save_path (md5_hexdigest body) validate_files date])
  end.
Proof.
  intros Hkey url filename md save_path v r. subst r v.
  unfold Main.process_link, verdict. rewrite Hkey.
  fold url. fold md. fold filename. fold save_path.
  change (year md) with (Main.year_of link.1.2).
  destruct (negb (truthy (Main.year_of link.1.2))); [done |].
  destruct (resume && bool_decide (Some filename ∈ downloaded)); [done |].
  pose proof (download_spec url save_path 0 3 w) as (Hl & _ & Hd).
  destruct (download url save_path 0 3 w) as [w' ok].
  destruct (first_delivered transfer url 0 3) as [body|]; cbn [fst snd] in *;
    [| destruct (first_crash transfer url 0 3); by rewrite Hd].
  - destruct Hd as [-> Hdisk]. unfold Main.validate_pdf. rewrite Hdisk.
    destruct (validate_files && negb (valid_pdf body)); cbn [fst snd].
    + split; [done |]. split; [done |]. apply lookup_delete_eq.
    + split; [done |]. exists body. eexists. split; [done |]. split; [done |].
      unfold Main.add_to_tracking_csv, append_row, Main.calculate_file_hash.
      cbn [ledger]. rewrite Hdisk. unfold ledger_rows. by rewrite Hl.
Qed.

(** C5: the year is ["20"] followed by the two digits that follow the
    leftmost ["20"] which has two digits after it; a link whose anchor
    text has no such place is passed over by the orchestrator without a
    transfer, without a file and without a ledger record, and the loop
    goes on with the next link of the section. *)
Theorem missing_year_skips (base_path config_key base_url board lvl : string)
    (section : paper_section) (resume validate_files : bool)
    (downloaded : gset (option string)) (href link_text ctype : string)
    (links : list (string * string * string)) (w : world) :
  Main.key_parts config_key = Ok (board, lvl) →
  (Main.year_of link_text = None ↔
     ∀ pre a b post, link_text = pre +:+ "20" +:+ String a (String b post) →
                     Py.is_digit a && Py.is_digit b = false) ∧
  (∀ y, Main.year_of link_text = Some y →
     ∃ pre a b post, link_text = pre +:+ "20" +:+ String a (String b post) ∧
                     Py.is_digit a = true ∧ Py.is_digit b = true ∧
                     y = "20" +:+ String a (String b "")) ∧
  (Main.year_of link_text = None →
     process_link base_path config_key base_url section resume validate_files
       downloaded (href, link_text, ctype) w = (w, Ok Main.NoYear) ∧
     process_links base_path config_key base_url section resume validate_files
       downloaded ((href, link_text, ctype) :: links) w
     = process_links base_path config_key base_url section resume
         validate_files downloaded links w).
Proof.
  intros Hkey. split; [apply year_of_None |]. split; [apply year_of_Some |].
  intros Hy.
  assert (process_link base_path config_key base_url section resume
            validate_files downloaded (href, link_text, ctype) w
          = (w, Ok Main.NoYear)) as Hstep.
  { unfold Main.process_link. rewrite Hkey. cbn [fst snd].
    change (year (Main.link_metadata board lvl section (href, link_text, ctype)))
      with (Main.year_of link_text).
    by rewrite Hy. }
  split; [done |]. cbn [Main.process_links]. by rewrite Hstep.
Qed.

(** C8: the loop body writes a ledger record only when a transfer
    attempt was delivered and, with validation enabled, the file passed
    it.  When the delivered file fails validation the file is removed
    again and the ledger is what it was. *)
Theorem record_needs_valid_transfer (base_path config_key base_url board lvl : string)
    (section : paper_section) (resume validate_files : bool)
    (downloaded : gset (option string))
    (link : string * string * string) (w : world) :
  Main.key_parts config_key = Ok (board, lvl) →
  let url := Main.full_url_of urljoin base_url link.1.1 in
  let filename := Main.filename_of url link.1.2 in
  let md := Main.link_metadata board lvl section link in
  let save_path := Main.save_path_of base_path md link.1.2 filename in
  let r := process_link base_path config_key base_url section resume
             validate_files downloaded link w in
  (ledger r.1 ≠ ledger w →
     ∃ body, first_delivered transfer url 0 3 = Some body ∧
             (validate_files = true → valid_pdf body = true) ∧
             r.2 = Ok Main.Recorded) ∧
  (∀ body,
     truthy (Main.year_of link.1.2) = true →
     resume && bool_decide (Some filename ∈ downloaded) = false →
     first_delivered transfer url 0 3 = Some body →
     validate_files = true → valid_pdf body = false →
     r.2 = Ok Main.InvalidFile ∧ ledger r.1 = ledger w ∧
     disk r.1 !! save_path = None).
Proof.
  intros Hkey url filename md save_path r.
  pose proof (process_link_spec base_path config_key base_url board lvl section
                resume validate_files downloaded link w Hkey) as [Hv Hw].
  fold url filename md save_path r in Hv, Hw. unfold verdict in Hv, Hw.
  fold url filename in Hv, Hw. split.
  - intros Hne.
    destruct (negb (truthy (Main.year_of link.1.2))); [by rewrite Hw in Hne |].
    destruct (resume && bool_decide (Some filename ∈ downloaded));
      [by rewrite Hw in Hne |].
    destruct (first_delivered transfer url 0 3) as [body|];
      [| by destruct (first_crash transfer url 0 3)].
    exists body. split; [done |].
    destruct validate_files; cbn [andb] in *.
    + destruct (valid_pdf body); cbn [negb] in *; [done | by destruct Hw].
    + done.
  - intros body Hy Hk Hd -> Hb. rewrite Hy, Hk, Hd, Hb in Hv, Hw.
    cbn [negb andb] in *. by destruct Hw.
Qed.

(** C9: whenever the loop body writes a ledger record, the world it
    leaves (the record call is its last action) has a file at the path
    stored in the [file_path] column, and the [file_hash] column holds
    the hash of that file's bytes. *)
Theorem ledger_integrity (base_path config_key base_url : string)
    (section : paper_section) (resume validate_files : bool)
    (downloaded : gset (option string))
    (link : string * string * string) (w : world) :
  let r := process_link base_path config_key base_url section resume
             validate_files downloaded link w in
  ledger r.1 ≠ ledger w →
  ∃ row file_path bytes,
    ledger r.1 = Some (ledger_rows w ++ [row]) ∧
    length row = length Main.ledger_header ∧
    Main.dict_row_get Main.ledger_header row "file_path" = Ok (Some file_path) ∧
    disk r.1 !! file_path = Some bytes ∧
    Main.dict_row_get Main.ledger_header row "file_hash"
      = Ok (Some (md5_hexdigest bytes)).
Proof.
  intros r Hne. subst r.
  destruct (Main.key_parts config_key) as [[board lvl]|e] eqn:Hkey.
  - pose proof (process_link_spec base_path config_key base_url board lvl section
                  resume validate_files downloaded link w Hkey) as [_ Hw].
    destruct (verdict _ _ _ _ _ _ _ _).
    + by rewrite Hw in Hne.
    + by rewrite Hw in Hne.
    + done.
    + by destruct Hw.
    + done.
    + destruct Hw as (body & date & _ & Hdisk & Hl).
      eexists _, _, body. split; [exact Hl |]. by repeat split.
  - unfold Main.process_link in Hne. by rewrite Hkey in Hne.
Qed.

End Orchestrator.

(** *** Resuming *)

Lemma key_parts_of_level (config_key lvl : string) :
  item (Py.split "_" config_key) 1 = Ok lvl →
  ∃ board, Main.key_parts config_key = Ok (board, lvl).
Proof.
  unfold Main.key_parts, item, mbind, result_bind.
  destruct (Py.split "_" config_key) as [|board [|l rest]]; try done.
  intros [= <-]. by exists board.
Qed.

Lemma read_filenames_spec (header : list string) (rows : list (list string))
    (acc : gset (option string)) (x : option string) :
  Main.column_of "filename" header 0 None = Some 0 →
  x ∈ Main.read_filenames header rows acc ↔
  x ∈ acc ∨ ∃ row, row ∈ rows ∧ row ≠ [] ∧ row !! 0 = x.
Proof.
  intros Hh. revert acc. induction rows as [|row rows IH]; intros acc.
  - simpl. split; [by left |]. intros [H | (row & Hin & _)]; [done |].
    by apply elem_of_nil in Hin.
  - destruct row as [|f fs].
    + simpl. rewrite IH. split.
      * intros [H | (row & Hin & Hne & Hx)]; [by left |].
        right. exists row. split; [by right | done].
      * intros [H | (row & Hin & Hne & Hx)]; [by left |].
        right. exists row. apply elem_of_cons in Hin as [-> | Hin]; [done |].
        done.
    + cbn [Main.read_filenames]. unfold Main.dict_row_get. rewrite Hh.
      rewrite IH. rewrite elem_of_union, elem_of_singleton. split.
      * intros [[-> | H] | (row & Hin & Hne & Hx)].
        -- right. exists (f :: fs). split; [left | done].
        -- by left.
        -- right. exists row. split; [by right | done].
      * intros [H | (row & Hin & Hne & Hx)]; [by left; right |].
        apply elem_of_cons in Hin as [-> | Hin].
        -- left. left. by rewrite <- Hx.
        -- right. by exists row.
Qed.

Section Resume.

Context (urljoin : string → string → string)
        (transfer : string → nat → transfer_result)
        (valid_pdf : string → bool)
        (md5_hexdigest : string → string)
        (now : nat → string)
        (fetch_page : string → option (list element)).

Context (base_path config_key base_url board lvl : string)
        (validate_files : bool).

Hypothesis Hkey : Main.key_parts config_key = Ok (board, lvl).

Local Abbreviation process_link :=
  (Main.process_link urljoin transfer valid_pdf md5_hexdigest now
     base_path config_key base_url).
Local Abbreviation process_links :=
  (Main.process_links urljoin transfer valid_pdf md5_hexdigest now
     base_path config_key base_url).
Local Abbreviation process_sections :=
  (Main.process_sections urljoin transfer valid_pdf md5_hexdigest now
     base_path config_key base_url).

Lemma process_link_ledger section downloaded link (w : world) L :
  ledger w = Some L →
  let r := process_link section true validate_files downloaded link w in
  ∃ e, r.2 = Ok e ∧
  ∃ rows, ledger r.1 = Some (L ++ rows) ∧
          rows_of urljoin base_url rows (filter (λ l, records urljoin transfer valid_pdf base_url validate_files downloaded l = true) [link]).
Proof.
  intros HL r.
  pose proof (process_link_spec urljoin transfer valid_pdf md5_hexdigest now
                base_path config_key base_url board lvl section true
                validate_files downloaded link w Hkey) as [Hv Hw].
  fold r in Hv, Hw. eexists. split; [exact Hv |].
  rewrite filter_cons, filter_nil. unfold records, name_of.
  destruct (verdict _ _ _ _ _ _ _ _).
  1-5: rewrite decide_False by done; exists []; rewrite app_nil_r;
       split; [| constructor].
  - by rewrite Hw.
  - by rewrite Hw.
  - by rewrite Hw.
  - destruct Hw as [-> _]. done.
  - by rewrite Hw.
  - rewrite decide_True by done.
    destruct Hw as (body & date & _ & _ & ->). unfold ledger_rows. rewrite HL.
    eexists [_]. split; [done |]. constructor; [| constructor]. by eexists.
Qed.

Lemma rows_of_app rows1 links1 rows2 links2 :
  rows_of urljoin base_url rows1 links1 → rows_of urljoin base_url rows2 links2 →
  rows_of urljoin base_url (rows1 ++ rows2) (links1 ++ links2).
Proof. apply Forall2_app. Qed.

Lemma process_links_ledger section downloaded links (w : world) L :
  ledger w = Some L →
  let r := process_links section true validate_files downloaded links w in
  r.2 = Ok () ∧
  ∃ rows, ledger r.1 = Some (L ++ rows) ∧
          rows_of urljoin base_url rows (filter (λ l, records urljoin transfer valid_pdf base_url validate_files downloaded l = true) links).
Proof.
  revert w L. induction links as [|link links IH]; intros w L HL; simpl.
  - split; [done |]. exists []. rewrite app_nil_r. split; [done | constructor].
  - pose proof (process_link_ledger section downloaded link w L HL)
      as (e & He & rows1 & Hl1 & Hr1).
    destruct (process_link section true validate_files downloaded link w)
      as [w1 r1]. cbn [fst snd] in *. subst r1.
    destruct (IH w1 _ Hl1) as (Hok & rows2 & Hl2 & Hr2).
    split; [done |]. exists (rows1 ++ rows2). rewrite app_assoc. split; [done |].
    change (link :: links) with ([link] ++ links). rewrite filter_app.
    by apply rows_of_app.
Qed.

Lemma process_sections_ledger downloaded page sections (w : world) L :
  ledger w = Some L →
  let r := process_sections true validate_files downloaded page sections w in
  r.2 = (planned_links page sections).2 ∧
  ∃ rows, ledger r.1 = Some (L ++ rows) ∧
          rows_of urljoin base_url rows (filter (λ l, records urljoin transfer valid_pdf base_url validate_files downloaded l = true)
                          (planned_links page sections).1).
Proof.
  revert w L. induction sections as [|section sections IH]; intros w L HL; simpl.
  - split; [done |]. exists []. rewrite app_nil_r. split; [done | constructor].
  - unfold Main.process_section.
    destruct (Main.section_links section page) as [[links|]|e]; cbn [fst snd].
    + pose proof (process_links_ledger section downloaded links w L HL)
        as (Hok & rows1 & Hl1 & Hr1).
      destruct (process_links section true validate_files downloaded links w)
        as [w1 r1]. cbn [fst snd] in *. subst r1.
      destruct (IH w1 _ Hl1) as (Hres & rows2 & Hl2 & Hr2).
      split; [done |]. exists (rows1 ++ rows2). rewrite app_assoc.
      split; [done |]. rewrite filter_app. by apply rows_of_app.
    + by apply IH.
    + split; [done |]. exists []. rewrite app_nil_r. split; [done | constructor].
Qed.

(** A second run records nothing: what the first run recorded is
    known, and what it could not record cannot be recorded now. *)
Lemma nothing_new (D0 D1 : gset (option string)) links rows :
  D0 ⊆ D1 →
  rows_of urljoin base_url rows (filter (λ l, records urljoin transfer valid_pdf base_url validate_files D0 l = true) links) →
  (∀ row, row ∈ rows → row ≠ [] ∧ row !! 0 ∈ D1) →
  filter (λ l, records urljoin transfer valid_pdf base_url validate_files D1 l = true) links = [].
Proof.
  intros Hsub Hrows Hknown.
  destruct (filter (λ l, records urljoin transfer valid_pdf base_url validate_files D1 l = true) links) as [|link rest] eqn:E;
    [done |].
  exfalso. assert (link ∈ filter (λ l, records urljoin transfer valid_pdf base_url validate_files D1 l = true) links) as Hf
    by (rewrite E; left).
  apply list_elem_of_filter in Hf as [Hrec Hin]. clear E rest.
  unfold records, verdict in Hrec.
  destruct (negb (truthy (Main.year_of link.1.2))) eqn:Ey; [done |].
  cbn [andb] in Hrec.
  destruct (bool_decide (Some (name_of urljoin base_url link) ∈ D1)) eqn:E1; [done |].
  apply bool_decide_eq_false in E1.
  assert (records urljoin transfer valid_pdf base_url validate_files D0 link = true) as Hrec0.
  { unfold records, verdict. rewrite Ey. cbn [andb].
    rewrite bool_decide_eq_false_2; [done |]. intros H. by apply E1, Hsub. }
  assert (link ∈ filter (λ l, records urljoin transfer valid_pdf base_url validate_files D0 l = true) links) as Hin0
    by (by apply list_elem_of_filter).
  apply list_elem_of_lookup in Hin0 as [i Hi].
  destruct (Forall2_lookup_r _ _ _ _ _ Hrows Hi) as (row & Hrow & fields & ->).
  apply E1. destruct (Hknown (name_of urljoin base_url link :: fields)) as [_ H]; [| done].
  apply list_elem_of_lookup. eauto.
Qed.

End Resume.

Lemma initialize_resume (w : world) :
  ledger_ok w →
  ∃ header rows,
    ledger (Main.initialize_tracking_csv false w) = Some (header :: rows) ∧
    Main.column_of "filename" header 0 None = Some 0.
Proof.
  unfold ledger_ok, Main.initialize_tracking_csv.
  destruct (ledger w) as [[|header rows]|] eqn:E; cbn [andb negb].
  - intros _. by exists Main.ledger_header, [].
  - intros H. exists header, rows. by rewrite E.
  - intros _. by exists Main.ledger_header, [].
Qed.

Lemma initialize_nonempty (w : world) header rows :
  ledger w = Some (header :: rows) → Main.initialize_tracking_csv false w = w.
Proof. unfold Main.initialize_tracking_csv. by intros ->. Qed.

Lemma rows_of_nonempty urljoin base_url rows links row :
  rows_of urljoin base_url rows links → row ∈ rows →
  ∃ link fields, link ∈ links ∧ row = name_of urljoin base_url link :: fields.
Proof.
  intros Hrows [i Hi]%list_elem_of_lookup.
  destruct (Forall2_lookup_l _ _ _ _ _ Hrows Hi) as (link & Hl & fields & ->).
  exists link, fields. split; [| done]. apply list_elem_of_lookup. eauto.
Qed.

Section Rerun.

Context (urljoin : string → string → string)
        (transfer : string → nat → transfer_result)
        (valid_pdf : string → bool)
        (md5_hexdigest : string → string)
        (now : nat → string)
        (fetch_page : string → option (list element)).

Local Abbreviation scrape_with :=
  (Main.scrape_with urljoin transfer valid_pdf md5_hexdigest now fetch_page).

(** Two runs in a row, in a world whose server, page and validator
    answer the second run as they answered the first. *)
Lemma scrape_twice (configs : list (string * board_config))
    (base_path config_key : string) (validate_files : bool) (w : world) :
  ledger_ok w →
  let first := scrape_with configs base_path config_key true validate_files w in
  let second :=
    scrape_with configs base_path config_key true validate_files first.1 in
  ledger second.1 = ledger first.1 ∧ second.2 = first.2.
Proof.
  intros Hok. unfold Main.scrape_with.
  destruct (dict_get configs config_key) as [config|e]; [| done].
  destruct (item (Py.split "_" config_key) 1) as [lvl|e] eqn:Hlvl; [| done].
  destruct (key_parts_of_level _ _ Hlvl) as [board Hkey].
  cbn [negb]. cbv zeta.
  destruct (initialize_resume w Hok) as (header & rows0 & Hw0 & Hh).
  set (w0 := Main.initialize_tracking_csv false w) in *.
  destruct (fetch_page (base_url config)) as [page|]; cbn [fst snd].
  - pose proof (process_sections_ledger urljoin transfer valid_pdf md5_hexdigest
                  now base_path config_key (base_url config) board lvl
                  validate_files Hkey (Main.get_downloaded_files w0) page
                  (paper_sections config) w0 _ Hw0) as (Hres1 & rows1 & Hl1 & Hrows1).
    destruct (Main.process_sections _ _ _ _ _ _ _ _ true _ _ page _ w0)
      as [w1 r1] eqn:E1. cbn [fst snd] in *.
    rewrite <- app_comm_cons in Hl1.
    assert (∀ (r : result unit) (v : world),
              (match r with
               | Ok _ => (v, Ok true)
               | Raise e => (v, Raise e)
               end).1 = v) as Hfst by (by intros []).
    rewrite !Hfst.
    rewrite (initialize_nonempty w1 header (rows0 ++ rows1)) by done.
    pose proof (process_sections_ledger urljoin transfer valid_pdf md5_hexdigest
                  now base_path config_key (base_url config) board lvl
                  validate_files Hkey (Main.get_downloaded_files w1) page
                  (paper_sections config) w1 _ Hl1) as (Hres2 & rows2 & Hl2 & Hrows2).
    destruct (Main.process_sections _ _ _ _ _ _ _ _ true _ _ page _ w1)
      as [w2 r2] eqn:E2. cbn [fst snd] in *.
    rewrite (nothing_new urljoin transfer valid_pdf (base_url config)
               validate_files (Main.get_downloaded_files w0)
               (Main.get_downloaded_files w1) _ rows1) in Hrows2.
    + apply Forall2_nil_inv_r in Hrows2 as ->. rewrite app_nil_r in Hl2.
      rewrite Hfst. split; [by rewrite Hl2, Hl1 |]. subst r1 r2.
      by destruct (planned_links page (paper_sections config)).2.
    + unfold Main.get_downloaded_files. rewrite Hw0, Hl1. intros x.
      rewrite !read_filenames_spec by done.
      intros [H | (row & Hin & Hrow)]; [by left |].
      right. exists row. split; [| done]. apply elem_of_app. by left.
    + done.
    + intros row Hin.
      destruct (rows_of_nonempty _ _ _ _ _ Hrows1 Hin) as (link & fields & _ & ->).
      split; [done |]. unfold Main.get_downloaded_files. rewrite Hl1.
      rewrite read_filenames_spec by done. right.
      exists (name_of urljoin (base_url config) link :: fields).
      split; [| done]. apply elem_of_app. by right.
  - by rewrite (initialize_nonempty w0 header rows0).
Qed.

(** C1: with resume enabled, a link whose file name is among the names
    read from the ledger is passed over: the world stays as it was, so
    no transfer is attempted, no file written and no ledger record
    added.  Consequently, when the ledger file is absent or empty, or
    has a header whose first column, and no other, is [filename], a
    second run of the orchestrator, over a page and a server that
    answer as they did in the first run, leaves the ledger exactly as
    the first run left it and returns what the first run returned. *)
Theorem resume_skips_known (base_path config_key : string)
    (validate_files : bool) :
  (∀ base_url section downloaded link w,
     Some (Main.filename_of (Main.full_url_of urljoin base_url link.1.1) link.1.2)
       ∈ downloaded →
     let r := Main.process_link urljoin transfer valid_pdf md5_hexdigest now
                base_path config_key base_url section true validate_files
                downloaded link w in
     r.1 = w ∧ requests r.1 = requests w ∧ ledger r.1 = ledger w ∧
     (r.2 = Ok Main.NoYear ∨ r.2 = Ok Main.AlreadyKnown
      ∨ r.2 = Raise IndexError)) ∧
  (∀ w, ledger_ok w →
     let first :=
       Main.scrape_pmt_papers urljoin transfer valid_pdf md5_hexdigest now
         fetch_page base_path config_key true validate_files w in
     let second :=
       Main.scrape_pmt_papers urljoin transfer valid_pdf md5_hexdigest now
         fetch_page base_path config_key true validate_files first.1 in
     ledger second.1 = ledger first.1 ∧ second.2 = first.2).
Proof.
  split.
  - intros base_url section downloaded link w Hknown r. subst r.
    unfold Main.process_link.
    destruct (Main.key_parts config_key) as [[board lvl]|e] eqn:Hkey.
    + destruct (negb (truthy _)); cbn [fst snd]; [repeat split; auto |].
      rewrite bool_decide_eq_true_2 by done. cbn [andb fst snd].
      repeat split; auto.
    + cbn [fst snd]. repeat split; try done. right. right. f_equal.
      unfold Main.key_parts, mbind, result_bind in Hkey.
      destruct (item (Py.split "_" config_key) 0) eqn:E0;
        [| injection Hkey as <-; by eapply item_raises].
      destruct (item (Py.split "_" config_key) 1) eqn:E1; [done |].
      injection Hkey as <-. by eapply item_raises.
  - intros w Hok. by apply scrape_twice.
Qed.

End Rerun.

(** C1 as stated fails on a ledger file whose header has no [filename]
    column: [get_downloaded_files] meets the [KeyError] at the first
    record, logs it and knows no name, so the second run downloads and
    records again everything the first run recorded. *)
Lemma resume_skips_known_counterexample :
  let first := sample_run foreign_ledger in
  let second := sample_run first.1 in
  first.2 = Ok true ∧ second.2 = Ok true ∧
  Main.get_downloaded_files first.1 = ∅ ∧
  take 1 <$> ledger_rows first.1
  = [ ["name"]; ["June-2019-QP.pdf"]; ["June-2019-MS.pdf"];
      ["June 2019_ QP.pdf"]; ["P3-2019-QP.pdf"] ] ∧
  ledger_rows second.1 = ledger_rows first.1 ++ drop 1 (ledger_rows first.1) ∧
  ledger second.1 ≠ ledger first.1.
Proof.
  cbv zeta. split; [by vm_compute |]. split; [by vm_compute |].
  split; [by vm_compute |]. split; [by vm_compute |]. split; [by vm_compute |].
  intros H. apply (f_equal (λ l, length (default [] l))) in H.
  vm_compute in H. discriminate H.
Qed.

(** *** Two sections behind one anchor *)





Lemma from_next_div_suffix (els els' : list element) :
  Main.from_next_div els = Some els' → ∃ front, els = front ++ els'.
Proof.
  induction els as [|e els IH]; simpl; [done |].
  destruct e; try (intros (front & ->)%IH; by eexists (_ :: front)).
  intros [= <-]. by exists [].
Qed.


Section SharedAnchor.

Context (ident : string) (pre mid post : list element)
        (t1 t3 : string) (ids1 ids3 : list string).

Let page : list element :=
  pre ++ Heading H4 t1 ids1 :: mid ++ Heading H4 t3 ids3 :: post.

Hypothesis Hpre : ∀ e, e ∈ pre → ident ∉ Main.anchors_of e.
Hypothesis Hids : ident ∈ ids1.
Hypothesis Ht1 : Py.contains "Paper 3" t1 = false.
Hypothesis Hmid :
  ∀ e, e ∈ mid → Main.is_h4 e = true →
       Py.contains "Paper 3" (Main.heading_text e) = false.
Hypothesis Ht3 : Py.contains "Paper 3" t3 = true.










End SharedAnchor.




(** ** The worked run *)

Example sample_run_ledger :
  (λ row, take 3 row ++ take 2 (drop 8 row)) <$> ledger_rows (sample_run fresh_world).1
  = [ ["filename"; "exam_board"; "level"; "file_path"; "download_date"];
      ["June-2019-QP.pdf"; "edexcel"; "alevel";
       "/out/Edexcel/ALEVEL/Paper_1/question_papers/June-2019-QP.pdf";
       "2024-01-01 00:00:00"];
      ["June-2019-MS.pdf"; "edexcel"; "alevel";
       "/out/Edexcel/ALEVEL/Paper_1/mark_schemes/June-2019-MS.pdf";
       "2024-01-01 00:00:00"];
      ["June 2019_ QP.pdf"; "edexcel"; "alevel";
       "/out/Edexcel/ALEVEL/Paper_2/question_papers/June 2019_ QP.pdf";
       "2024-01-01 00:00:00"];
      ["P3-2019-QP.pdf"; "edexcel"; "alevel";
       "/out/Edexcel/ALEVEL/Paper_3/Mechanics/question_papers/P3-2019-QP.pdf";
       "2024-01-01 00:00:00"] ].
Proof. by vm_compute. Qed.

Lemma missing_year_skips_witness :
  Main.key_parts "edexcel_alevel" = Ok ("edexcel", "alevel") ∧
  Main.year_of "Specimen QP" = None ∧
  sample_step paper1 ∅ ("papers/specimen.pdf", "Specimen QP", "QP") fresh_world
  = (fresh_world, Ok Main.NoYear).
Proof.
  split; [reflexivity |]. split; [reflexivity |].
  exact (proj1 (proj2 (proj2 (missing_year_skips sample_urljoin sample_transfer
    sample_valid sample_md5 sample_now "/out" "edexcel_alevel"
    "https://pmt.example/papers/" "edexcel" "alevel" paper1 true true ∅
    "papers/specimen.pdf" "Specimen QP" "QP" [] fresh_world eq_refl)) eq_refl)).
Defined.

Lemma record_needs_valid_transfer_witness :
  Main.key_parts "edexcel_alevel" = Ok ("edexcel", "alevel") ∧
  let r := sample_step paper3 ∅
             ("https://pmt.example/damaged.pdf", "nov 2020 (Stats) MS", "MS")
             fresh_world in
  r.2 = Ok Main.InvalidFile ∧ ledger r.1 = ledger fresh_world ∧
  disk r.1 !! "/out/Edexcel/ALEVEL/Paper_3/Statistics/mark_schemes/damaged.pdf"
    = None.
Proof.
  split; [reflexivity |].
  exact (proj2 (record_needs_valid_transfer sample_urljoin sample_transfer
    sample_valid sample_md5 sample_now "/out" "edexcel_alevel"
    "https://pmt.example/papers/" "edexcel" "alevel" paper3 true true ∅
    ("https://pmt.example/damaged.pdf", "nov 2020 (Stats) MS", "MS")
    fresh_world eq_refl) "oops" eq_refl eq_refl eq_refl eq_refl eq_refl).
Defined.

Lemma ledger_integrity_witness :
  let r := sample_step paper1 ∅
             ("https://pmt.example/June-2019-QP.pdf", "June 2019 QP", "QP")
             fresh_world in
  ledger r.1 ≠ ledger fresh_world ∧
  ∃ row file_path bytes,
    ledger r.1 = Some (ledger_rows fresh_world ++ [row]) ∧
    length row = length Main.ledger_header ∧
    Main.dict_row_get Main.ledger_header row "file_path" = Ok (Some file_path) ∧
    disk r.1 !! file_path = Some bytes ∧
    Main.dict_row_get Main.ledger_header row "file_hash"
      = Ok (Some (sample_md5 bytes)).
Proof.
  assert (ledger (sample_step paper1 ∅
            ("https://pmt.example/June-2019-QP.pdf", "June 2019 QP", "QP")
            fresh_world).1 ≠ ledger fresh_world) as Hne by (by vm_compute).
  split; [exact Hne |].
  exact (ledger_integrity sample_urljoin sample_transfer sample_valid sample_md5
    sample_now "/out" "edexcel_alevel" "https://pmt.example/papers/" paper1
    true true ∅ ("https://pmt.example/June-2019-QP.pdf", "June 2019 QP", "QP")
    fresh_world Hne).
Defined.

Lemma resume_skips_known_witness :
  ledger_ok fresh_world ∧
  ledger (sample_run (sample_run fresh_world).1).1
    = ledger (sample_run fresh_world).1 ∧
  Some "June-2019-QP.pdf" ∈ ({[ Some "June-2019-QP.pdf" ]} : gset (option string)) ∧
  (sample_step paper1 {[ Some "June-2019-QP.pdf" ]}
     ("https://pmt.example/June-2019-QP.pdf", "June 2019 QP", "QP") fresh_world).1
  = fresh_world.
Proof.
  split; [exact I |]. split.
  - exact (proj1 (proj2 (resume_skips_known sample_urljoin sample_transfer
      sample_valid sample_md5 sample_now sample_fetch "/out" "edexcel_alevel" true)
      fresh_world I)).
  - split; [by apply elem_of_singleton |].
    exact (proj1 (proj1 (resume_skips_known sample_urljoin sample_transfer
      sample_valid sample_md5 sample_now sample_fetch "/out" "edexcel_alevel" true)
      "https://pmt.example/papers/" paper1 {[ Some "June-2019-QP.pdf" ]}
      ("https://pmt.example/June-2019-QP.pdf", "June 2019 QP", "QP") fresh_world
      (proj2 (elem_of_singleton _ _) eq_refl))).
Defined.

Lemma sample_page_shape :
  sample_page =
  [Other []] ++ Heading H4 "Paper 1" ["paper1"] :: sample_mid
    ++ Heading H4 "Paper 3" [] :: sample_post.
Proof. reflexivity. Qed.




(** * Further properties of the orchestrator *)

(** ** The retrying download *)

Lemma download_attempts (transfer : string → nat → transfer_result)
    (url save_path : string) (attempt left : nat) (w : world) :
  let r := Main.download_file_with_progress transfer url save_path attempt left w in
  ∃ k, k ≤ left ∧ (0 < left → 0 < k) ∧
    requests r.1 = requests w ++ replicate k url ∧
    (∀ i, i < k - 1 → request_failed (transfer url (attempt + i)) = true) ∧
    match r.2 with
    | Ok true =>
        0 < k ∧
        ∃ body, transfer url (attempt + (k - 1)) = Delivered body ∧
                disk r.1 !! save_path = Some body
    | Ok false =>
        k = left ∧
        ∀ i, i < left → request_failed (transfer url (attempt + i)) = true
    | Raise e =>
        0 < k ∧
        ∃ written, transfer url (attempt + (k - 1)) = Crashed e written ∧
                   ∀ partial, written = Some partial →
                              disk r.1 !! save_path = Some partial
    end ∧
    ledger r.1 = ledger w ∧
    (∀ p, p ≠ save_path → disk r.1 !! p = disk w !! p).
Proof.
  revert attempt w. induction left as [|left IH]; intros attempt w.
  - exists 0. cbn. rewrite app_nil_r.
    split; [lia |]. split; [lia |]. split; [done |].
    split; [intros i Hi; exfalso; lia |].
    split; [split; [done | intros i Hi; exfalso; lia] |]. done.
  - cbn [Main.download_file_with_progress].
    destruct (transfer url attempt) as [body| |partial|e [partial|]] eqn:Et.
    + exists 1. cbn.
      split; [lia |]. split; [lia |]. split; [done |].
      split; [intros i Hi; exfalso; lia |].
      split; [| split; [done |]].
      * split; [lia |]. exists body. rewrite Nat.add_0_r. split; [done |].
        apply lookup_insert_eq.
      * intros p Hp. by rewrite lookup_insert_ne.
    + destruct (IH (S attempt) (log_request url w))
        as (k & Hk & Hpos & Hreq & Hbefore & Hres & Hled & Hdisk).
      exists (S k). split; [lia |]. split; [lia |]. split.
      { rewrite Hreq. cbn. by rewrite <- app_assoc. }
      split.
      { intros i Hi. destruct i as [|i]; [by rewrite Nat.add_0_r, Et |].
        replace (attempt + S i) with (S attempt + i) by lia. apply Hbefore. lia. }
      split; [| done].
      destruct (Main.download_file_with_progress _ _ _ _ _ _).2 as [[|]|e].
      * destruct Hres as (Hk0 & body & Hb & Hd). split; [lia |].
        exists body. split; [| done].
        replace (attempt + (S k - 1)) with (S attempt + (k - 1)) by lia. done.
      * destruct Hres as [-> Hnone]. split; [done |]. intros i Hi.
        destruct i as [|i]; [by rewrite Nat.add_0_r, Et |].
        replace (attempt + S i) with (S attempt + i) by lia. apply Hnone. lia.
      * destruct Hres as (Hk0 & written & Hb & Hd). split; [lia |].
        exists written. split; [| done].
        replace (attempt + (S k - 1)) with (S attempt + (k - 1)) by lia. done.
    + destruct (IH (S attempt) (write_file save_path partial (log_request url w)))
        as (k & Hk & Hpos & Hreq & Hbefore & Hres & Hled & Hdisk).
      exists (S k). split; [lia |]. split; [lia |]. split.
      { rewrite Hreq. cbn. by rewrite <- app_assoc. }
      split.
      { intros i Hi. destruct i as [|i]; [by rewrite Nat.add_0_r, Et |].
        replace (attempt + S i) with (S attempt + i) by lia. apply Hbefore. lia. }
      split; [| split; [done |]].
      * destruct (Main.download_file_with_progress _ _ _ _ _ _).2 as [[|]|e].
        -- destruct Hres as (Hk0 & body & Hb & Hd). split; [lia |].
           exists body. split; [| done].
           replace (attempt + (S k - 1)) with (S attempt + (k - 1)) by lia. done.
        -- destruct Hres as [-> Hnone]. split; [done |]. intros i Hi.
           destruct i as [|i]; [by rewrite Nat.add_0_r, Et |].
           replace (attempt + S i) with (S attempt + i) by lia. apply Hnone. lia.
        -- destruct Hres as (Hk0 & written & Hb & Hd). split; [lia |].
           exists written.
           replace (attempt + (S k - 1)) with (S attempt + (k - 1)) by lia.
           split; done.
      * intros p Hp. rewrite Hdisk by done. cbn. by rewrite lookup_insert_ne.
    + exists 1. cbn.
      split; [lia |]. split; [lia |]. split; [done |].
      split; [intros i Hi; exfalso; lia |].
      split; [| split; [done |]].
      * split; [lia |]. exists (Some partial). rewrite Nat.add_0_r.
        split; [done |]. intros ? [= <-]. apply lookup_insert_eq.
      * intros p Hp. by rewrite lookup_insert_ne.
    + exists 1. cbn.
      split; [lia |]. split; [lia |]. split; [done |].
      split; [intros i Hi; exfalso; lia |].
      split; [| done].
      split; [lia |]. exists None. rewrite Nat.add_0_r. done.
Qed.

(** X1: [download_file_with_progress] asks the server at most [retries]
    times, always for the same URL, and each attempt but the last one
    made failed with a [RequestException].  It returns [True] when the
    last attempt made was delivered, the file then holding that body; it
    returns [False] when all [retries] attempts failed with a
    [RequestException]; and it is left by the exception of an attempt
    that raised anything else ([int] on a malformed [Content-Length],
    [open], [write]), which it does not catch.  It never touches the
    ledger nor any file other than [save_path]; what a broken attempt
    wrote stays on disk. *)
Theorem download_retries (transfer : string → nat → transfer_result)
    (url save_path : string) (retries : nat) (w : world) :
  let r := Main.download_file_with_progress transfer url save_path 0 retries w in
  ∃ k, k ≤ retries ∧ (0 < retries → 0 < k) ∧
    requests r.1 = requests w ++ replicate k url ∧
    (∀ i, i < k - 1 → request_failed (transfer url i) = true) ∧
    match r.2 with
    | Ok true =>
        0 < k ∧
        ∃ body, transfer url (k - 1) = Delivered body ∧
                disk r.1 !! save_path = Some body
    | Ok false =>
        k = retries ∧ ∀ i, i < retries → request_failed (transfer url i) = true
    | Raise e =>
        0 < k ∧
        ∃ written, transfer url (k - 1) = Crashed e written ∧
                   ∀ partial, written = Some partial →
                              disk r.1 !! save_path = Some partial
    end ∧
    ledger r.1 = ledger w ∧
    (∀ p, p ≠ save_path → disk r.1 !! p = disk w !! p).
Proof. exact (download_attempts transfer url save_path 0 retries w). Qed.

(** A failed download leaves the last partial body behind. *)
Example download_leaves_partial :
  let r := Main.download_file_with_progress sample_transfer
             "https://pmt.example/June-2019-MS.pdf" "/out/ms.pdf" 0 2 fresh_world in
  r.2 = Ok false ∧ disk r.1 !! "/out/ms.pdf" = Some "%PD" ∧
  requests r.1 = replicate 2 "https://pmt.example/June-2019-MS.pdf".
Proof. by vm_compute. Qed.

(** An exception that is no [RequestException] is not retried: it leaves
    the download, and the loop body logs it and records nothing. *)
Example download_crash :
  let r := Main.download_file_with_progress malformed_length_transfer
             "https://pmt.example/June-2019-QP.pdf" "/out/qp.pdf" 0 3 fresh_world in
  let step := Main.process_link sample_urljoin malformed_length_transfer
                sample_valid sample_md5 sample_now "/out" "edexcel_alevel"
                "https://pmt.example/papers/" paper1 true true ∅
                ("https://pmt.example/June-2019-QP.pdf", "June 2019 QP", "QP")
                fresh_world in
  r.2 = Raise ValueError ∧ disk r.1 !! "/out/qp.pdf" = None ∧
  requests r.1 = ["https://pmt.example/June-2019-QP.pdf"] ∧
  step.2 = Ok Main.Errored ∧ ledger step.1 = None.
Proof. by vm_compute. Qed.

(** ** What a link and a run leave alone *)

Section Frame.

Context (urljoin : string → string → string)
        (transfer : string → nat → transfer_result)
        (valid_pdf : string → bool)
        (md5_hexdigest : string → string)
        (now : nat → string).

Context (base_path config_key base_url board lvl : string)
        (resume validate_files : bool).

Hypothesis Hkey : Main.key_parts config_key = Ok (board, lvl).

Local Abbreviation process_link :=
  (Main.process_link urljoin transfer valid_pdf md5_hexdigest now
     base_path config_key base_url).
Local Abbreviation process_links :=
  (Main.process_links urljoin transfer valid_pdf md5_hexdigest now
     base_path config_key base_url).
Local Abbreviation process_sections :=
  (Main.process_sections urljoin transfer valid_pdf md5_hexdigest now
     base_path config_key base_url).
Local Abbreviation recorded :=
  (recorded_by urljoin transfer valid_pdf base_url resume validate_files).
Local Abbreviation rows_for := (ledger_rows_for urljoin base_url).

Lemma process_link_rows section downloaded link (w : world) L :
  ledger w = Some L →
  let r := process_link section resume validate_files downloaded link w in
  (∃ e, r.2 = Ok e) ∧
  ∃ rows, ledger r.1 = Some (L ++ rows) ∧
          rows_for rows (filter (λ l, recorded downloaded l = true) [link]).
Proof.
  intros HL r.
  pose proof (process_link_spec urljoin transfer valid_pdf md5_hexdigest now
                base_path config_key base_url board lvl section resume
                validate_files downloaded link w Hkey) as [Hv Hw].
  fold r in Hv, Hw. split; [by eexists |].
  rewrite filter_cons, filter_nil. unfold recorded_by, name_of.
  destruct (verdict _ _ _ _ _ _ _ _).
  1-5: rewrite decide_False by done; exists []; rewrite app_nil_r;
       split; [| constructor].
  - by rewrite Hw.
  - by rewrite Hw.
  - by rewrite Hw.
  - destruct Hw as [-> _]. done.
  - by rewrite Hw.
  - rewrite decide_True by done.
    destruct Hw as (body & date & _ & _ & ->). unfold ledger_rows. rewrite HL.
    eexists [_]. split; [done |]. constructor; [| constructor]. done.
Qed.

Lemma process_links_rows section downloaded links (w : world) L :
  ledger w = Some L →
  let r := process_links section resume validate_files downloaded links w in
  r.2 = Ok () ∧
  ∃ rows, ledger r.1 = Some (L ++ rows) ∧
          rows_for rows (filter (λ l, recorded downloaded l = true) links).
Proof.
  revert w L. induction links as [|link links IH]; intros w L HL; simpl.
  - split; [done |]. exists []. rewrite app_nil_r. split; [done | constructor].
  - pose proof (process_link_rows section downloaded link w L HL)
      as ([e He] & rows1 & Hl1 & Hr1).
    destruct (process_link section resume validate_files downloaded link w)
      as [w1 r1]. cbn [fst snd] in *. subst r1.
    destruct (IH w1 _ Hl1) as (Hok & rows2 & Hl2 & Hr2).
    split; [done |]. exists (rows1 ++ rows2). rewrite app_assoc. split; [done |].
    change (link :: links) with ([link] ++ links). rewrite filter_app.
    by apply Forall2_app.
Qed.

Lemma process_sections_rows downloaded page sections (w : world) L :
  ledger w = Some L →
  let r := process_sections resume validate_files downloaded page sections w in
  r.2 = (planned_links page sections).2 ∧
  ∃ rows, ledger r.1 = Some (L ++ rows) ∧
          rows_for rows (filter (λ l, recorded downloaded l = true)
                           (planned_links page sections).1).
Proof.
  revert w L. induction sections as [|section sections IH]; intros w L HL; simpl.
  - split; [done |]. exists []. rewrite app_nil_r. split; [done | constructor].
  - unfold Main.process_section.
    destruct (Main.section_links section page) as [[links|]|e]; cbn [fst snd].
    + pose proof (process_links_rows section downloaded links w L HL)
        as (Hok & rows1 & Hl1 & Hr1).
      destruct (process_links section resume validate_files downloaded links w)
        as [w1 r1]. cbn [fst snd] in *. subst r1.
      destruct (IH w1 _ Hl1) as (Hres & rows2 & Hl2 & Hr2).
      split; [done |]. exists (rows1 ++ rows2). rewrite app_assoc.
      split; [done |]. rewrite filter_app. by apply Forall2_app.
    + by apply IH.
    + split; [done |]. exists []. rewrite app_nil_r. split; [done | constructor].
Qed.

(** X2: One round of the link loop touches no file but the one at its
    [save_path], asks the server for nothing but its own URL and at
    most three times, and changes the ledger, if at all, by one
    twelve-field record added at the end, which starts with the file
    name. *)
Theorem link_step_frame (section : paper_section)
    (downloaded : gset (option string))
    (link : string * string * string) (w : world) :
  let url := Main.full_url_of urljoin base_url link.1.1 in
  let filename := Main.filename_of url link.1.2 in
  let md := Main.link_metadata board lvl section link in
  let save_path := Main.save_path_of base_path md link.1.2 filename in
  let r := process_link section resume validate_files downloaded link w in
  (∀ p, p ≠ save_path → disk r.1 !! p = disk w !! p) ∧
  (∃ k, k ≤ 3 ∧ requests r.1 = requests w ++ replicate k url) ∧
  (ledger r.1 = ledger w ∨
   ∃ row, ledger r.1 = Some (ledger_rows w ++ [row]) ∧
          length row = 12 ∧ row !! 0 = Some filename).
Proof.
  intros url filename md save_path r. subst r.
  unfold Main.process_link. rewrite Hkey.
  fold url. fold md. fold filename. fold save_path.
  destruct (negb (truthy (year md))); cbn [fst snd].
  { split; [done |]. split; [| by left]. exists 0. split; [lia |].
    by rewrite app_nil_r. }
  destruct (resume && bool_decide (Some filename ∈ downloaded)); cbn [fst snd].
  { split; [done |]. split; [| by left]. exists 0. split; [lia |].
    by rewrite app_nil_r. }
  pose proof (download_attempts transfer url save_path 0 3 w)
    as (k & Hk & _ & Hreq & _ & _ & Hled & Hdisk).
  destruct (Main.download_file_with_progress transfer url save_path 0 3 w)
    as [w' ok]. cbn [fst snd] in *.
  destruct ok as [[|]|e]; cbn [fst snd].
  - destruct (validate_files && negb (Main.validate_pdf valid_pdf save_path w'));
      cbn [fst snd].
    + split; [| split; [by eauto | by left]].
      intros p Hp. cbn. rewrite lookup_delete_ne by done. by apply Hdisk.
    + split; [by apply Hdisk |]. split; [by eauto |]. right.
      eexists. unfold Main.add_to_tracking_csv, append_row. cbn [ledger].
      unfold ledger_rows. rewrite Hled. split; [done |]. done.
  - split; [by apply Hdisk |]. split; [by eauto | by left].
  - split; [by apply Hdisk |]. split; [by eauto | by left].
Qed.

End Frame.

Lemma link_step_frame_witness :
  let r := sample_step paper1 ∅
             ("https://pmt.example/June-2019-QP.pdf", "June 2019 QP", "QP")
             fresh_world in
  Main.key_parts "edexcel_alevel" = Ok ("edexcel", "alevel") ∧
  (∀ p, p ≠ "/out/Edexcel/ALEVEL/Paper_1/question_papers/June-2019-QP.pdf" →
        disk r.1 !! p = disk fresh_world !! p).
Proof.
  split; [reflexivity |].
  exact (proj1 (link_step_frame sample_urljoin sample_transfer sample_valid
    sample_md5 sample_now "/out" "edexcel_alevel" "https://pmt.example/papers/"
    "edexcel" "alevel" true true eq_refl paper1 ∅
    ("https://pmt.example/June-2019-QP.pdf", "June 2019 QP", "QP") fresh_world)).
Defined.

(** ** The run as a whole *)

Lemma initialize_some (overwrite : bool) (w : world) :
  ∃ header rows, ledger (Main.initialize_tracking_csv overwrite w)
                 = Some (header :: rows).
Proof.
  unfold Main.initialize_tracking_csv.
  destruct (ledger w) as [[|header rows]|] eqn:E, overwrite; cbn; eauto.
Qed.










Section Run.

Context (urljoin : string → string → string)
        (transfer : string → nat → transfer_result)
        (valid_pdf : string → bool)
        (md5_hexdigest : string → string)
        (now : nat → string)
        (fetch_page : string → option (list element)).

Local Abbreviation scrape_with :=
  (Main.scrape_with urljoin transfer valid_pdf md5_hexdigest now fetch_page).
Local Abbreviation scrape_pmt_papers :=
  (Main.scrape_pmt_papers urljoin transfer valid_pdf md5_hexdigest now fetch_page).

(** A run over a known profile, from its initialised ledger on. *)
Lemma scrape_outcome (configs : list (string * board_config))
    (base_path config_key : string) (config : board_config)
    (resume validate_files : bool) (w : world) :
  dict_get configs config_key = Ok config →
  (∃ lvl, item (Py.split "_" config_key) 1 = Ok lvl) →
  let w0 := Main.initialize_tracking_csv (negb resume) w in
  let downloaded := if resume then Main.get_downloaded_files w0 else ∅ in
  let r := scrape_with configs base_path config_key resume validate_files w in
  match fetch_page (base_url config) with
  | None => r = (w0, Ok false)
  | Some page =>
      let planned := planned_links page (paper_sections config) in
      r.2 = match planned.2 with Ok _ => Ok true | Raise e => Raise e end ∧
      ∃ rows,
        ledger r.1 = Some (ledger_rows w0 ++ rows) ∧
        ledger_rows_for urljoin (base_url config) rows
          (filter (λ l, recorded_by urljoin transfer valid_pdf (base_url config)
                          resume validate_files downloaded l = true)
             planned.1)
  end.
Proof.
  intros Hcfg [lvl Hlvl] w0 downloaded r. subst r.
  unfold Main.scrape_with. rewrite Hcfg, Hlvl.
  destruct (key_parts_of_level _ _ Hlvl) as [board Hkey].
  cbv zeta. fold w0. fold downloaded.
  destruct (fetch_page (base_url config)) as [page|]; [| done].
  destruct (initialize_some (negb resume) w) as (header & rows0 & Hw0).
  fold w0 in Hw0.
  pose proof (process_sections_rows urljoin transfer valid_pdf md5_hexdigest
                now base_path config_key (base_url config) board lvl resume
                validate_files Hkey downloaded page (paper_sections config)
                w0 _ Hw0) as (Hres & rows & Hl & Hrows).
  destruct (Main.process_sections _ _ _ _ _ _ _ _ _ _ _ page _ w0)
    as [w1 r1]. cbn [fst snd] in *. rewrite <- Hres.
  split; [by destruct r1 |].
  exists rows. unfold ledger_rows. rewrite Hw0. cbn [default].
  by destruct r1.
Qed.

Lemma registry_key (config_key : string) (config : board_config) :
  dict_get Main.CONFIGS config_key = Ok config →
  config_key = "edexcel_alevel" ∧
  dict_get Main.CONFIGS "edexcel_alevel" = Ok config.
Proof.
  unfold Main.CONFIGS. cbn [dict_get].
  destruct (String.eqb_spec "edexcel_alevel" config_key) as [<-|]; [| done].
  intros [= <-]. done.
Qed.



(** X4: A resuming run only adds to a ledger that has content: every
    record it found is still there, in place and unchanged, and what
    follows are twelve-field records. *)
Theorem resume_is_append_only (base_path config_key : string)
    (validate_files : bool) (w : world) (header : list string)
    (rows0 : list (list string)) :
  ledger w = Some (header :: rows0) →
  let r := scrape_pmt_papers base_path config_key true validate_files w in
  ∃ rows, ledger r.1 = Some (header :: rows0 ++ rows) ∧
          Forall (λ row, length row = 12) rows.
Proof.
  intros Hw r. subst r.
  destruct (dict_get Main.CONFIGS config_key) as [config|e] eqn:Hcfg.
  - destruct (registry_key _ _ Hcfg) as [-> Hc].
    pose proof (scrape_outcome Main.CONFIGS base_path "edexcel_alevel" config
                  true validate_files w Hcfg (ex_intro _ "alevel" eq_refl)) as H.
    cbv zeta in H. cbn [negb] in H.
    rewrite (initialize_nonempty w header rows0 Hw) in H.
    unfold Main.scrape_pmt_papers.
    destruct (fetch_page (base_url config)) as [page|].
    + destruct H as (_ & rows & Hl & Hrows). exists rows.
      unfold ledger_rows in Hl. rewrite Hw in Hl. split; [done |].
      clear Hl. induction Hrows as [|row link rows links [Hlen _] _ IH];
        constructor; done.
    + rewrite H. exists []. cbn [fst]. by rewrite app_nil_r, Hw.
  - unfold Main.scrape_pmt_papers, Main.scrape_with. rewrite Hcfg.
    exists []. cbn [fst]. by rewrite app_nil_r, Hw.
Qed.

(** X5: With resume off the ledger is started afresh: whatever it held is
    gone, the run begins from the header alone, and a link is recorded
    whenever it has a year, is delivered and passes validation, known
    before or not. *)
Theorem fresh_start_discards (base_path config_key : string)
    (config : board_config) (validate_files : bool) (w : world) :
  dict_get Main.CONFIGS config_key = Ok config →
  let r := scrape_pmt_papers base_path config_key false validate_files w in
  match fetch_page (base_url config) with
  | None => ledger r.1 = Some [Main.ledger_header]
  | Some page =>
      ∃ rows,
        ledger r.1 = Some (Main.ledger_header :: rows) ∧
        ledger_rows_for urljoin (base_url config) rows
          (filter (λ l, recorded_by urljoin transfer valid_pdf (base_url config)
                          false validate_files ∅ l = true)
             (planned_links page (paper_sections config)).1)
  end.
Proof.
  intros Hcfg r. subst r. destruct (registry_key _ _ Hcfg) as [-> Hc].
  pose proof (scrape_outcome Main.CONFIGS base_path "edexcel_alevel" config
                false validate_files w Hcfg (ex_intro _ "alevel" eq_refl)) as H.
  cbv zeta in H. cbn [negb] in H. unfold Main.scrape_pmt_papers.
  assert (ledger (Main.initialize_tracking_csv true w)
          = Some [Main.ledger_header]) as Hinit.
  { unfold Main.initialize_tracking_csv. rewrite andb_false_r. done. }
  destruct (fetch_page (base_url config)) as [page|].
  - destruct H as (_ & rows & Hl & Hrows). exists rows. split; [| done].
    rewrite Hl. unfold ledger_rows. by rewrite Hinit.
  - by rewrite H.
Qed.

End Run.

Lemma resume_is_append_only_witness :
  let w := (sample_run fresh_world).1 in
  ∃ header rows0 rows,
    ledger w = Some (header :: rows0) ∧
    ledger (sample_run w).1 = Some (header :: rows0 ++ rows).
Proof.
  intros w.
  assert (∃ header rows0, ledger w = Some (header :: rows0))
    as (header & rows0 & Hw) by (vm_compute; eauto).
  destruct (resume_is_append_only sample_urljoin sample_transfer sample_valid
              sample_md5 sample_now sample_fetch "/out" "edexcel_alevel" true
              w header rows0 Hw) as (rows & H & _).
  exists header, rows0, rows. split; [exact Hw | exact H].
Defined.

Lemma fresh_start_discards_witness :
  ∃ config,
    dict_get Main.CONFIGS "edexcel_alevel" = Ok config ∧
    ∃ rows,
      ledger (Main.scrape_pmt_papers sample_urljoin sample_transfer sample_valid
                sample_md5 sample_now sample_fetch "/out" "edexcel_alevel"
                false true (sample_run fresh_world).1).1
      = Some (Main.ledger_header :: rows).
Proof.
  eexists. split; [reflexivity |].
  destruct (fresh_start_discards sample_urljoin sample_transfer sample_valid
              sample_md5 sample_now sample_fetch "/out" "edexcel_alevel" _ true
              (sample_run fresh_world).1 eq_refl) as (rows & H & _).
  by exists rows.
Defined.

(** ** The ledger and the names read from it *)

Lemma column_of_absent (key : string) (fieldnames : list string) (i : nat)
    (found : option nat) :
  key ∉ fieldnames → Main.column_of key fieldnames i found = found.
Proof.
  revert i found. induction fieldnames as [|f fs IH]; intros i found Hk; [done |].
  apply not_elem_of_cons in Hk as [Hne Hk]. cbn.
  rewrite (proj2 (String.eqb_neq f key)) by congruence. by apply IH.
Qed.

Lemma column_of_present (key : string) (fieldnames : list string) (i : nat)
    (found : option nat) :
  key ∈ fieldnames →
  ∃ j, Main.column_of key fieldnames i found = Some j ∧ i ≤ j.
Proof.
  revert i found. induction fieldnames as [|f fs IH]; intros i found Hk.
  - by apply elem_of_nil in Hk.
  - cbn. destruct (decide (key ∈ fs)) as [Hin | Hout].
    + destruct (IH (S i) (if String.eqb f key then Some i else found) Hin)
        as (j & Hj & Hle).
      exists j. split; [done | lia].
    + rewrite column_of_absent by done.
      apply elem_of_cons in Hk as [-> | Hk]; [| done].
      rewrite String.eqb_refl. by exists i.
Qed.

(** The header that lets the names be read back from the first field. *)
Lemma filename_first (header : list string) :
  Main.column_of "filename" header 0 None = Some 0 ↔
  ∃ cols, header = "filename" :: cols ∧ "filename" ∉ cols.
Proof.
  split.
  - destruct header as [|f cols]; [done |]. cbn.
    destruct (decide ("filename" ∈ cols)) as [Hin | Hout].
    + destruct (column_of_present "filename" cols 1
                  (if String.eqb f "filename" then Some 0 else None) Hin)
        as (j & -> & Hle).
      intros [= ->]. lia.
    + rewrite column_of_absent by done.
      destruct (String.eqb_spec f "filename") as [-> | ]; [| done].
      intros _. by exists cols.
  - intros (cols & -> & Hout). cbn. by rewrite column_of_absent.
Qed.

(** X6: The names [get_downloaded_files] knows, for a ledger whose header
    has ["filename"] as its first column and nowhere else, are the first
    fields of the records after the header. *)
Theorem known_names (w : world) (cols : list string)
    (rows : list (list string)) (f : string) :
  ledger w = Some (("filename" :: cols) :: rows) →
  "filename" ∉ cols →
  Some f ∈ Main.get_downloaded_files w ↔ ∃ fields, f :: fields ∈ rows.
Proof.
  intros Hw Hcols. unfold Main.get_downloaded_files. rewrite Hw.
  rewrite read_filenames_spec by (apply filename_first; eauto). split.
  - intros [H | (row & Hin & Hne & Hrow)]; [by apply elem_of_empty in H |].
    destruct row as [|f' fields]; [done |]. injection Hrow as ->. eauto.
  - intros (fields & Hin). right. by exists (f :: fields).
Qed.

Lemma known_names_witness :
  Some "June-2019-QP.pdf" ∈ Main.get_downloaded_files (sample_run fresh_world).1.
Proof.
  apply (known_names (sample_run fresh_world).1
           (drop 1 Main.ledger_header)
           (drop 1 (ledger_rows (sample_run fresh_world).1))
           "June-2019-QP.pdf").
  - by vm_compute.
  - unfold Main.ledger_header. cbn. rewrite !not_elem_of_cons.
    repeat split; try done. apply not_elem_of_nil.
  - eexists. left.
Defined.

(** X7: Recording a file makes it known: after [add_to_tracking_csv] on a
    ledger with a proper header, [get_downloaded_files] returns what it
    returned before together with the new file name. *)
Theorem record_then_known (now : nat → string) (md : metadata)
    (filename file_path file_hash : string) (validated : bool) (w : world)
    (cols : list string) (rows : list (list string)) :
  ledger w = Some (("filename" :: cols) :: rows) →
  "filename" ∉ cols →
  Main.get_downloaded_files
    (Main.add_to_tracking_csv now md filename file_path file_hash validated w)
  = {[ Some filename ]} ∪ Main.get_downloaded_files w.
Proof.
  intros Hw Hcols.
  assert (Main.column_of "filename" ("filename" :: cols) 0 None = Some 0) as Hh
    by (apply filename_first; eauto).
  apply set_eq. intros x.
  unfold Main.get_downloaded_files, Main.add_to_tracking_csv, append_row.
  cbn [ledger]. rewrite Hw. cbn [default]. unfold id.
  rewrite <- app_comm_cons.
  rewrite elem_of_union, elem_of_singleton.
  rewrite (read_filenames_spec _ (rows ++ _)), (read_filenames_spec _ rows)
    by done.
  split.
  - intros [H | (row & Hin & Hne & Hrow)]; [by apply elem_of_empty in H |].
    apply elem_of_app in Hin as [Hin | ->%list_elem_of_singleton].
    + right. right. by exists row.
    + left. by rewrite <- Hrow.
  - intros [-> | [H | (row & Hin & Hne & Hrow)]].
    + right. eexists. split; [apply elem_of_app; right; left |]. done.
    + by apply elem_of_empty in H.
    + right. exists row. split; [apply elem_of_app; by left | done].
Qed.

Lemma record_then_known_witness :
  let w := Main.initialize_tracking_csv false fresh_world in
  Main.get_downloaded_files
    (Main.add_to_tracking_csv sample_now
       (mk_metadata "edexcel" "alevel" (Some "Paper 1") (Some "QP") (Some "2019")
          None None) "a.pdf" "/out/a.pdf" "h" true w)
  = {[ Some "a.pdf" ]} ∪ Main.get_downloaded_files w.
Proof.
  intros w.
  apply (record_then_known sample_now _ "a.pdf" "/out/a.pdf" "h" true w
           (drop 1 Main.ledger_header) []).
  - reflexivity.
  - unfold Main.ledger_header. cbn. rewrite !not_elem_of_cons.
    repeat split; try done. apply not_elem_of_nil.
Defined.

(** X8: A ledger whose header has no ["filename"] column gives no known
    names at all, whatever its records: the [KeyError] of the first
    record ends the reading, and is swallowed. *)
Theorem header_without_filename (w : world) (header : list string)
    (rows : list (list string)) :
  ledger w = Some (header :: rows) → "filename" ∉ header →
  Main.get_downloaded_files w = ∅.
Proof.
  intros Hw Hout. unfold Main.get_downloaded_files. rewrite Hw. clear Hw.
  induction rows as [|row rows IH]; [done |].
  destruct row as [|f fields]; [exact IH |].
  cbn [Main.read_filenames]. unfold Main.dict_row_get.
  by rewrite column_of_absent.
Qed.

Lemma header_without_filename_witness :
  Main.get_downloaded_files
    (mk_world ∅ (Some [["name"; "path"]; ["a.pdf"; "/out/a.pdf"]]) []) = ∅.
Proof.
  apply (header_without_filename _ ["name"; "path"] [["a.pdf"; "/out/a.pdf"]]).
  - reflexivity.
  - rewrite !not_elem_of_cons. repeat split; try done. apply not_elem_of_nil.
Defined.

(** X9: A record appended where there is no ledger file, or an empty one,
    becomes the first line of the file and is read back as the header:
    the file just recorded is not among the known names. *)
Theorem record_without_header (now : nat → string) (md : metadata)
    (filename file_path file_hash : string) (validated : bool) (w : world) :
  ledger_rows w = [] →
  Main.get_downloaded_files
    (Main.add_to_tracking_csv now md filename file_path file_hash validated w)
  = ∅.
Proof.
  unfold Main.get_downloaded_files, Main.add_to_tracking_csv, append_row,
    ledger_rows.
  cbn [ledger]. by intros ->.
Qed.

Lemma record_without_header_witness :
  Main.get_downloaded_files
    (Main.add_to_tracking_csv sample_now
       (mk_metadata "edexcel" "alevel" (Some "Paper 1") (Some "QP") (Some "2019")
          None None) "a.pdf" "/out/a.pdf" "h" true fresh_world)
  = ∅.
Proof.
  exact (record_without_header sample_now _ "a.pdf" "/out/a.pdf" "h" true
           fresh_world eq_refl).
Defined.

(** ** Splitting *)

Lemma split_go_absent (sep cur s : string) :
  Py.contains sep s = false → Py.split_go sep 0 cur s = [String.rev_app cur s].
Proof.
  revert cur. induction s as [|c s IH]; intros cur Hs; [done |].
  rewrite contains_cons in Hs. apply orb_false_iff in Hs as [Hp Hs].
  cbn [Py.split_go]. rewrite Hp. by rewrite IH.
Qed.

(** Without the separator in it, a string splits into itself alone. *)
Lemma split_absent (sep s : string) :
  Py.contains sep s = false → Py.split sep s = [s].
Proof. intros Hs. unfold Py.split. by rewrite split_go_absent. Qed.

(** ** The loop of the unified scraper *)

Lemma on_status_400 {A} (st : nat) (x y : A) :
  match st with 400 => x | _ => y end = if Nat.eqb st 400 then x else y.
Proof.
  destruct (Nat.eqb_spec st 400) as [-> | Hne]; [done |].
  do 400 (destruct st as [|st]; [done |]).
  by destruct st.
Qed.

Lemma on_status_200 {A} (st : nat) (x y : A) :
  match st with 200 => x | _ => y end = if Nat.eqb st 200 then x else y.
Proof.
  destruct (Nat.eqb_spec st 200) as [-> | Hne]; [done |].
  do 200 (destruct st as [|st]; [done |]).
  by destruct st.
Qed.

Section Unified.

Context (unquote : string → string)
        (http_get : nat → string → option (nat * string))
        (writable : string → bool)
        (now : nat → string).

Local Abbreviation download := (Scrapers.download http_get writable now).
Local Abbreviation process_link :=
  (Scrapers.process_link unquote http_get writable now).
Local Abbreviation process_links :=
  (Scrapers.process_links unquote http_get writable now).

(** X10: What the [try] block of [scrape_papers] does for one link: one
    request, or two when the first was answered 400 (and never a
    third); the link counts as downloaded exactly when the last answer
    had status 200 and the file could be opened, and then the body is
    on disk under the planned path and one ten-field record ends the
    ledger; otherwise neither the disk nor the ledger changes. *)
Theorem unified_download_effects (p : Scrapers.plan) (w : world) :
  let r := download p w in
  let n := length (requests w) in
  (requests r.1 = requests w ++ [Scrapers.plan_url p] ∧
     (∀ b, http_get n (Scrapers.plan_url p) ≠ Some (400, b))
   ∨ requests r.1 = requests w ++ [Scrapers.plan_url p; Scrapers.plan_url p] ∧
     (∃ b, http_get n (Scrapers.plan_url p) = Some (400, b))) ∧
  if r.2 then
    writable (Scrapers.plan_path p) = true ∧
    ∃ body, answered_200 http_get n (Scrapers.plan_url p) body ∧
      disk r.1 = <[Scrapers.plan_path p := body]> (disk w) ∧
      ledger r.1 =
        Some (ledger_rows w ++
              [Scrapers.tracking_row (Scrapers.plan_metadata p) (Scrapers.plan_filename p)
                 (Scrapers.plan_path p) (now (length (ledger_rows w)))])
  else
    disk r.1 = disk w ∧ ledger r.1 = ledger w ∧
    ¬ (writable (Scrapers.plan_path p) = true ∧
       ∃ body, answered_200 http_get n (Scrapers.plan_url p) body).
Proof.
  intros r n. subst r. unfold Scrapers.download, Scrapers.get. fold n.
  assert (∀ b', length (requests (log_request b' w)) = S n) as Hlen.
  { intros b'. cbn. rewrite length_app. cbn. lia. }
  destruct (http_get n (Scrapers.plan_url p)) as [[st b]|] eqn:E1;
    cbv beta iota.
  - rewrite on_status_400.
    destruct (Nat.eqb_spec st 400) as [-> | Hne]; rewrite ?Hlen.
    + destruct (http_get (S n) (Scrapers.plan_url p)) as [[st2 b2]|] eqn:E2;
        cbv beta iota;
        [rewrite on_status_200;
         destruct (Nat.eqb_spec st2 200) as [-> | Hne2];
         [destruct (writable (Scrapers.plan_path p)) eqn:Hw |] |];
        cbn [fst snd requests disk ledger log_request write_file append_row];
        rewrite <- ?app_assoc;
        (split; [right; split; [done | eauto] |]).
      * split; [done |]. exists b2. split; [right; eauto |]. done.
      * split; [done |]. split; [done |]. by intros [? _].
      * split; [done |]. split; [done |].
        intros (_ & body & [H | [_ H]]); congruence.
      * split; [done |]. split; [done |].
        intros (_ & body & [H | [_ H]]); congruence.
    + rewrite on_status_200.
      destruct (Nat.eqb_spec st 200) as [-> | Hne2];
        [destruct (writable (Scrapers.plan_path p)) eqn:Hw |];
        cbn [fst snd requests disk ledger log_request write_file append_row];
        (split; [left; split; [done | by intros b' [= ? _]] |]).
      * split; [done |]. exists b. split; [by left |]. done.
      * split; [done |]. split; [done |]. by intros [? _].
      * split; [done |]. split; [done |].
        intros (_ & body & [H | [[b' H'] _]]); congruence.
  - cbn [fst snd requests disk ledger log_request write_file append_row].
    split; [left; split; [done | by intros b'] |].
    split; [done |]. split; [done |].
    intros (_ & body & [H | [[b' H'] _]]); congruence.
Qed.

(** What a download leaves behind, by its result. *)
Lemma download_shape (p : Scrapers.plan) (w : world) :
  let r := download p w in
  if r.2 then
    ∃ body,
      disk r.1 = <[Scrapers.plan_path p := body]> (disk w) ∧
      ledger r.1 =
        Some (ledger_rows w ++
              [Scrapers.tracking_row (Scrapers.plan_metadata p)
                 (Scrapers.plan_filename p) (Scrapers.plan_path p)
                 (now (length (ledger_rows w)))])
  else disk r.1 = disk w ∧ ledger r.1 = ledger w.
Proof.
  cbn zeta. unfold Scrapers.download, Scrapers.get.
  destruct (http_get (length (requests w)) (Scrapers.plan_url p))
    as [[st b]|]; cbv beta iota; [| done].
  rewrite on_status_400. destruct (st =? 400).
  - destruct (http_get _ (Scrapers.plan_url p)) as [[st2 b2]|];
      cbv beta iota; [| done].
    rewrite on_status_200. destruct (st2 =? 200); [| done].
    destruct (writable (Scrapers.plan_path p)); [| done]. by exists b2.
  - rewrite on_status_200. destruct (st =? 200); [| done].
    destruct (writable (Scrapers.plan_path p)); [| done]. by exists b.
Qed.

(** One round of the loop: it counts as a download exactly when the
    download does; otherwise the disk and the ledger stay as they
    are. *)
Lemma unified_link_step (base_path config_key : string) (dry_run : bool)
    (link : string * string) (w : world) :
  let r := process_link base_path config_key dry_run link w in
  match r.2 with
  | Ok true =>
      dry_run = false ∧
      ∃ p body,
        Scrapers.classify_link unquote base_path config_key link
          = Ok (Scrapers.Planned p) ∧
        disk r.1 = <[Scrapers.plan_path p := body]> (disk w) ∧
        ledger r.1 =
          Some (ledger_rows w ++
                [Scrapers.tracking_row (Scrapers.plan_metadata p)
                   (Scrapers.plan_filename p) (Scrapers.plan_path p)
                   (now (length (ledger_rows w)))])
  | _ => disk r.1 = disk w ∧ ledger r.1 = ledger w ∧ (dry_run = true → r.1 = w)
  end.
Proof.
  intros r. subst r. unfold Scrapers.process_link.
  destruct (Scrapers.classify_link unquote base_path config_key link)
    as [[why | p] | e]; [done | | done].
  destruct dry_run; [done |].
  pose proof (download_shape p w) as H. cbn zeta in H.
  destruct (download p w) as [w' got]. cbn [fst snd] in *.
  destruct got.
  - destruct H as (body & Hd & Hl). split; [done |]. by exists p, body.
  - destruct H as (Hd & Hl). done.
Qed.

(** The records the loop adds, and its count. *)
Lemma loop_rows (base_path config_key : string) (dry_run : bool)
    (links : list (string * string)) (w : world) (count : nat) :
  let r := process_links base_path config_key dry_run links w count in
  ∃ rows,
    ledger_rows r.1 = ledger_rows w ++ rows ∧
    (rows = [] → ledger r.1 = ledger w) ∧
    Forall (λ row, length row = 10 ∧
              ∃ path, row !! 8 = Some path ∧ is_Some (disk r.1 !! path)) rows ∧
    (∀ path, is_Some (disk w !! path) → is_Some (disk r.1 !! path)) ∧
    (∀ n, r.2 = Ok n → n = count + length rows).
Proof.
  cbn zeta. revert w count.
  induction links as [|link links IH]; intros w count.
  - exists []. cbn. rewrite app_nil_r. repeat split; try done. intros n [= <-]. lia.
  - cbn [Scrapers.process_links].
    pose proof (unified_link_step base_path config_key dry_run link w) as H.
    cbn zeta in H.
    destruct (process_link base_path config_key dry_run link w) as [w1 res].
    cbn [fst snd] in H.
    destruct res as [[|] | e].
    + destruct H as (_ & p & body & _ & Hd & Hl).
      destruct (IH w1 (S count)) as (rows & Hr & Hnil & Hall & Hmono & Hn).
      exists (Scrapers.tracking_row (Scrapers.plan_metadata p)
                (Scrapers.plan_filename p) (Scrapers.plan_path p)
                (now (length (ledger_rows w))) :: rows).
      assert (ledger_rows w1 = ledger_rows w ++
                [Scrapers.tracking_row (Scrapers.plan_metadata p)
                   (Scrapers.plan_filename p) (Scrapers.plan_path p)
                   (now (length (ledger_rows w)))]) as Hrows
        by (unfold ledger_rows at 1; by rewrite Hl).
      split; [by rewrite Hr, Hrows, <- app_assoc |].
      split; [done |]. split; [| split].
      * constructor; [| done]. split; [done |].
        exists (Scrapers.plan_path p). split; [done |].
        apply Hmono. rewrite Hd, lookup_insert_eq. eauto.
      * intros path Hp. apply Hmono. rewrite Hd.
        destruct (decide (Scrapers.plan_path p = path)) as [-> | Hne].
        -- rewrite lookup_insert_eq. eauto.
        -- by rewrite lookup_insert_ne.
      * intros n Hres. rewrite (Hn n Hres). cbn. lia.
    + destruct H as (Hd & Hl & _).
      destruct (IH w1 count) as (rows & Hr & Hnil & Hall & Hmono & Hn).
      exists rows. unfold ledger_rows in Hr |- *. rewrite Hl in Hr.
      split; [done |]. split; [intros E; by rewrite (Hnil E) |].
      split; [done |]. split; [| done].
      intros path Hp. apply Hmono. by rewrite Hd.
    + destruct H as (Hd & Hl & _). exists []. cbn [fst snd].
      unfold ledger_rows. rewrite Hl, app_nil_r.
      repeat split; try done. intros path Hp. by rewrite Hd.
Qed.

(** X11: The count [scrape_papers] returns is the number of records its
    loop added to the ledger; every added record has ten fields, and
    the file its [file_path] field names is on disk when the loop
    ends.  When the loop is ended by an exception the records added
    before it are in the ledger all the same. *)
Theorem unified_count_is_rows (base_path config_key : string) (dry_run : bool)
    (links : list (string * string)) (w : world) (count : nat) :
  let r := process_links base_path config_key dry_run links w count in
  ∃ rows,
    ledger_rows r.1 = ledger_rows w ++ rows ∧
    Forall (filed r.1) rows ∧
    (∀ path, is_Some (disk w !! path) → is_Some (disk r.1 !! path)) ∧
    (∀ n, r.2 = Ok n → n = count + length rows).
Proof.
  cbn zeta.
  destruct (loop_rows base_path config_key dry_run links w count)
    as (rows & Hrows & _ & Hall & Hmono & Hcount).
  exists rows. split; [done |]. split; [| by split].
  eapply Forall_impl; [exact Hall |]. intros row (Hlen & path & Hp & Hd).
  split; [done |]. by exists path.
Qed.

(** A dry run of the loop changes nothing and counts nothing. *)
Lemma unified_dry_loop (base_path config_key : string)
    (links : list (string * string)) (w : world) (count : nat) :
  let r := process_links base_path config_key true links w count in
  r.1 = w ∧ (r.2 = Ok count ∨ ∃ e, r.2 = Raise e).
Proof.
  cbn zeta. revert w count. induction links as [|link links IH]; intros w count.
  - cbn. auto.
  - cbn [Scrapers.process_links].
    pose proof (unified_link_step base_path config_key true link w) as H.
    cbn zeta in H.
    destruct (process_link base_path config_key true link w) as [w1 res].
    cbn [fst snd] in H.
    destruct res as [[|] | e].
    + by destruct H as [? _].
    + destruct H as (_ & _ & H). rewrite (H eq_refl). apply IH.
    + destruct H as (_ & _ & H). rewrite (H eq_refl). cbn. eauto.
Qed.

Lemma process_links_app (base_path config_key : string) (dry_run : bool)
    (l1 l2 : list (string * string)) (w : world) (count : nat) :
  process_links base_path config_key dry_run (l1 ++ l2) w count
  = match process_links base_path config_key dry_run l1 w count with
    | (w', Ok n) => process_links base_path config_key dry_run l2 w' n
    | r => r
    end.
Proof.
  revert w count. induction l1 as [|link l1 IH]; intros w count; [done |].
  cbn [app Scrapers.process_links].
  destruct (process_link base_path config_key dry_run link w) as [w1 [got | e]];
    [apply IH | done].
Qed.

(** X12: A redirect link (one with ["pdf-pages"] in its address) that
    carries no ["?pdf="] parameter raises [IndexError] at the head of
    the loop body, outside the [try]: the loop ends there, and the
    links after it are not looked at, whatever they are. *)
Theorem malformed_redirect_ends_loop (base_path config_key : string)
    (dry_run : bool) (before after : list (string * string))
    (href link_text : string) (w : world) (count : nat) :
  Py.contains "pdf-pages" href = true →
  Py.contains "?pdf=" href = false →
  process_links base_path config_key dry_run
    (before ++ (href, link_text) :: after) w count
  = match process_links base_path config_key dry_run before w count with
    | (w', Ok _) => (w', Raise IndexError)
    | r => r
    end.
Proof.
  intros Hpages Hparam. rewrite process_links_app.
  destruct (process_links base_path config_key dry_run before w count)
    as [w' [n | e]]; [| done].
  cbn [Scrapers.process_links]. unfold Scrapers.process_link,
    Scrapers.classify_link, Scrapers.resolve_href.
  by rewrite Hpages, split_absent.
Qed.

End Unified.

(** ** Paths *)

Lemma append_empty_r (a : string) : a +:+ "" = a.
Proof. induction a as [|c a IH]; [done |]. by rewrite append_cons, IH. Qed.

Lemma append_inv_head (a b c : string) : a +:+ b = a +:+ c → b = c.
Proof.
  induction a as [|x a IH]; [done |]. rewrite !append_cons. intros [= H]. auto.
Qed.

Lemma length_append (a b : string) :
  String.length (a +:+ b) = String.length a + String.length b.
Proof. induction a as [|c a IH]; [done |]. rewrite append_cons. cbn. by rewrite IH. Qed.

Lemma drop_append (a b : string) (k : nat) :
  Py.drop (String.length a + k) (a +:+ b) = Py.drop k b.
Proof. induction a as [|c a IH]; [done |]. by rewrite append_cons. Qed.

(** Whether a path ends with a slash is decided by its last piece. *)
Lemma endswith_slash_append (a b : string) :
  b ≠ "" → Py.endswith "/" (a +:+ b) = Py.endswith "/" b.
Proof.
  intros Hb. unfold Py.endswith. rewrite length_append.
  destruct b as [|c b]; [done |]. cbn [String.length].
  replace (String.length a + S (String.length b) - 1)
    with (String.length a + String.length b) by lia.
  replace (S (String.length b) - 1) with (String.length b) by lia.
  rewrite drop_append.
  replace (1 <=? String.length a + S (String.length b)) with true
    by (symmetry; apply Nat.leb_le; lia).
  done.
Qed.

(** A directory name in the sense needed below: not empty and without a
    slash at its end. *)
Lemma join2_clean (a b : string) :
  String.prefix "/" b = false → b ≠ "" → Py.endswith "/" b = false →
  Py.join2 a b ≠ "" ∧ Py.endswith "/" (Py.join2 a b) = false.
Proof.
  intros Hp Hb He. unfold Py.join2. rewrite Hp.
  assert (∀ x, x +:+ b ≠ "") as Hne.
  { intros x H. apply (f_equal String.length) in H.
    rewrite length_append in H. destruct b; [done |]. cbn in H. lia. }
  destruct (String.eqb a "" || Py.endswith "/" a).
  - split; [apply Hne |]. by rewrite endswith_slash_append.
  - rewrite <- append_assoc. split; [apply Hne |].
    by rewrite endswith_slash_append.
Qed.

Lemma join2_on_clean (a b : string) :
  a ≠ "" → Py.endswith "/" a = false → String.prefix "/" b = false →
  Py.join2 a b = a +:+ "/" +:+ b.
Proof.
  intros Ha He Hp. unfold Py.join2. rewrite Hp, He.
  by rewrite (proj2 (String.eqb_neq a "")).
Qed.

Lemma no_slash_no_prefix (b : string) :
  Py.contains "/" b = false → String.prefix "/" b = false.
Proof. destruct b as [|c b]; [done |]. rewrite contains_cons. by intros [? _]%orb_false_iff. Qed.

Lemma prefix_slash_other (c : ascii) (s : string) :
  c ≠ "/"%char → String.prefix "/" (String c s) = false.
Proof.
  intros Hc. destruct (String.prefix "/" (String c s)) eqn:E; [| done].
  apply prefix_app in E as [t Ht]. by injection Ht as -> _.
Qed.

Lemma basename_append (a b : string) :
  Py.contains "/" b = false → Py.basename (a +:+ "/" +:+ b) = b.
Proof.
  intros Hb. induction a as [|c a IH].
  - rewrite append_empty_l. change ("/" +:+ b) with (String "/" b).
    cbn [Py.basename]. by rewrite Hb.
  - rewrite append_cons. cbn [Py.basename].
    replace (Py.contains "/" (a +:+ "/" +:+ b)) with true; [done |].
    symmetry. apply contains_app. by exists a, b.
Qed.

Lemma basename_no_slash (p : string) : Py.contains "/" (Py.basename p) = false.
Proof.
  induction p as [|c p IH]; [done |]. cbn [Py.basename].
  destruct (Py.contains "/" p) eqn:Hp; [done |].
  destruct (Ascii.eqb_spec c "/") as [-> | Hne]; [done |].
  rewrite contains_cons, Hp, orb_false_r. by apply prefix_slash_other.
Qed.

Lemma sub_invalid_no_slash (s : string) :
  Py.contains "/" (Py.sub_invalid s) = false.
Proof.
  induction s as [|c s IH]; [done |].
  unfold Py.sub_invalid in *. cbn [Py.map_chars].
  rewrite contains_cons, IH, orb_false_r.
  destruct (Py.is_invalid_char c) eqn:Hc; [done |].
  apply prefix_slash_other. by intros ->.
Qed.

Lemma path_join_snoc (a : string) (ps : list string) (z : string) :
  Py.path_join a (ps ++ [z]) = Py.join2 (Py.path_join a ps) z.
Proof. unfold Py.path_join. by rewrite foldl_app. Qed.

Lemma endswith_append_self (a p : string) : Py.endswith p (a +:+ p) = true.
Proof.
  unfold Py.endswith. rewrite length_append.
  replace (String.length a + String.length p - String.length p)
    with (String.length a + 0) by lia.
  rewrite drop_append. cbn [Py.drop]. rewrite String.eqb_refl, andb_true_r.
  apply Nat.leb_le. lia.
Qed.

(** X13: What the orchestrator of [main.py] saves a link as: the name has no
    slash in it and ends in [.pdf], and the path is the link's folder, a
    slash, and that name.  Neither the address nor the text of a link
    can place its file outside the folder chosen for it. *)
Theorem orchestrator_saves_inside_folder (base_path : string) (md : metadata)
    (link_text full_url : string) :
  let filename := Main.filename_of full_url link_text in
  Py.contains "/" filename = false ∧
  Py.endswith ".pdf" filename = true ∧
  Main.save_path_of base_path md link_text filename
  = Main.save_folder_of base_path md link_text +:+ "/" +:+ filename ∧
  Py.basename (Main.save_path_of base_path md link_text filename) = filename.
Proof.
  intros filename.
  assert (Py.contains "/" filename = false) as Hslash.
  { subst filename. unfold Main.filename_of.
    destruct (Py.endswith ".pdf" (Py.basename full_url));
      [apply basename_no_slash | apply sub_invalid_no_slash]. }
  assert (Main.save_path_of base_path md link_text filename
          = Main.save_folder_of base_path md link_text +:+ "/" +:+ filename)
    as Hpath.
  { unfold Main.save_path_of, Main.save_folder_of, Main.folder_of.
    assert (∀ front ct,
              Py.join2 (Py.path_join base_path
                          (front ++ [Main.content_folder ct])) filename
              = Py.path_join base_path (front ++ [Main.content_folder ct])
                +:+ "/" +:+ filename) as Hgo.
    { intros front ct. rewrite path_join_snoc.
      destruct (join2_clean (Py.path_join base_path front)
                  (Main.content_folder ct)) as [Hne He];
        [unfold Main.content_folder; by destruct (String.eqb ct "QP") .. |].
      apply join2_on_clean; [done | done |]. by apply no_slash_no_prefix. }
    destruct (Py.contains "Paper 3" (csv_field (paper_type md))
              && truthy (subtype md)); cbn [snd].
    - exact (Hgo [Py.capitalize (exam_board md); Py.upper (level md);
                  Py.replace_char " " "_" (csv_field (paper_type md));
                  csv_field (Main.paper3_subtype link_text (subtype md))]
               (csv_field (content_type md))).
    - apply Hgo. }
  split; [done |]. split; [| split; [done |]].
  - subst filename. unfold Main.filename_of.
    destruct (Py.endswith ".pdf" (Py.basename full_url)) eqn:E; [done |].
    unfold Py.sub_invalid. rewrite map_chars_append.
    apply endswith_append_self.
  - rewrite Hpath. by apply basename_append.
Qed.

Lemma classify_planned (unquote : string → string)
    (base_path config_key href0 link_text : string) (p : Scrapers.plan) :
  Scrapers.classify_link unquote base_path config_key (href0, link_text)
    = Ok (Scrapers.Planned p) →
  ∃ href paper_number md ctype,
    Scrapers.resolve_href unquote href0 = Ok href ∧
    (Scrapers.determine_paper_number href link_text config_key).1
      = Some paper_number ∧
    paper_number ≠ "" ∧
    (ctype = "qp" ∧ Py.contains "QP" link_text = true
     ∨ ctype = "ms" ∧ Py.contains "QP" link_text = false
       ∧ Py.contains "MS" link_text = true) ∧
    Scrapers.extract_metadata href link_text config_key paper_number
      (Scrapers.determine_paper_number href link_text config_key).2 = Ok md ∧
    Scrapers.plan_url p = href ∧
    Scrapers.plan_filename p = Py.basename href ∧
    Scrapers.plan_folder p
      = Py.path_join base_path [level md; exam_board md; paper_number; ctype] ∧
    Scrapers.plan_path p = Py.join2 (Scrapers.plan_folder p) (Py.basename href) ∧
    exam_board (Scrapers.plan_metadata p) = exam_board md ∧
    level (Scrapers.plan_metadata p) = level md ∧
    paper_type (Scrapers.plan_metadata p) = paper_type md ∧
    content_type (Scrapers.plan_metadata p) = Some (Py.upper ctype).
Proof.
  unfold Scrapers.classify_link.
  destruct (Scrapers.resolve_href unquote href0) as [href|e]; simpl; [| done].
  destruct (Scrapers.determine_paper_number href link_text config_key)
    as [[[|c pn]|] dn] eqn:E; try done.
  unfold mbind, result_bind.
  destruct (Py.contains "QP" link_text) eqn:HQP.
  - destruct (Scrapers.extract_metadata _ _ _ _ _) as [md|] eqn:Em; [| done].
    simpl. intros [= <-]. exists href, (String c pn), md, "qp". cbn.
    rewrite E. repeat split; auto; done.
  - destruct (Py.contains "MS" link_text) eqn:HMS; [| done].
    destruct (Scrapers.extract_metadata _ _ _ _ _) as [md|] eqn:Em; [| done].
    simpl. intros [= <-]. exists href, (String c pn), md, "ms". cbn.
    rewrite E. repeat split; auto; done.
Qed.

(** X14: The unified scraper saves a planned link under the last segment of
    its address, in the folder planned for it: the name has no slash,
    and the path is the folder, a slash, and the name. *)
Theorem unified_saves_inside_folder (unquote : string → string)
    (base_path config_key : string) (link : string * string) (p : Scrapers.plan) :
  Scrapers.classify_link unquote base_path config_key link
    = Ok (Scrapers.Planned p) →
  Scrapers.plan_filename p = Py.basename (Scrapers.plan_url p) ∧
  Py.contains "/" (Scrapers.plan_filename p) = false ∧
  Scrapers.plan_path p
  = Scrapers.plan_folder p +:+ "/" +:+ Scrapers.plan_filename p.
Proof.
  destruct link as [href0 link_text].
  intros (href & pn & md & ctype & _ & _ & _ & Hct & _ & Hu & Hf & Hd & Hp & _)
    %classify_planned.
  rewrite Hf, Hu. split; [done |]. split; [apply basename_no_slash |].
  rewrite Hp, Hd.
  change [level md; exam_board md; pn; ctype]
    with ([level md; exam_board md; pn] ++ [ctype]).
  rewrite path_join_snoc.
  destruct (join2_clean (Py.path_join base_path [level md; exam_board md; pn])
              ctype) as [Hne He];
    [by destruct Hct as [[-> _] | [-> _]] .. |].
  apply join2_on_clean; [done | done |].
  apply no_slash_no_prefix, basename_no_slash.
Qed.

Lemma unified_saves_inside_folder_witness :
  ∃ p, Scrapers.plan_path p = "/data/alevel/aqa/paper 1/qp/June-2019-Paper-1-QP.pdf" ∧
       Scrapers.plan_path p
       = Scrapers.plan_folder p +:+ "/" +:+ Scrapers.plan_filename p.
Proof.
  eexists. split; [| refine (proj2 (proj2 (unified_saves_inside_folder (λ s, s)
    "/data" "aqa_alevel"
    ("https://pmt.example/June-2019-Paper-1-QP.pdf", "June 2019 QP") _ eq_refl)))].
  reflexivity.
Defined.

Lemma path_join_pieces (a : string) (cs : list string) :
  a ≠ "" → Py.endswith "/" a = false → Forall piece cs →
  Py.path_join a cs = a +:+ slashed cs.
Proof.
  intros Ha He Hcs. revert a Ha He.
  induction Hcs as [|c cs (Hp & Hne & Hend) Hcs IH]; intros a Ha He.
  - cbn. by rewrite append_empty_r.
  - change (Py.path_join a (c :: cs)) with (Py.path_join (Py.join2 a c) cs).
    destruct (join2_clean a c Hp Hne Hend) as [Hne' He'].
    rewrite IH by done. rewrite join2_on_clean by done.
    cbn [slashed foldr]. by rewrite !append_assoc.
Qed.

Lemma path_join_head (base c : string) (cs : list string) :
  piece c → Forall piece cs →
  Py.path_join base (c :: cs) = Py.join2 base c +:+ slashed cs.
Proof.
  intros (Hp & Hne & Hend) Hcs.
  change (Py.path_join base (c :: cs)) with (Py.path_join (Py.join2 base c) cs).
  destruct (join2_clean base c Hp Hne Hend) as [Hne' He'].
  by apply path_join_pieces.
Qed.

Lemma endswith_slash_cons (c : ascii) (s : string) :
  s ≠ "" → Py.endswith "/" (String c s) = Py.endswith "/" s.
Proof.
  intros Hs. change (String c s) with (String c "" +:+ s).
  by apply endswith_slash_append.
Qed.

Lemma digits_piece (lit d : string) :
  piece lit → all_digits d = true → piece (lit +:+ d).
Proof.
  intros (Hp & Hne & Hend) Hd. split; [| split].
  - destruct lit as [|c lit]; [done |]. rewrite append_cons.
    destruct (Ascii.eqb_spec c "/") as [-> | Hc]; [by destruct lit |].
    by apply prefix_slash_other.
  - destruct lit; [done |]. by rewrite append_cons.
  - destruct d as [|c d]; [by rewrite append_empty_r |].
    rewrite endswith_slash_append by done.
    clear -Hd. revert c Hd. induction d as [|c' d IH]; intros c Hd.
    + cbn in Hd. rewrite andb_true_r in Hd.
      destruct (Ascii.eqb_spec c "/") as [-> | Hc]; [done |].
      unfold Py.endswith. cbn. destruct (Ascii.eqb_spec c "/"); done.
    + rewrite endswith_slash_cons by done. apply IH.
      cbn in Hd |- *. by apply andb_true_iff in Hd as [_ ?].
Qed.

(** Two digit strings followed by a slash agree when what they begin
    agrees. *)
Lemma digits_before_slash (d k x y : string) :
  all_digits d = true → all_digits k = true →
  d +:+ "/" +:+ x = k +:+ "/" +:+ y → d = k.
Proof.
  revert k. induction d as [|c d IH]; intros [|c' k] Hd Hk H; try done.
  - rewrite append_cons in H. injection H as <- _. by cbn in Hk.
  - rewrite append_cons in H. injection H as -> _. by cbn in Hd.
  - rewrite !append_cons in H. injection H as -> H.
    cbn in Hd, Hk. apply andb_true_iff in Hd as [_ Hd].
    apply andb_true_iff in Hk as [_ Hk]. f_equal. by apply IH.
Qed.

(** ** Folders set up and folders used *)

(** Whatever resolves the paper, the number is ["paper "] and the name
    ["Paper "] before the same digits, for a key of [config.py]. *)
Lemma dpn_shape (href link_text config_key pn : string) (dn : option string) :
  Scrapers.determine_paper_number href link_text config_key = (Some pn, dn) →
  config_key ∈ ["ocr_alevel"; "ocr_mei_alevel"; "aqa_alevel"; "edexcel_alevel"] ∧
  ∃ d, all_digits d = true ∧ d ≠ "" ∧
       pn = "paper " +:+ d ∧ dn = Some ("Paper " +:+ d).
Proof.
  intros H.
  assert (∀ n, Scrapers.numbered n = (Some pn, dn) → all_digits n = true →
               n ≠ "" →
               ∃ d, all_digits d = true ∧ d ≠ "" ∧
                    pn = "paper " +:+ d ∧ dn = Some ("Paper " +:+ d)) as Hnum.
  { intros n [= <- <-] Hn Hne. by exists n. }
  destruct (decide (config_key ∈ ["ocr_alevel"; "ocr_mei_alevel"; "aqa_alevel";
                                  "edexcel_alevel"])) as [Hin | Hout];
    [| by rewrite dpn_other in H].
  split; [done |].
  rewrite !elem_of_cons, elem_of_nil in Hin.
  destruct Hin as [-> | [-> | [Hk | [Hk | []]]]].
  - destruct (Py.search_lit_digits "Component " link_text) as [n|] eqn:Ea.
    { unfold Scrapers.determine_paper_number in H. cbn in H. rewrite Ea in H.
      apply search_lit_digits_all in Ea as [? ?]. eauto. }
    destruct (Py.search_lit_digits "component-" (Py.lower href)) as [n|] eqn:Eb.
    { unfold Scrapers.determine_paper_number in H. cbn in H. rewrite Ea, Eb in H.
      apply search_lit_digits_all in Eb as [? ?]. eauto. }
    destruct (dpn_ocr_keywords href link_text Ea Eb) as [Hc _]. cbn zeta in Hc.
    rewrite H in Hc. rewrite !elem_of_cons, elem_of_nil in Hc.
    destruct Hc as [Hc | [Hc | [Hc | [Hc | []]]]]; try done;
      symmetry in Hc; eapply Hnum; eauto.
  - destruct (Py.search_lit_digits "Component " link_text) as [n|] eqn:Ea.
    { unfold Scrapers.determine_paper_number in H. cbn in H. rewrite Ea in H.
      apply search_lit_digits_all in Ea as [? ?]. eauto. }
    destruct (Py.search_lit_digits "Paper-" href) as [n|] eqn:Eb.
    { unfold Scrapers.determine_paper_number in H. cbn in H. rewrite Ea, Eb in H.
      apply search_lit_digits_all in Eb as [? ?]. eauto. }
    destruct (dpn_mei_keywords href link_text Ea Eb) as [Hc _]. cbn zeta in Hc.
    rewrite H in Hc. rewrite !elem_of_cons, elem_of_nil in Hc.
    destruct Hc as [Hc | [Hc | [Hc | [Hc | []]]]]; try done;
      symmetry in Hc; eapply Hnum; eauto.
  - rewrite dpn_paper_dash in H by auto.
    destruct (Py.search_lit_digits "Paper-" href) as [n|] eqn:Eb; [| done].
    apply search_lit_digits_all in Eb as [? ?]. eauto.
  - rewrite dpn_paper_dash in H by auto.
    destruct (Py.search_lit_digits "Paper-" href) as [n|] eqn:Eb; [| done].
    apply search_lit_digits_all in Eb as [? ?]. eauto.
Qed.

(** Board and level of a link's metadata are those of the folder
    set-up. *)
Lemma extract_metadata_board_level href link_text config_key pn dn md :
  Scrapers.extract_metadata href link_text config_key pn dn = Ok md →
  Utils.board_level config_key = Ok (exam_board md, level md) ∧
  paper_type md = dn.
Proof.
  unfold Scrapers.extract_metadata, Utils.board_level.
  destruct (String.eqb config_key "ocr_mei_alevel").
  - cbn. by intros [= <-].
  - unfold mbind, result_bind.
    destruct (item (Py.split "_" config_key) 0); [| done].
    destruct (item (Py.split "_" config_key) 1); [| done].
    by intros [= <-].
Qed.

Lemma known_keys (config_key : string) :
  config_key ∈ ["ocr_alevel"; "ocr_mei_alevel"; "aqa_alevel"; "edexcel_alevel"] ↔
  ∃ config, dict_get Scrapers.CONFIGS config_key = Ok config.
Proof.
  split.
  - rewrite !elem_of_cons, elem_of_nil.
    intros [-> | [-> | [-> | [-> | []]]]]; by eexists.
  - intros [config H]. unfold Scrapers.CONFIGS in H. cbn [dict_get] in H.
    rewrite !elem_of_cons.
    repeat (match type of H with
            | (if String.eqb ?k config_key then _ else _) = _ =>
                destruct (String.eqb_spec k config_key) as [<- | _]; [auto 10 |]
            end).
    done.
Qed.

(** The folders the set-up of the unified scraper makes for a board of
    [config.py]: level, board, ["paper 1"] to ["paper 3"], each with
    [qp] and [ms]; the call raises nothing. *)
Lemma created_folders (base_path config_key : string) :
  config_key ∈ ["ocr_alevel"; "ocr_mei_alevel"; "aqa_alevel"; "edexcel_alevel"] →
  ∃ board lvl,
    Utils.board_level config_key = Ok (board, lvl) ∧
    piece board ∧ piece lvl ∧
    Utils.create_folder_structure Scrapers.CONFIGS base_path config_key
    = ((λ nc, Py.path_join base_path [lvl; board; "paper " +:+ nc.1; nc.2])
         <$> paper_folders, None).
Proof.
  rewrite !elem_of_cons, elem_of_nil.
  intros [-> | [-> | [-> | [-> | []]]]].
  - exists "ocr", "alevel". repeat split; done.
  - exists "ocr-mei", "alevel". repeat split; done.
  - exists "aqa", "alevel". repeat split; done.
  - exists "edexcel", "alevel". repeat split; done.
Qed.

(** X15: The unified scraper never makes a folder for a download: it saves
    into what the set-up made.  For a planned link of a board of
    [config.py], the folder it is to be saved in is one of those the
    set-up made exactly when its paper is 1, 2 or 3; a link resolved to
    any other number (["Component 4"], ["Paper-12"]) is planned into a
    folder the run has not made. *)
Theorem planned_folder_created (unquote : string → string)
    (base_path config_key : string) (link : string * string)
    (p : Scrapers.plan) (d : string) :
  Scrapers.classify_link unquote base_path config_key link
    = Ok (Scrapers.Planned p) →
  paper_type (Scrapers.plan_metadata p) = Some ("Paper " +:+ d) →
  Scrapers.plan_folder p
    ∈ (Utils.create_folder_structure Scrapers.CONFIGS base_path config_key).1
  ↔ d ∈ ["1"; "2"; "3"].
Proof.
  destruct link as [href0 link_text].
  intros (href & pn & md & ctype & _ & Hdpn & _ & Hct & Hem & _ & _ & Hd & _
          & _ & _ & Hpt & _)%classify_planned Hd'.
  apply extract_metadata_board_level in Hem as [Hbl Hpt'].
  destruct (Scrapers.determine_paper_number href link_text config_key)
    as [o dn] eqn:E. cbn [fst snd] in *. subst o.
  apply dpn_shape in E as (Hkey & d0 & Hdig & Hne & -> & ->).
  rewrite Hpt, Hpt' in Hd'. injection Hd' as Hd'.
  change (d0 = d) in Hd'. subst d0.
  destruct (created_folders base_path config_key Hkey)
    as (board & lvl & Hbl' & Hboard & Hlvl & ->).
  rewrite Hbl in Hbl'. injection Hbl' as Hb Hl. rewrite Hd, Hb, Hl. cbn [fst].
  assert (piece ctype ∧ ctype ∈ ["qp"; "ms"]) as [Hpc Hcin].
  { destruct Hct as [[-> _] | [-> _]]; (split; [done |]);
      rewrite !elem_of_cons; auto. }
  rewrite list_elem_of_fmap. split.
  - intros ([n c] & Heq & Hin). cbn [fst snd] in Heq.
    assert (all_digits n = true ∧ piece c ∧ n ∈ ["1"; "2"; "3"])
      as (Hn & Hc & Hn3).
    { unfold paper_folders in Hin. rewrite !elem_of_cons, elem_of_nil in Hin.
      destruct Hin as [[= -> ->] | [[= -> ->] | [[= -> ->] | [[= -> ->]
        | [[= -> ->] | [[= -> ->] | []]]]]]];
        (split; [done |]); (split; [done |]); rewrite !elem_of_cons; auto. }
    assert (∀ x y, all_digits x = true → piece y →
                   Forall piece [board; "paper " +:+ x; y]) as Hpieces.
    { intros x y Hx Hy. apply Forall_cons_2; [done |].
      apply Forall_cons_2; [by apply digits_piece |].
      apply Forall_cons_2; [done | apply Forall_nil_2]. }
    rewrite !path_join_head in Heq by auto.
    apply append_inv_head in Heq. cbn [slashed foldr] in Heq.
    apply (append_inv_head "/"), (append_inv_head board),
      (append_inv_head "/") in Heq.
    rewrite !(append_assoc "paper ") in Heq.
    apply (append_inv_head "paper ") in Heq.
    apply digits_before_slash in Heq; [| done ..]. by subst n.
  - intros Hin. exists (d, ctype). split; [done |].
    unfold paper_folders. rewrite !elem_of_cons in Hin.
    rewrite !elem_of_cons in Hcin. rewrite !elem_of_cons.
    destruct Hin as [-> | [-> | [-> | Hin]]], Hcin as [-> | [-> | Hcin]];
      auto 10; exfalso; (by apply elem_of_nil in Hin)
                        || (by apply elem_of_nil in Hcin).
Qed.

Lemma planned_folder_created_witness :
  ∃ p, Scrapers.classify_link (λ s, s) "/data" "aqa_alevel"
         ("https://pmt.example/June-2019-Paper-1-QP.pdf", "June 2019 QP")
       = Ok (Scrapers.Planned p) ∧
       Scrapers.plan_folder p
         ∈ (Utils.create_folder_structure Scrapers.CONFIGS "/data" "aqa_alevel").1.
Proof.
  eexists. split; [reflexivity |].
  apply (planned_folder_created (λ s, s) "/data" "aqa_alevel"
           ("https://pmt.example/June-2019-Paper-1-QP.pdf", "June 2019 QP")
           _ "1" eq_refl eq_refl).
  rewrite !elem_of_cons. auto.
Defined.

Lemma path_join_inj_pieces (base c : string) (cs cs' : list string) :
  piece c → Forall piece cs → Forall piece cs' →
  Py.path_join base (c :: cs) = Py.path_join base (c :: cs') →
  slashed cs = slashed cs'.
Proof.
  intros Hc Hcs Hcs' H. rewrite !path_join_head in H by done.
  by apply append_inv_head in H.
Qed.

Ltac closed_piece :=
  unfold piece; split; [done | split; [done | by vm_compute]].

Ltac pieces :=
  repeat first [apply Forall_nil_2 | apply Forall_cons_2; [closed_piece |]].

(** The eight folders the set-up of [main.py] makes, below
    [base_path/Edexcel/ALEVEL]. *)
Lemma orchestrator_created (base_path : string) :
  MainSetup.create_folder_structure Main.CONFIGS base_path "edexcel_alevel"
  = Ok ((λ cs, Py.path_join base_path ("Edexcel" :: "ALEVEL" :: cs))
          <$> edexcel_folders).
Proof. cbv -[Py.path_join]. reflexivity. Qed.

(** X16: The orchestrator of [main.py] sets up folders named after a
    section's display name and saves under the section's name.  For
    Paper 1 and Paper 2 (no display name) a link's folder is one of
    those set up; for Paper 3 it never is: the set-up makes
    [Paper_3_-_Statistics_&_Mechanics/...], the downloads go to
    [Paper_3/...], made on the way. *)
Theorem orchestrator_folder_created (base_path config_key board lvl : string)
    (config : board_config) (section : paper_section)
    (link : string * string * string) (folders : list string) :
  dict_get Main.CONFIGS config_key = Ok config →
  section ∈ paper_sections config →
  Main.key_parts config_key = Ok (board, lvl) →
  MainSetup.create_folder_structure Main.CONFIGS base_path config_key
    = Ok folders →
  Main.save_folder_of base_path (Main.link_metadata board lvl section link)
    link.1.2 ∈ folders
  ↔ name section ≠ "Paper 3".
Proof.
  intros Hconfig Hsec Hparts Hcreate.
  unfold Main.CONFIGS in Hconfig. cbn [dict_get] in Hconfig.
  destruct (String.eqb_spec "edexcel_alevel" config_key) as [<- | _]; [| done].
  injection Hconfig as <-.
  change (Main.key_parts "edexcel_alevel") with (Ok ("edexcel", "alevel"))
    in Hparts.
  injection Hparts as <- <-.
  rewrite orchestrator_created in Hcreate.
  replace folders
    with ((λ cs, Py.path_join base_path ("Edexcel" :: "ALEVEL" :: cs))
            <$> edexcel_folders) by congruence.
  clear Hcreate.
  destruct link as [[href link_text] ct].
  unfold Main.save_folder_of, Main.folder_of, Main.link_metadata.
  cbn [fst snd paper_type subtype content_type exam_board level csv_field
       default id].
  change (Py.capitalize "edexcel") with "Edexcel".
  change (Py.upper "alevel") with "ALEVEL".
  assert (Main.content_folder ct = "question_papers"
          ∨ Main.content_folder ct = "mark_schemes") as Hcf
    by (unfold Main.content_folder; destruct (String.eqb ct "QP"); auto).
  cbn [paper_sections] in Hsec. rewrite !elem_of_cons in Hsec.
  rewrite list_elem_of_fmap.
  destruct Hsec as [-> | [-> | [-> | Hsec]]];
    [| | | by apply elem_of_nil in Hsec]; cbn [name subtypes].
  - split; [done | intros _].
    change (Py.contains "Paper 3" "Paper 1") with false.
    change (Py.replace_char " " "_" "Paper 1") with "Paper_1".
    cbn [andb snd app]. eexists. split; [reflexivity |].
    unfold edexcel_folders. rewrite !elem_of_cons.
    destruct Hcf as [-> | ->]; auto.
  - split; [done | intros _].
    change (Py.contains "Paper 3" "Paper 2") with false.
    change (Py.replace_char " " "_" "Paper 2") with "Paper_2".
    cbn [andb snd app]. eexists. split; [reflexivity |].
    unfold edexcel_folders. rewrite !elem_of_cons.
    destruct Hcf as [-> | ->]; auto 10.
  - split; [| done]. intros (cs & Heq & Hin). exfalso. revert Heq.
    unfold edexcel_folders in Hin.
    change (Py.contains "Paper 3" "Paper 3") with true.
    change (Py.replace_char " " "_" "Paper 3") with "Paper_3".
    cbn [andb].
    assert (∀ found,
              Main.paper3_subtype link_text found = Some "Mechanics"
              ∨ Main.paper3_subtype link_text found = Some "Statistics"
              ∨ Main.paper3_subtype link_text found = found) as Hst.
    { intros found. unfold Main.paper3_subtype.
      destruct (_ || _); [auto |]. destruct (_ || _); auto. }
    assert (Main.subtype_of ["Mechanics"; "Statistics"] link_text
              ∈ [Some "Mechanics"; Some "Statistics"; None]) as Hsub.
    { cbn [Main.subtype_of]. rewrite !elem_of_cons.
      destruct (_ || _); [auto |]. destruct (_ || _); auto. }
    rewrite !elem_of_cons in Hsub.
    assert (∃ mine, mine ∈ paper3_folders ∧
              (if truthy (Main.subtype_of ["Mechanics"; "Statistics"] link_text)
               then [ "Edexcel"; "ALEVEL"; "Paper_3" ] ++
                    [ csv_field (Main.paper3_subtype link_text
                        (Main.subtype_of ["Mechanics"; "Statistics"] link_text));
                      Main.content_folder ct ]
               else [ "Edexcel"; "ALEVEL"; "Paper_3" ] ++ [Main.content_folder ct])
              = "Edexcel" :: "ALEVEL" :: "Paper_3" :: mine)
      as (mine & Hmine & Hlist).
    { unfold paper3_folders.
      assert (∀ x, x ∈ ["Mechanics"; "Statistics"] →
               [x; Main.content_folder ct]
               ∈ [ ["Mechanics"; "question_papers"]; ["Mechanics"; "mark_schemes"];
                   ["Statistics"; "question_papers"]; ["Statistics"; "mark_schemes"];
                   ["question_papers"]; ["mark_schemes"] ]) as Hx.
      { intros x Hx. rewrite !elem_of_cons in Hx. rewrite !elem_of_cons.
        destruct Hx as [-> | [-> | Hx]]; [| | by apply elem_of_nil in Hx];
          destruct Hcf as [-> | ->]; auto 10. }
      destruct Hsub as [Hsub | [Hsub | [Hsub | Hsub]]];
        [| | | by apply elem_of_nil in Hsub]; rewrite Hsub; cbn [truthy].
      - eexists. split; [| reflexivity]. apply Hx. rewrite !elem_of_cons.
        destruct (Hst (Some "Mechanics")) as [-> | [-> | ->]]; cbn; auto.
      - eexists. split; [| reflexivity]. apply Hx. rewrite !elem_of_cons.
        destruct (Hst (Some "Statistics")) as [-> | [-> | ->]]; cbn; auto.
      - eexists. split; [| reflexivity]. rewrite !elem_of_cons.
        destruct Hcf as [-> | ->]; auto 10. }
    assert (Py.path_join base_path ("Edexcel" :: "ALEVEL" :: "Paper_3" :: mine)
            ≠ Py.path_join base_path ("Edexcel" :: "ALEVEL" :: cs)) as Hne.
    { unfold paper3_folders in Hmine. rewrite !elem_of_cons in Hmine.
      rewrite !elem_of_cons in Hin.
      repeat (destruct Hmine as [-> | Hmine]);
        [.. | by apply elem_of_nil in Hmine];
        (repeat (destruct Hin as [-> | Hin]);
           [.. | by apply elem_of_nil in Hin]);
        intros H;
        (apply path_join_inj_pieces in H;
           [vm_compute in H; congruence | closed_piece | pieces ..]). }
    destruct (truthy (Main.subtype_of ["Mechanics"; "Statistics"] link_text));
      cbn [snd]; by rewrite Hlist.
Qed.

Lemma orchestrator_folder_created_witness :
  ∃ config folders,
    dict_get Main.CONFIGS "edexcel_alevel" = Ok config ∧
    MainSetup.create_folder_structure Main.CONFIGS "/out" "edexcel_alevel"
      = Ok folders ∧
    Main.save_folder_of "/out"
      (Main.link_metadata "edexcel" "alevel" paper1
         ("a.pdf", "June 2019 QP", "QP")) "June 2019 QP" ∈ folders ∧
    Main.save_folder_of "/out"
      (Main.link_metadata "edexcel" "alevel" paper3
         ("b.pdf", "June 2019 (Mech) QP", "QP")) "June 2019 (Mech) QP" ∉ folders.
Proof.
  eexists. eexists. split; [reflexivity |]. split; [reflexivity |]. split.
  - apply (orchestrator_folder_created "/out" "edexcel_alevel" "edexcel" "alevel"
             _ paper1 ("a.pdf", "June 2019 QP", "QP") _ eq_refl);
      [left | reflexivity | reflexivity | done].
  - intros Hin.
    apply (orchestrator_folder_created "/out" "edexcel_alevel" "edexcel" "alevel"
             _ paper3 ("b.pdf", "June 2019 (Mech) QP", "QP") _ eq_refl) in Hin;
      [done | right; right; left | reflexivity | reflexivity].
Defined.

(** ** The unified scraper from its entry points *)

Section WholeRun.

Context (unquote : string → string)
        (http_get : nat → string → option (nat * string))
        (writable : string → bool)
        (now : nat → string)
        (anchors_with_href : string → list (string * string)).

Local Abbreviation process_links :=
  (Scrapers.process_links unquote http_get writable now).
Local Abbreviation scrape_papers :=
  (Unified.scrape_papers unquote http_get writable now anchors_with_href).
Local Abbreviation scrape_boards :=
  (Cli.scrape_boards unquote http_get writable now anchors_with_href).
Local Abbreviation main :=
  (Cli.main unquote http_get writable now anchors_with_href).

Lemma filed_mono (w w' : world) (row : list string) :
  (∀ path, is_Some (disk w !! path) → is_Some (disk w' !! path)) →
  filed w row → filed w' row.
Proof. intros Hm (Hlen & path & Hp & Hd). split; [done |]. eauto. Qed.

(** One call of [scrape_papers] for a board of [config.py]. *)
Lemma scrape_papers_known (base_path config_key : string) (dry_run : bool)
    (w : world) (config : board_config) :
  dict_get Scrapers.CONFIGS config_key = Ok config →
  let r := scrape_papers base_path config_key dry_run w in
  ∃ rows,
    ledger r.1 = Some (ledger_base w ++ rows) ∧
    Forall (filed r.1) rows ∧
    (∀ path, is_Some (disk w !! path) → is_Some (disk r.1 !! path)) ∧
    (∀ n, r.2 = Returns n → n = length rows) ∧
    (dry_run = true →
     rows = [] ∧ disk r.1 = disk w ∧
     requests r.1 = requests w ++ [base_url config]).
Proof.
  intros Hconfig. cbn zeta.
  unfold Unified.scrape_papers, Unified.scrape_with. rewrite Hconfig.
  destruct (created_folders base_path config_key) as (b & l & _ & _ & _ & ->);
    [apply known_keys; eauto |].
  set (w0 := match ledger w with
             | Some _ => w
             | None => Utils.initialize_tracking_csv w
             end).
  assert (ledger w0 = Some (ledger_base w) ∧ disk w0 = disk w
          ∧ requests w0 = requests w) as (Hl0 & Hd0 & Hr0).
  { subst w0. unfold ledger_base. by destruct (ledger w) eqn:E. }
  unfold Scrapers.get.
  destruct (http_get (length (requests w0)) (base_url config))
    as [[st text]|].
  - pose proof (loop_rows unquote http_get writable now base_path
                  config_key dry_run
                  (Scrapers.paper_links config_key (anchors_with_href text))
                  (log_request (base_url config) w0) 0)
      as (rows & Hrows & Hnil & Hall & Hmono & Hn).
    pose proof (unified_dry_loop unquote http_get writable now base_path
                  config_key
                  (Scrapers.paper_links config_key (anchors_with_href text))
                  (log_request (base_url config) w0) 0) as Hdry.
    cbn zeta in Hdry.
    destruct (process_links base_path config_key dry_run _ _ 0)
      as [w1 res] eqn:E.
    cbn [fst snd] in *.
    assert (ledger w1 = Some (ledger_base w ++ rows)) as Hl1.
    { unfold ledger_rows in Hrows. cbn [log_request ledger] in Hrows.
      rewrite Hl0 in Hrows. cbn [default] in Hrows. unfold id in Hrows.
      destruct rows as [|row rows].
      - rewrite Hnil by done. cbn [log_request ledger]. by rewrite app_nil_r.
      - destruct (ledger w1) as [l1|]; cbn [default] in Hrows;
          unfold id in Hrows; [by subst |].
        by destruct (ledger_base w). }
    assert (dry_run = true →
            rows = [] ∧ disk w1 = disk w
            ∧ requests w1 = requests w ++ [base_url config]) as Hdry'.
    { intros ->. rewrite E in Hdry. cbn [fst snd] in Hdry.
      destruct Hdry as [-> _].
      cbn [log_request ledger disk requests] in *.
      rewrite Hl0 in Hl1. injection Hl1 as Hl1.
      split; [| by rewrite Hd0, Hr0].
      apply (f_equal length) in Hl1. rewrite length_app in Hl1.
      destruct rows; [done | cbn in Hl1; lia]. }
    exists rows. destruct res as [n | e]; cbn [fst snd].
    + split; [done |]. split; [done |]. split.
      { intros path Hp. apply Hmono. cbn. by rewrite Hd0. }
      split; [| done]. intros n' [= <-]. by rewrite (Hn n eq_refl).
    + split; [done |]. split; [done |]. split.
      { intros path Hp. apply Hmono. cbn. by rewrite Hd0. }
      split; [done | done].
  - exists []. cbn [fst snd log_request ledger disk requests].
    rewrite app_nil_r. split; [done |]. split; [done |].
    split; [intros path; by rewrite Hd0 |]. split; [done |].
    intros _. by rewrite Hd0, Hr0.
Qed.

(** X17: [scrape_papers] from outside.  For a key that [config.py] does not
    have it raises [KeyError] and has done nothing.  For a board of
    [config.py] it never starts the ledger afresh: the records that
    were there stay in front (a header is written only where there was
    no file), and those it adds are each of ten fields with their file
    on disk; when it returns, the number returned is the number of
    records added; a dry run adds none, writes no file and requests
    the main page only. *)
Theorem scrape_papers_outcome (base_path config_key : string)
    (dry_run : bool) (w : world) :
  let r := scrape_papers base_path config_key dry_run w in
  match dict_get Scrapers.CONFIGS config_key with
  | Raise _ => r = (w, Raises (Builtin KeyError))
  | Ok config =>
      ∃ rows,
        ledger r.1 = Some (ledger_base w ++ rows) ∧
        Forall (filed r.1) rows ∧
        (∀ n, r.2 = Returns n → n = length rows) ∧
        (dry_run = true →
         rows = [] ∧ disk r.1 = disk w ∧
         requests r.1 = requests w ++ [base_url config])
  end.
Proof.
  cbn zeta. destruct (dict_get Scrapers.CONFIGS config_key) as [config|e] eqn:E.
  - destruct (scrape_papers_known base_path config_key dry_run w config E)
      as (rows & H1 & H2 & _ & H3 & H4).
    by exists rows.
  - unfold Unified.scrape_papers, Unified.scrape_with. rewrite E.
    assert (e = KeyError) as ->; [| done].
    clear -E. induction Scrapers.CONFIGS as [|[k v] d IH]; cbn in E.
    + by injection E.
    + destruct (String.eqb k config_key); [done | auto].
Qed.

Lemma split_go_nonempty (sep : string) (skip : nat) (cur s : string) :
  Py.split_go sep skip cur s ≠ [].
Proof.
  revert skip cur. induction s as [|c s IH]; intros skip cur; [done |].
  cbn [Py.split_go]. destruct skip; [| apply IH].
  destruct (String.prefix sep (String c s)); [done | apply IH].
Qed.

(** The boards [main] settles on are boards of [config.py], and there
    is at least one. *)
Lemma boards_known (board_arg : string) (boards : list string) :
  Cli.boards_of board_arg = Some boards →
  boards ≠ [] ∧
  Forall (λ board, ∃ config, dict_get Scrapers.CONFIGS board = Ok config) boards.
Proof.
  unfold Cli.boards_of. destruct (String.eqb (Py.lower board_arg) "all").
  - intros [= <-]. split; [done |]. cbn. repeat constructor; by eexists.
  - destruct (forallb Cli.known_board _) eqn:E; [| done]. intros [= <-]. split.
    + intros H%fmap_nil_inv. by apply split_go_nonempty in H.
    + apply Forall_forall. intros b Hb.
      rewrite forallb_forall in E. apply list_elem_of_In, E in Hb.
      unfold Cli.known_board in Hb.
      destruct (dict_get Scrapers.CONFIGS b); [by eexists | done].
Qed.

(** X18: One name that [config.py] does not have among those asked for
    stops [main] before anything is done, also for the boards named
    before it. *)
Theorem cli_unknown_board (board_arg output board : string) (dry_run : bool)
    (w : world) :
  Py.lower board_arg ≠ "all" →
  board ∈ Py.strip <$> Py.split "," board_arg →
  dict_get Scrapers.CONFIGS board = Raise KeyError →
  main board_arg output dry_run w = (w, None).
Proof.
  intros Hall Hin Hkey. unfold Cli.main, Cli.boards_of.
  rewrite (proj2 (String.eqb_neq _ _) Hall).
  destruct (forallb Cli.known_board _) eqn:E; [| done].
  rewrite forallb_forall in E. apply list_elem_of_In, E in Hin.
  unfold Cli.known_board in Hin. by rewrite Hkey in Hin.
Qed.

Lemma scrape_boards_spec (output : string) (dry_run : bool)
    (boards : list string) (w : world) (total : nat) :
  Forall (λ board, ∃ config, dict_get Scrapers.CONFIGS board = Ok config)
    boards →
  let r := scrape_boards output dry_run boards w total in
  ∃ rows,
    (boards = [] ∧ r.1 = w ∧ rows = []
     ∨ ledger r.1 = Some (ledger_base w ++ rows)) ∧
    Forall (filed r.1) rows ∧
    (∀ path, is_Some (disk w !! path) → is_Some (disk r.1 !! path)) ∧
    total ≤ r.2 ∧ r.2 ≤ total + length rows ∧
    (dry_run = true →
     r.2 = total ∧ rows = [] ∧ disk r.1 = disk w ∧
     requests r.1 = requests w ++ main_pages boards).
Proof.
  intros Hknown. cbn zeta. revert w total.
  induction Hknown as [|board boards [config Hconfig] Hknown IH];
    intros w total.
  - exists []. cbn. repeat split; auto; [lia | by rewrite app_nil_r].
  - cbn [Cli.scrape_boards].
    destruct (scrape_papers_known output board dry_run w config Hconfig)
      as (rows1 & Hl1 & Hf1 & Hm1 & Hn1 & Hdry1).
    destruct (scrape_papers output board dry_run w) as [w1 res].
    cbn [fst snd] in *.
    assert (∀ total',
              total ≤ total' ≤ total + length rows1 →
              (dry_run = true → total' = total) →
              let r := scrape_boards output dry_run boards w1 total' in
              ∃ rows,
                (board :: boards = [] ∧ r.1 = w ∧ rows = []
                 ∨ ledger r.1 = Some (ledger_base w ++ rows)) ∧
                Forall (filed r.1) rows ∧
                (∀ path, is_Some (disk w !! path) → is_Some (disk r.1 !! path)) ∧
                total ≤ r.2 ∧ r.2 ≤ total + length rows ∧
                (dry_run = true →
                 r.2 = total ∧ rows = [] ∧ disk r.1 = disk w ∧
                 requests r.1 = requests w ++ main_pages (board :: boards)))
      as Hgo.
    { intros total' Ht Hdt. cbn zeta.
      destruct (IH w1 total') as (rows2 & Hl2 & Hf2 & Hm2 & Hlo & Hhi & Hdry2).
      assert (ledger_base w1 = ledger_base w ++ rows1) as Hb1
        by (unfold ledger_base at 1; by rewrite Hl1).
      exists (rows1 ++ rows2). split; [| split; [| split; [| split; [| split]]]].
      - right. destruct Hl2 as [(-> & Hw & ->) | Hl2].
        + cbn in Hw |- *. by rewrite app_nil_r.
        + by rewrite Hl2, Hb1, <- app_assoc.
      - apply Forall_app. split; [| done].
        eapply Forall_impl; [exact Hf1 |]. intros row. by apply filed_mono.
      - auto.
      - lia.
      - rewrite length_app. lia.
      - intros Hd. destruct (Hdry1 Hd) as (-> & Hd1 & Hr1).
        destruct (Hdry2 Hd) as (-> & -> & Hd2 & Hr2).
        split; [auto |]. split; [done |]. split; [congruence |].
        rewrite Hr2, Hr1, <- app_assoc. unfold main_pages.
        cbn [omap list_omap]. by rewrite Hconfig. }
    destruct res as [n | e].
    + apply Hgo.
      * rewrite (Hn1 n eq_refl). lia.
      * intros Hd. destruct (Hdry1 Hd) as (Hr & _).
        rewrite (Hn1 n eq_refl), Hr. cbn. lia.
    + apply Hgo; [lia | done].
Qed.

(** X19: The total that [main] prints never exceeds the number of records
    the run added to the ledger, behind those that were there (or
    behind the header, where there was no file): the records a board
    added before an exception ended it are in the ledger and not in
    the total.  Every record added has ten fields and its file on
    disk. *)
Theorem cli_total_bounded (board_arg output : string) (dry_run : bool)
    (w w' : world) (total : nat) :
  main board_arg output dry_run w = (w', Some total) →
  ∃ rows,
    ledger w' = Some (ledger_base w ++ rows) ∧
    Forall (filed w') rows ∧
    total ≤ length rows.
Proof.
  unfold Cli.main.
  destruct (Cli.boards_of board_arg) as [boards|] eqn:E; [| done].
  apply boards_known in E as [Hne Hknown].
  destruct (scrape_boards_spec output dry_run boards w 0 Hknown)
    as (rows & Hl & Hf & _ & _ & Hhi & _).
  destruct (scrape_boards output dry_run boards w 0) as [w1 t].
  cbn [fst snd] in *. intros [= <- <-]. exists rows.
  destruct Hl as [(-> & _) | Hl]; [done |]. split; [done |]. split; [done | lia].
Qed.

(** X20: A dry run of [main] requests the main page of each board asked
    for and nothing else, writes no file, counts nothing, and leaves
    the ledger as it was, or holding the header alone where there was
    no file. *)
Theorem cli_dry_run (board_arg output : string) (boards : list string)
    (w : world) :
  Cli.boards_of board_arg = Some boards →
  main board_arg output true w
  = (mk_world (disk w) (Some (ledger_base w))
       (requests w ++ main_pages boards), Some 0).
Proof.
  intros E. unfold Cli.main. rewrite E.
  apply boards_known in E as [Hne Hknown].
  destruct (scrape_boards_spec output true boards w 0 Hknown)
    as (rows & Hl & _ & _ & _ & _ & Hdry).
  destruct (scrape_boards output true boards w 0) as [w1 t].
  cbn [fst snd] in *.
  destruct (Hdry eq_refl) as (-> & -> & Hd & Hr).
  destruct Hl as [(-> & _) | Hl]; [done |]. rewrite app_nil_r in Hl.
  destruct w1 as [d l r]. cbn in *. by subst.
Qed.

(** *** No resume in the unified scraper *)

Lemma download_ignores_ledger (p : Scrapers.plan) (w1 w2 : world) :
  disk w1 = disk w2 → requests w1 = requests w2 →
  let r1 := Scrapers.download http_get writable now p w1 in
  let r2 := Scrapers.download http_get writable now p w2 in
  disk r1.1 = disk r2.1 ∧ requests r1.1 = requests r2.1 ∧ r1.2 = r2.2.
Proof.
  destruct w1 as [d1 l1 r1], w2 as [d2 l2 r2]. cbn [disk requests].
  intros -> ->. cbn zeta. unfold Scrapers.download, Scrapers.get.
  cbn [requests log_request disk ledger].
  destruct (http_get (length r2) (Scrapers.plan_url p)) as [[st b]|];
    cbv beta iota; [| done].
  rewrite !on_status_400. destruct (st =? 400).
  - cbn [requests].
    destruct (http_get (length (r2 ++ [Scrapers.plan_url p]))
                (Scrapers.plan_url p)) as [[st2 b2]|];
      cbv beta iota; [| done].
    rewrite !on_status_200. destruct (st2 =? 200); [| done].
    by destruct (writable (Scrapers.plan_path p)).
  - rewrite !on_status_200. destruct (st =? 200); [| done].
    by destruct (writable (Scrapers.plan_path p)).
Qed.

Lemma process_links_ignore_ledger (base_path config_key : string)
    (dry_run : bool) (links : list (string * string)) (w1 w2 : world)
    (count : nat) :
  disk w1 = disk w2 → requests w1 = requests w2 →
  let r1 := process_links base_path config_key dry_run links w1 count in
  let r2 := process_links base_path config_key dry_run links w2 count in
  disk r1.1 = disk r2.1 ∧ requests r1.1 = requests r2.1 ∧ r1.2 = r2.2.
Proof.
  cbn zeta. revert w1 w2 count.
  induction links as [|link links IH]; intros w1 w2 count Hd Hr; [done |].
  cbn [Scrapers.process_links]. unfold Scrapers.process_link.
  destruct (Scrapers.classify_link unquote base_path config_key link)
    as [[why | p] | e]; [by apply IH | | done].
  destruct dry_run; [by apply IH |].
  pose proof (download_ignores_ledger p w1 w2 Hd Hr) as H. cbn zeta in H.
  destruct (Scrapers.download http_get writable now p w1) as [w1' got1],
    (Scrapers.download http_get writable now p w2) as [w2' got2].
  cbn [fst snd] in H. destruct H as (Hd' & Hr' & <-). by apply IH.
Qed.

(** X21: The unified scraper has no resume: what a call of [scrape_papers]
    requests, what it writes and what it returns are the same whatever
    the ledger holds, and whether there is one. *)
Theorem scrape_papers_ignores_ledger (base_path config_key : string)
    (dry_run : bool) (w1 w2 : world) :
  disk w1 = disk w2 → requests w1 = requests w2 →
  let r1 := scrape_papers base_path config_key dry_run w1 in
  let r2 := scrape_papers base_path config_key dry_run w2 in
  disk r1.1 = disk r2.1 ∧ requests r1.1 = requests r2.1 ∧ r1.2 = r2.2.
Proof.
  intros Hd Hr. cbn zeta. unfold Unified.scrape_papers, Unified.scrape_with.
  destruct (dict_get Scrapers.CONFIGS config_key) as [config|e]; [| done].
  destruct (Utils.create_folder_structure _ _ _) as [folders [e|]]; [done |].
  set (v1 := match ledger w1 with
             | Some _ => w1 | None => Utils.initialize_tracking_csv w1 end).
  set (v2 := match ledger w2 with
             | Some _ => w2 | None => Utils.initialize_tracking_csv w2 end).
  assert (disk v1 = disk v2 ∧ requests v1 = requests v2) as [Hd' Hr'].
  { subst v1 v2. by destruct (ledger w1), (ledger w2). }
  unfold Scrapers.get. rewrite Hr'.
  destruct (http_get (length (requests v2)) (base_url config)) as [[st text]|].
  - pose proof (process_links_ignore_ledger base_path config_key dry_run
                  (Scrapers.paper_links config_key (anchors_with_href text))
                  (log_request (base_url config) v1)
                  (log_request (base_url config) v2) 0) as H.
    cbn zeta in H.
    destruct (process_links _ _ _ _ (log_request (base_url config) v1) 0)
      as [u1 res1],
      (process_links _ _ _ _ (log_request (base_url config) v2) 0)
      as [u2 res2].
    cbn [fst snd] in H.
    destruct H as (Hd2 & Hr2 & <-); [done | by cbn; rewrite Hr' |].
    by destruct res1.
  - cbn. by rewrite Hd', Hr'.
Qed.

End WholeRun.

Lemma malformed_redirect_ends_loop_witness :
  Scrapers.process_links (λ s, s) site_get (λ _, true) sample_now
    "/data" "aqa_alevel" false
    ([("https://pmt.example/June-2019-Paper-1-QP.pdf", "June 2019 QP")] ++
     ("https://pmt.example/pdf-pages/Paper-1", "June 2018 QP")
     :: [("https://pmt.example/June-2017-Paper-1-QP.pdf", "June 2017 QP")])
    fresh_world 0
  = match Scrapers.process_links (λ s, s) site_get (λ _, true) sample_now
            "/data" "aqa_alevel" false
            [("https://pmt.example/June-2019-Paper-1-QP.pdf", "June 2019 QP")]
            fresh_world 0 with
    | (w', Ok _) => (w', Raise IndexError)
    | r => r
    end.
Proof.
  exact (malformed_redirect_ends_loop (λ s, s) site_get (λ _, true) sample_now
           "/data" "aqa_alevel" false
           [("https://pmt.example/June-2019-Paper-1-QP.pdf", "June 2019 QP")]
           [("https://pmt.example/June-2017-Paper-1-QP.pdf", "June 2017 QP")]
           "https://pmt.example/pdf-pages/Paper-1" "June 2018 QP"
           fresh_world 0 eq_refl eq_refl).
Defined.

Lemma cli_unknown_board_witness :
  site_main "aqa_alevel, edexcel" false fresh_world = (fresh_world, None).
Proof.
  apply (cli_unknown_board (λ s, s) site_get (λ _, true) sample_now site_anchors
           "aqa_alevel, edexcel" "/data" "edexcel" false fresh_world).
  - done.
  - vm_compute. right. left.
  - reflexivity.
Defined.

Lemma cli_total_bounded_witness :
  ∃ rows,
    ledger (site_main "aqa_alevel" false fresh_world).1
      = Some (ledger_base fresh_world ++ rows) ∧
    Forall (filed (site_main "aqa_alevel" false fresh_world).1) rows ∧
    2 ≤ length rows.
Proof.
  apply (cli_total_bounded (λ s, s) site_get (λ _, true) sample_now site_anchors
           "aqa_alevel" "/data" false fresh_world).
  by vm_compute.
Defined.

Lemma cli_dry_run_witness :
  site_main "All" true fresh_world
  = (mk_world ∅ (Some [Utils.ledger_header])
       (main_pages ["ocr_alevel"; "ocr_mei_alevel"; "aqa_alevel"; "edexcel_alevel"]),
     Some 0).
Proof.
  exact (cli_dry_run (λ s, s) site_get (λ _, true) sample_now site_anchors
           "All" "/data" _ fresh_world eq_refl).
Defined.

Lemma scrape_papers_ignores_ledger_witness :
  let run := Unified.scrape_papers (λ s, s) site_get (λ _, true) sample_now
               site_anchors "/data" "aqa_alevel" false in
  let kept := mk_world ∅ (Some [Utils.ledger_header; ["June-2019-Paper-1-QP.pdf"]]) [] in
  disk (run fresh_world).1 = disk (run kept).1 ∧
  requests (run fresh_world).1 = requests (run kept).1 ∧
  (run fresh_world).2 = (run kept).2.
Proof.
  exact (scrape_papers_ignores_ledger (λ s, s) site_get (λ _, true) sample_now
           site_anchors "/data" "aqa_alevel" false fresh_world
           (mk_world ∅ (Some [Utils.ledger_header; ["June-2019-Paper-1-QP.pdf"]]) [])
           eq_refl eq_refl).
Defined.

(** ** Which links are gathered *)

(** X22: The links [scrape_pmt_papers] gathers below a section heading are
    the links of the [div]s that come before the first [hr] or heading,
    each with the content type its [div] announces: ["QP"] when the
    [h5]/[h6] text has ["Question"] in it, else ["MS"] when it has
    ["Mark"] or ["MS"]; a [div] that announces neither gives no link. *)
Theorem gathered_links (els : list element) (href link_text content_type : string) :
  (href, link_text, content_type) ∈ Main.gather els ↔
  ∃ before ids heading links rest,
    els = before ++ Div ids heading links :: rest ∧
    Forall (λ e, e ≠ Hr ∧ Main.is_heading e = false) before ∧
    (href, link_text) ∈ links ∧
    Main.content_kind heading = Some content_type.
Proof.
  induction els as [|e els IH].
  - split; [by intros ?%elem_of_nil |].
    intros (before & ids & h & links & rest & H & _). by destruct before.
  - destruct e as [lvl text ids | ids h links | | ids]; cbn [Main.gather].
    + split; [by intros ?%elem_of_nil |].
      intros (before & ids' & h & links & rest & H & Hb & _).
      destruct before as [|e before]; [done |]. injection H as <- _.
      apply Forall_cons in Hb as [[_ Hb] _]. done.
    + rewrite elem_of_app, IH. split.
      * intros [Hin | (before & ids' & h' & links' & rest & -> & Hb & Hin & Hk)].
        -- exists [], ids, h, links, els. split; [done |]. split; [done |].
           destruct (Main.content_kind h) as [ct|]; [| by apply elem_of_nil in Hin].
           apply list_elem_of_fmap in Hin as ([hr tx] & [= -> -> ->] & Hin).
           done.
        -- exists (Div ids h links :: before), ids', h', links', rest.
           split; [done |]. split; [| done]. by constructor.
      * intros (before & ids' & h' & links' & rest & H & Hb & Hin & Hk).
        destruct before as [|e before].
        -- injection H as -> -> -> ->. left. rewrite Hk.
           apply list_elem_of_fmap. by exists (href, link_text).
        -- injection H as <- ->. right.
           apply Forall_cons in Hb as [_ Hb].
           by exists before, ids', h', links', rest.
    + split; [by intros ?%elem_of_nil |].
      intros (before & ids' & h & links & rest & H & Hb & _).
      destruct before as [|e before]; [done |]. injection H as <- _.
      apply Forall_cons in Hb as [[Hb _] _]. done.
    + rewrite IH. split.
      * intros (before & ids' & h' & links' & rest & -> & Hb & Hin & Hk).
        exists (Other ids :: before), ids', h', links', rest.
        split; [done |]. split; [| done]. by constructor.
      * intros (before & ids' & h' & links' & rest & H & Hb & Hin & Hk).
        destruct before as [|e before]; [done |]. injection H as <- ->.
        apply Forall_cons in Hb as [_ Hb].
        by exists before, ids', h', links', rest.
Qed.

(** ** Stripping and the link filter *)

(** X23: The links [scrape_papers] keeps from the page all carry ["QP"] or
    ["MS"] in their stripped text, so the loop never skips one of them
    for an unknown content type: it is skipped for its paper number,
    or planned, or its redirect raises. *)
Theorem paper_links_are_typed (unquote : string → string)
    (base_path config_key : string) (anchors : list (string * string))
    (link : string * string) :
  link ∈ Scrapers.paper_links config_key anchors →
  (Py.contains "QP" link.2 = true ∨ Py.contains "MS" link.2 = true) ∧
  Scrapers.classify_link unquote base_path config_key link
    ≠ Ok (Scrapers.Skipped UnknownContentType).
Proof.
  unfold Scrapers.paper_links.
  intros ([href text] & -> & Hin)%list_elem_of_fmap.
  apply list_elem_of_filter in Hin as [Hf _]. cbn [fst snd] in *.
  assert (Py.contains "QP" (Py.strip text) = true
          ∨ Py.contains "MS" (Py.strip text) = true) as Hty.
  { rewrite !contains_strip by done. unfold Scrapers.is_paper_link in Hf.
    cbn [fst snd] in Hf.
    destruct (String.eqb config_key "aqa_alevel");
      [apply andb_true_iff in Hf as [Hf _] |];
      by apply orb_true_iff in Hf. }
  split; [done |]. unfold Scrapers.classify_link.
  destruct (Scrapers.resolve_href unquote href) as [href'|e]; [| done].
  cbn [mbind result_bind].
  destruct (Scrapers.determine_paper_number href' (Py.strip text) config_key)
    as [[[|c pn]|] dn]; [done | | done].
  destruct Hty as [-> | HMS].
  - by destruct (Scrapers.extract_metadata _ _ _ _ _).
  - rewrite HMS. destruct (Py.contains "QP" (Py.strip text));
      by destruct (Scrapers.extract_metadata _ _ _ _ _).
Qed.

Lemma paper_links_are_typed_witness :
  Scrapers.classify_link (λ s, s) "/data" "ocr_alevel"
    ("https://pmt.example/June-2019-QP.pdf", "June 2019 QP")
  ≠ Ok (Scrapers.Skipped UnknownContentType).
Proof.
  apply (paper_links_are_typed (λ s, s) "/data" "ocr_alevel"
           [("https://pmt.example/June-2019-QP.pdf", "  June 2019 QP ");
            ("https://pmt.example/about", "About")]
           ("https://pmt.example/June-2019-QP.pdf", "June 2019 QP")).
  vm_compute. left.
Defined.

(** ** Redirect links *)

(** ["?pdf="] begins nowhere inside a string that does not contain it,
    even when the separator itself follows. *)
Lemma pdf_param_not_early (a b : string) :
  Py.contains "?pdf=" a = false →
  String.prefix "?pdf=" (a +:+ "?pdf=" +:+ b) = true → a = "".
Proof.
  intros Ha (t & Ht)%prefix_app.
  destruct a as [|c1 a]; [done |]. exfalso.
  assert (String.prefix "?pdf=" (String c1 a) = false) as Hp
    by (rewrite contains_cons in Ha; by apply orb_false_iff in Ha as [? _]).
  rewrite append_cons in Ht. injection Ht as -> Ht.
  destruct a as [|c2 a]; [discriminate Ht |].
  rewrite append_cons in Ht. injection Ht as -> Ht.
  destruct a as [|c3 a]; [discriminate Ht |].
  rewrite append_cons in Ht. injection Ht as -> Ht.
  destruct a as [|c4 a]; [discriminate Ht |].
  rewrite append_cons in Ht. injection Ht as -> Ht.
  destruct a as [|c5 a]; [discriminate Ht |].
  rewrite append_cons in Ht. injection Ht as -> Ht.
  assert (String.prefix "?pdf=" ("?pdf=" +:+ a) = true) as Hp'
    by (apply prefix_app; by exists a).
  change ("?pdf=" +:+ a) with (String "?" (String "p" (String "d"
    (String "f" (String "=" a))))) in Hp'.
  congruence.
Qed.

Lemma split_go_pdf_param (cur a b : string) :
  Py.contains "?pdf=" a = false → Py.contains "?pdf=" b = false →
  Py.split_go "?pdf=" 0 cur (a +:+ "?pdf=" +:+ b) = [String.rev_app cur a; b].
Proof.
  intros Ha Hb. revert cur Ha. induction a as [|c a IH]; intros cur Ha.
  - rewrite append_empty_l.
    change ("?pdf=" +:+ b) with (String "?" (String "p" (String "d"
      (String "f" (String "=" b))))).
    cbn [Py.split_go String.prefix String.length Nat.sub].
    cbn. rewrite split_go_absent by done.
    replace (String.prefix "" b) with true by (by destruct b). done.
  - rewrite append_cons. cbn [Py.split_go].
    destruct (String.prefix "?pdf=" (String c (a +:+ "?pdf=" +:+ b))) eqn:Hp.
    + rewrite <- append_cons in Hp. by apply pdf_param_not_early in Hp.
    + rewrite IH; [done |]. rewrite contains_cons in Ha.
      by apply orb_false_iff in Ha as [_ ?].
Qed.

(** X24: The redirect rewrite at the head of the loop body of
    [scrape_papers].  An address without ["pdf-pages"] is taken as it
    is.  An address with it and with one ["?pdf="] is replaced by what
    follows the ["?pdf="], unquoted, and the link is then treated as a
    link to that address would be: there the paper number is looked
    for, that is what is requested and what names the file. *)
Theorem redirect_resolves (unquote : string → string)
    (base_path config_key page target link_text : string) :
  Py.contains "pdf-pages" (page +:+ "?pdf=" +:+ target) = true →
  Py.contains "?pdf=" page = false →
  Py.contains "?pdf=" target = false →
  Scrapers.resolve_href unquote (page +:+ "?pdf=" +:+ target)
    = Ok (unquote target) ∧
  (Py.contains "pdf-pages" (unquote target) = false →
   Scrapers.classify_link unquote base_path config_key
     (page +:+ "?pdf=" +:+ target, link_text)
   = Scrapers.classify_link unquote base_path config_key
       (unquote target, link_text)) ∧
  ∀ href, Py.contains "pdf-pages" href = false →
          Scrapers.resolve_href unquote href = Ok href.
Proof.
  intros Hpages Hpage Htarget.
  assert (Scrapers.resolve_href unquote (page +:+ "?pdf=" +:+ target)
          = Ok (unquote target)) as Hres.
  { unfold Scrapers.resolve_href, Py.split. rewrite Hpages.
    by rewrite split_go_pdf_param. }
  split; [done |]. split.
  - intros E. unfold Scrapers.classify_link. rewrite Hres.
    unfold Scrapers.resolve_href. by rewrite E.
  - intros href Hh. unfold Scrapers.resolve_href. by rewrite Hh.
Qed.

Lemma redirect_resolves_witness :
  Scrapers.resolve_href (λ s, s)
    ("https://pmt.example/pdf-pages/" +:+ "?pdf="
     +:+ "https://pmt.example/June-2019-Paper-1-QP.pdf")
  = Ok "https://pmt.example/June-2019-Paper-1-QP.pdf".
Proof.
  exact (proj1 (redirect_resolves (λ s, s) "/data" "aqa_alevel"
    "https://pmt.example/pdf-pages/"
    "https://pmt.example/June-2019-Paper-1-QP.pdf" "June 2019 QP"
    eq_refl eq_refl eq_refl)).
Defined.
